(** * Yard simulation and assignment engine (YardSimulator)

    A shallow embedding of the [YardSimulator] class and of the yard types it
    works on, followed by the properties of the engine.

    Conventions of the embedding.
    - A JS object used as a dictionary ([Record<string, T>]) is an association
      list in insertion order: [Object.values] and [Object.keys] walk it from
      the front, and an assignment to an existing key updates in place.  The
      keys of the yard are node ids and generated train ids, none of which is
      an array index, so insertion order is the enumeration order.
    - A read [registry[id]] is the lookup of an own key ([oget]).  The
      registries are object literals, so for an id that is no key of the
      registry but names a member of [Object.prototype] ([constructor],
      [toString], ...) the read of the code is answered by that member.  The
      methods of the engine are embedded for the other ids; the two public
      assignments are embedded for every id in module [Public]; and a
      statement that rests on a read finding nothing says that the id is
      [plain].
    - A JS [number] is a rational ([Q]); [NaN], which [parseInt] produces on a
      string without digits, is the [None] of [jsnum].  Rounding and infinities
      are outside the model.
    - [Date.now()] and [Math.random()] are inputs of the operation that reads
      them.
    - [setTimeout] appends the callback to the list of pending timers of the
      engine; a pending timer fires as a step of its own. *)

From Stdlib Require Import Ascii String ZArith QArith Qminmax Qround Lqa Lia.
From stdpp Require Import base decidable option list strings pretty sorting.

Local Open Scope string_scope.
Local Open Scope Z_scope.

(** ** JS values *)

(** A JS number that may be [NaN]. *)
Definition jsnum : Type := option Q.

Definition NaN : jsnum := None.

(** [x || d] on an optional number: 0, [NaN] and [undefined] are falsy. *)
Definition num_or (x : option Q) (d : Q) : Q :=
  match x with
  | Some q => if Qeq_bool q 0 then d else q
  | None => d
  end.

(** [x || d] on an optional string: the empty string and [undefined] are falsy. *)
Definition str_or (x : option string) (d : string) : string :=
  match x with
  | Some "" | None => d
  | Some s => s
  end.

(** Truthiness of an optional string, as in [if (slot.occupiedBy)]. *)
Definition truthy (x : option string) : bool :=
  match x with
  | Some "" | None => false
  | Some _ => true
  end.

(** [Math.max(0, x)]: [NaN] is propagated. *)
Definition Math_max0 (x : jsnum) : jsnum :=
  match x with
  | Some q => Some (Qmax 0 q)
  | None => None
  end.

(** Comparisons of JS numbers; any comparison with [NaN] is false. *)
Definition num_le (x y : jsnum) : Prop :=
  match x, y with
  | Some p, Some q => (p <= q)%Q
  | _, _ => False
  end.

Definition num_eq (x y : jsnum) : Prop :=
  match x, y with
  | Some p, Some q => (p == q)%Q
  | _, _ => False
  end.

(** [n > k] where [n] comes from [parseInt]. *)
Definition gtb_nan (n : option Z) (k : Z) : bool :=
  match n with
  | Some z => k <? z
  | None => false
  end.

(** *** [parseInt] and [substring]

    [parseInt(s)] without a radix: leading white space is skipped, a sign is
    read, a [0x] prefix selects base 16, and the longest prefix of digits is
    the value; no digit at all gives [NaN]. *)

Definition is_white_space (c : ascii) : bool :=
  let n := Z.of_nat (nat_of_ascii c) in
  (n =? 32) || ((9 <=? n) && (n <=? 13)).

Fixpoint skip_white_space (s : string) : string :=
  match s with
  | String c rest => if is_white_space c then skip_white_space rest else s
  | EmptyString => s
  end.

Definition digit_value (radix : Z) (c : ascii) : option Z :=
  let n := Z.of_nat (nat_of_ascii c) in
  let v :=
    if (48 <=? n) && (n <=? 57) then Some (n - 48)
    else if (97 <=? n) && (n <=? 122) then Some (n - 87)
    else if (65 <=? n) && (n <=? 90) then Some (n - 55)
    else None in
  match v with
  | Some d => if d <? radix then Some d else None
  | None => None
  end.

Fixpoint read_digits (radix : Z) (s : string) (acc : option Z) : option Z :=
  match s with
  | String c rest =>
      match digit_value radix c with
      | Some d => read_digits radix rest (Some (radix * default 0 acc + d))
      | None => acc
      end
  | EmptyString => acc
  end.

Definition parseInt (s : string) : option Z :=
  let s1 := skip_white_space s in
  let '(sign, s2) :=
    match s1 with
    | String "-" rest => (-1, rest)
    | String "+" rest => (1, rest)
    | _ => (1, s1)
    end in
  let '(radix, s3) :=
    match s2 with
    | String "0" (String "x" rest) => (16, rest)
    | String "0" (String "X" rest) => (16, rest)
    | _ => (10, s2)
    end in
  Z.mul sign <$> read_digits radix s3 None.

(** [s.substring(1)] *)
Definition substring1 (s : string) : string :=
  match s with
  | String _ rest => rest
  | EmptyString => EmptyString
  end.

(** ** The yard types *)

Inductive TrainStatus :=
  | arriving | queued | inspection | moving | parked | workshop | test | departed.

Inductive Orientation := north | south | east | west.

Inductive SlotLetter := slot_a | slot_b.

Inductive Risk := low | medium | high.

Global Instance TrainStatus_eq_dec : EqDecision TrainStatus.
Proof. solve_decision. Defined.
Global Instance SlotLetter_eq_dec : EqDecision SlotLetter.
Proof. solve_decision. Defined.
Global Instance Risk_eq_dec : EqDecision Risk.
Proof. solve_decision. Defined.

Record JobTask := mkJobTask {
  task_id : string;
  task_desc : string;
  task_done : bool
}.

(** [Train].  [plannedMoves] is never written by the engine and is left out. *)
Record Train := mkTrain {
  t_id : string;
  t_number : string;
  t_status : TrainStatus;
  locationNodeId : string;
  orientation : Orientation;
  fitness : Q;
  mileage : Q;
  jobCard : list JobTask;
  failures : list string;
  priority : bool;
  departSoon : bool;
  arrivalTime : Z;
  lastUpdated : Z
}.

Record SidingSlot := mkSidingSlot {
  sl_id : string;
  sidingId : string;
  slot : SlotLetter;
  sl_occupiedBy : option string;
  reverseCost : option Q;
  blockingRisk : option Risk
}.

(** ** Scoring of siding slots *)

Definition calculateBlockingRisk (sidingId : string) (slot : SlotLetter) : Risk :=
  let sidingNum := parseInt (substring1 sidingId) in
  match slot with
  | slot_a =>
      if gtb_nan sidingNum 8 then low
      else if gtb_nan sidingNum 4 then medium
      else high
  | slot_b =>
      if gtb_nan sidingNum 8 then medium else high
  end.

Definition calculateSidingScore (train : Train) (s : SidingSlot) : jsnum :=
  let score : Q := 100%Q in
  let score := if departSoon train && bool_decide (slot s = slot_a)
               then (score + 20)%Q else score in
  let score := if departSoon train && bool_decide (slot s = slot_b)
               then (score - 10)%Q else score in
  let score := (score - num_or (reverseCost s) 1 * 5)%Q in
  let score := if bool_decide (blockingRisk s = Some low)
               then (score + 10)%Q else score in
  let score := if bool_decide (blockingRisk s = Some high)
               then (score - 10)%Q else score in
  let sidingNum := parseInt (substring1 (sidingId s)) in
  let score : jsnum :=
    if priority train then
      match sidingNum with
      | Some n => Some (score + inject_Z ((13 - n) * 2))%Q
      | None => NaN
      end
    else Some score in
  Math_max0 score.

(** ** Objects used as dictionaries *)

Definition object (V : Type) : Type := list (string * V).

Section object.
Context {V : Type}.

(** [m[k]] *)
Fixpoint oget (k : string) (m : object V) : option V :=
  match m with
  | [] => None
  | (k', v) :: rest => if decide (k = k') then Some v else oget k rest
  end.

(** [m[k] = v] *)
Fixpoint oset (k : string) (v : V) (m : object V) : object V :=
  match m with
  | [] => [(k, v)]
  | (k', v') :: rest =>
      if decide (k = k') then (k, v) :: rest else (k', v') :: oset k v rest
  end.

Definition Object_keys (m : object V) : list string := m.*1.
Definition Object_values (m : object V) : list V := m.*2.
End object.

(** ** Resources, recommendations, events *)

Inductive BayStatus := bay_free | bay_occupied | bay_cleaning.
Inductive LineStatus := line_free | line_occupied | line_maintenance.

Global Instance BayStatus_eq_dec : EqDecision BayStatus.
Proof. solve_decision. Defined.
Global Instance LineStatus_eq_dec : EqDecision LineStatus.
Proof. solve_decision. Defined.

Record InspectionBay := mkInspectionBay {
  bay_id : string;
  bay_name : string;
  bay_nodeId : string;
  bay_occupiedBy : option string;
  inspectionStartTime : option Z;
  inspectionDuration : Q;
  bay_status : BayStatus
}.

Record WorkshopLine := mkWorkshopLine {
  ws_id : string;
  ws_name : string;
  ws_nodeId : string;
  ws_occupiedBy : option string;
  specialization : option string;
  capacity : Z;
  ws_status : LineStatus
}.

Inductive TargetType := target_siding | target_workshop | target_test.

(** [AssignmentRecommendation].  [distanceEstimate] and [ETAToPark] are
    floating-point square roots of node coordinates; they are shown to the
    operator and take no part in ranking or assignment, and are left out. *)
Record AssignmentRecommendation := mkRecommendation {
  targetId : string;
  targetType : TargetType;
  rec_slot : option SlotLetter;
  score : jsnum;
  rec_reverseCost : Q;
  rec_blockingRisk : Risk;
  estimatedShuntSteps : Z;
  reasoning : list string;
  warnings : list string
}.

Inductive EventType :=
  | train_created | train_moved | train_updated | switch_changed
  | inspection_result | workshop_updated | log_new | plan_preview
  | plan_start | plan_step | plan_complete | event_error
  | lock_acquired | lock_released.

Inductive Severity := sev_info | sev_warning | sev_error | sev_success.

(** The [data] payloads the engine attaches to its events.  [DataTrain] is the
    payload [{ train }] of a creation: it holds the train object itself, the
    one filed in the registry under [trainId] and updated in place from then
    on, not a copy of it; what a reader of the log finds in it is the train
    as it is at the time of reading.  [DataTargetOnly] is [{ targetId, slot }]
    for a target without slot letter. *)
Inductive EventData :=
  | DataTrain (trainId : string)
  | DataMove (fromNode toNode : string)
  | DataInspection (bayId : string) (passed : bool)
  | DataRecommendations (recommendations : list AssignmentRecommendation)
  | DataTarget (target : string) (letter : SlotLetter)
  | DataTargetOnly (target : string)
  | DataWorkshop (workshopId : string).

(** [YardEvent] without its random [id]. *)
Record YardEvent := mkEvent {
  ev_timestamp : Z;
  ev_type : EventType;
  ev_trainId : option string;
  ev_message : string;
  ev_severity : Severity;
  ev_data : option EventData
}.

(** ** Topology and state *)

(** The [metadata] of a slot node.  The source types it as an open record;
    the embedding covers the topologies whose slot metadata carries a siding
    id and a slot letter (without a siding id the constructor throws in
    [calculateBlockingRisk]). *)
Record Metadata := mkMetadata {
  md_sidingId : string;
  md_slot : SlotLetter;
  md_reverseCost : option Q
}.

(** The part of a topology [Node] the engine reads. *)
Record Node := mkNode {
  n_label : option string;
  n_metadata : option Metadata
}.

Record YardDefinition := mkYardDefinition {
  nodes : object Node;
  def_inspectionBays : list string;
  def_workshopLines : list string;
  def_sidingSlots : list string
}.

(** [YardState].  [lockedSegments], [activePlans] and [lastUpdate] are set at
    construction and never read or written again; they are left out. *)
Record YardState := mkYardState {
  trains : object Train;
  inspectionBays : object InspectionBay;
  workshopLines : object WorkshopLine;
  sidingSlots : object SidingSlot;
  eventLog : list YardEvent;
  simulationSpeed : Q
}.

(** Callbacks handed to [setTimeout]. *)
Inductive Callback :=
  | CbAutoAssignToInspection (trainId : string)
  | CbCompleteInspection (trainId bayId : string)
  | CbAssignTrainToSiding (trainId target : string) (letter : option SlotLetter)
  | CbAssignTrainToWorkshop (trainId target : string)
  | CbCompleteWorkshop (trainId workshopId : string).

Record Timer := mkTimer {
  callback : Callback;
  delay : Q
}.

(** The simulator object: its private state and the timers it has pending.
    Event handlers are outside observers and are not part of it. *)
Record Engine := mkEngine {
  state : YardState;
  timers : list Timer
}.

(** *** Field updates *)

Definition with_trains (f : object Train -> object Train) (e : Engine) : Engine :=
  let st := state e in
  mkEngine (mkYardState (f (trains st)) (inspectionBays st) (workshopLines st)
              (sidingSlots st) (eventLog st) (simulationSpeed st)) (timers e).

Definition with_inspectionBays
    (f : object InspectionBay -> object InspectionBay) (e : Engine) : Engine :=
  let st := state e in
  mkEngine (mkYardState (trains st) (f (inspectionBays st)) (workshopLines st)
              (sidingSlots st) (eventLog st) (simulationSpeed st)) (timers e).

Definition with_workshopLines
    (f : object WorkshopLine -> object WorkshopLine) (e : Engine) : Engine :=
  let st := state e in
  mkEngine (mkYardState (trains st) (inspectionBays st) (f (workshopLines st))
              (sidingSlots st) (eventLog st) (simulationSpeed st)) (timers e).

Definition with_sidingSlots
    (f : object SidingSlot -> object SidingSlot) (e : Engine) : Engine :=
  let st := state e in
  mkEngine (mkYardState (trains st) (inspectionBays st) (workshopLines st)
              (f (sidingSlots st)) (eventLog st) (simulationSpeed st)) (timers e).

Definition with_simulationSpeed (v : Q) (e : Engine) : Engine :=
  let st := state e in
  mkEngine (mkYardState (trains st) (inspectionBays st) (workshopLines st)
              (sidingSlots st) (eventLog st) v) (timers e).

(** [setTimeout(cb, ms)] *)
Definition setTimeout (cb : Callback) (ms : Q) (e : Engine) : Engine :=
  mkEngine (state e) (timers e ++ [mkTimer cb ms]).

(** [emitEvent]: the event is stamped and pushed on the log. *)
Definition emitEvent (now : Z) (ty : EventType) (trainId : option string)
    (message : string) (severity : Severity) (data : option EventData)
    (e : Engine) : Engine :=
  let st := state e in
  let fullEvent := mkEvent now ty trainId message severity data in
  mkEngine (mkYardState (trains st) (inspectionBays st) (workshopLines st)
              (sidingSlots st) (eventLog st ++ [fullEvent]) (simulationSpeed st))
           (timers e).

(** Updates of one field of a train, a bay, a line or a slot. *)
Definition train_moved_to (status : TrainStatus) (node : string) (now : Z)
    (t : Train) : Train :=
  mkTrain (t_id t) (t_number t) status node (orientation t) (fitness t)
    (mileage t) (jobCard t) (failures t) (priority t) (departSoon t)
    (arrivalTime t) now.

Definition train_with_status (status : TrainStatus) (t : Train) : Train :=
  mkTrain (t_id t) (t_number t) status (locationNodeId t) (orientation t)
    (fitness t) (mileage t) (jobCard t) (failures t) (priority t)
    (departSoon t) (arrivalTime t) (lastUpdated t).

Definition train_repaired (now : Z) (t : Train) : Train :=
  mkTrain (t_id t) (t_number t) moving (locationNodeId t) (orientation t)
    (Qmin 100 (fitness t + 20)) (mileage t) (jobCard t) [] (priority t)
    (departSoon t) (arrivalTime t) now.

Definition bay_claimed (trainId : string) (now : Z) (b : InspectionBay)
    : InspectionBay :=
  mkInspectionBay (bay_id b) (bay_name b) (bay_nodeId b) (Some trainId)
    (Some now) (inspectionDuration b) bay_occupied.

Definition bay_released (b : InspectionBay) : InspectionBay :=
  mkInspectionBay (bay_id b) (bay_name b) (bay_nodeId b) None None
    (inspectionDuration b) bay_free.

Definition line_claimed (trainId : string) (w : WorkshopLine) : WorkshopLine :=
  mkWorkshopLine (ws_id w) (ws_name w) (ws_nodeId w) (Some trainId)
    (specialization w) (capacity w) line_occupied.

Definition line_released (w : WorkshopLine) : WorkshopLine :=
  mkWorkshopLine (ws_id w) (ws_name w) (ws_nodeId w) None
    (specialization w) (capacity w) line_free.

Definition slot_claimed (trainId : string) (s : SidingSlot) : SidingSlot :=
  mkSidingSlot (sl_id s) (sidingId s) (slot s) (Some trainId) (reverseCost s)
    (blockingRisk s).

(** ** Construction *)

Definition slot_letter_string (l : SlotLetter) : string :=
  match l with slot_a => "a" | slot_b => "b" end.

Section construction.
Variable definition : YardDefinition.

(** The three [forEach] loops of [initializeState].  Reading a property of a
    node that is not in the topology is a [TypeError] in the constructor:
    [None]. *)
Fixpoint init_inspectionBays (ids : list string) (index : Z)
    (acc : object InspectionBay) : option (object InspectionBay) :=
  match ids with
  | [] => Some acc
  | nodeId :: rest =>
      node ← oget nodeId (nodes definition);
      init_inspectionBays rest (index + 1)
        (oset nodeId
           (mkInspectionBay nodeId
              (str_or (n_label node) ("IL-" +:+ pretty (index + 1)))
              nodeId None None (5 * 60 * 1000) bay_free)
           acc)
  end.

Fixpoint init_workshopLines (ids : list string) (index : Z)
    (acc : object WorkshopLine) : option (object WorkshopLine) :=
  match ids with
  | [] => Some acc
  | nodeId :: rest =>
      node ← oget nodeId (nodes definition);
      let specialization :=
        if decide (nodeId = "WL4") then Some "wheel-alignment" else None in
      init_workshopLines rest (index + 1)
        (oset nodeId
           (mkWorkshopLine nodeId
              (str_or (n_label node) ("WL-" +:+ pretty (index + 1)))
              nodeId None specialization 1 line_free)
           acc)
  end.

Fixpoint init_sidingSlots (ids : list string) (acc : object SidingSlot)
    : option (object SidingSlot) :=
  match ids with
  | [] => Some acc
  | nodeId :: rest =>
      node ← oget nodeId (nodes definition);
      match n_metadata node with
      | Some metadata =>
          init_sidingSlots rest
            (oset nodeId
               (mkSidingSlot nodeId (md_sidingId metadata) (md_slot metadata)
                  None (md_reverseCost metadata)
                  (Some (calculateBlockingRisk (md_sidingId metadata)
                           (md_slot metadata))))
               acc)
      | None => init_sidingSlots rest acc
      end
  end.

Definition initializeState : option YardState :=
  bays ← init_inspectionBays (def_inspectionBays definition) 0 [];
  lines ← init_workshopLines (def_workshopLines definition) 0 [];
  slots ← init_sidingSlots (def_sidingSlots definition) [];
  Some (mkYardState [] bays lines slots [] 1).

(** [new YardSimulator(definition)] *)
Definition newYardSimulator : option Engine :=
  st ← initializeState; Some (mkEngine st []).
End construction.

(** ** Recommendations *)

Definition includes (x : string) (l : list string) : bool :=
  bool_decide (x ∈ l).

Definition calculateWorkshopScore (train : Train) (ws : WorkshopLine) : jsnum :=
  let score : Q := 100%Q in
  let score :=
    if includes "wheel-alignment" (failures train)
       && bool_decide (specialization ws = Some "wheel-alignment")
    then (score + 50)%Q else score in
  let score :=
    if priority train && bool_decide (ws_id ws = "WL1")
    then (score + 10)%Q else score in
  Some score.

Definition generateSidingReasoning (train : Train) (s : SidingSlot) : list string :=
  (if bool_decide (slot s = slot_a)
   then ["Front position - easier departure"] else []) ++
  (if bool_decide (blockingRisk s = Some low)
   then ["Low blocking risk"] else []) ++
  (if departSoon train && bool_decide (slot s = slot_a)
   then ["Suitable for morning departure"] else []) ++
  (if priority train then ["Priority train - close to exit"] else []).

Definition generateSidingWarnings (train : Train) (s : SidingSlot) : list string :=
  (if bool_decide (blockingRisk s = Some high)
   then ["High blocking risk for future operations"] else []) ++
  (if bool_decide (slot s = slot_b) && departSoon train
   then ["Rear position may delay morning departure"] else []) ++
  (if negb (Qle_bool (num_or (reverseCost s) 0) 2)
   then ["High reverse cost for positioning"] else []).

Definition generateWorkshopReasoning (train : Train) (ws : WorkshopLine)
    : list string :=
  (if bool_decide (specialization ws = Some "wheel-alignment")
      && includes "wheel-alignment" (failures train)
   then ["Specialized for wheel alignment repairs"] else []) ++
  (if bool_decide (ws_id ws = "WL1") then ["Primary workshop line"] else []).

(** [recommendations.sort((a, b) => b.score - a.score)]: a stable sort; [y]
    goes in front of [x] only when the comparator is positive, that is when
    [y] has the strictly higher score (a [NaN] difference counts as a tie).
    For scores that are numbers this is the order [Array.prototype.sort]
    gives; with a [NaN] score among them the comparator is inconsistent and
    the language leaves the order to the engine, which this insertion need
    not match. *)
Definition score_gtb (y x : AssignmentRecommendation) : bool :=
  match score y, score x with
  | Some p, Some q => negb (Qle_bool p q)
  | _, _ => false
  end.

Fixpoint sort_insert (x : AssignmentRecommendation)
    (l : list AssignmentRecommendation) : list AssignmentRecommendation :=
  match l with
  | [] => [x]
  | y :: rest => if score_gtb y x then y :: sort_insert x rest else x :: l
  end.

Definition sort_by_score (l : list AssignmentRecommendation)
    : list AssignmentRecommendation :=
  foldr sort_insert [] l.

Definition siding_recommendation (train : Train) (s : SidingSlot)
    : AssignmentRecommendation :=
  mkRecommendation (sl_id s) target_siding (Some (slot s))
    (calculateSidingScore train s)
    (num_or (reverseCost s) 1)
    (default medium (blockingRisk s))
    (if bool_decide (slot s = slot_b) then 1 else 0)
    (generateSidingReasoning train s)
    (generateSidingWarnings train s).

Definition generateSidingRecommendations (trainId : string) (st : YardState)
    : list AssignmentRecommendation :=
  match oget trainId (trains st) with
  | None => []
  | Some train =>
      let recommendations :=
        flat_map
          (fun s => if negb (truthy (sl_occupiedBy s))
                    then [siding_recommendation train s] else [])
          (Object_values (sidingSlots st)) in
      take 5 (sort_by_score recommendations)
  end.

Definition workshop_recommendation (train : Train) (ws : WorkshopLine)
    : AssignmentRecommendation :=
  mkRecommendation (ws_id ws) target_workshop None
    (calculateWorkshopScore train ws) 1 low 0
    (generateWorkshopReasoning train ws) [].

Definition generateWorkshopRecommendations (trainId : string) (st : YardState)
    : list AssignmentRecommendation :=
  match oget trainId (trains st) with
  | None => []
  | Some train =>
      let needsWheelAlignment := includes "wheel-alignment" (failures train) in
      let recommendations :=
        flat_map
          (fun ws =>
             if negb (truthy (ws_occupiedBy ws)) then
               if needsWheelAlignment
                  && negb (bool_decide (specialization ws = Some "wheel-alignment"))
               then []
               else [workshop_recommendation train ws]
             else [])
          (Object_values (workshopLines st)) in
      sort_by_score recommendations
  end.

(** ** Operations of the engine *)

(** [Partial<Train>] as [enqueueTrain] reads it: the fields it does not read
    (id, status, location, ...) are ignored by the code and not represented. *)
Record PartialTrain := mkPartialTrain {
  p_number : option string;
  p_fitness : option Q;
  p_mileage : option Q;
  p_jobCard : option (list JobTask);
  p_failures : option (list string);
  p_priority : option bool;
  p_departSoon : option bool
}.

Definition empty_trainData : PartialTrain :=
  mkPartialTrain None None None None None None None.

(** What one call of [enqueueTrain] reads from the clock and from
    [Math.random]: the time, the random suffix of the id, and the two draws
    behind the default fitness and mileage. *)
Record Entropy := mkEntropy {
  clock : Z;
  random_suffix : string;
  random_fitness : Q;
  random_mileage : Q
}.

Inductive CommandType :=
  | create_train | assign_train | remove_train | preview_plan
  | execute_plan | pause | resume | speed_change.

(** [command.data] is an untyped record; these are the shapes its callers
    build.  A field read from another shape is [undefined]. *)
Inductive CommandData :=
  | TrainData (trainData : PartialTrain)
  | AssignData (target : string) (kind : TargetType) (letter : option SlotLetter)
  | SpeedData (speed : Q).

Record SimulatorCommand := mkCommand {
  cmd_type : CommandType;
  cmd_trainId : option string;
  cmd_data : option CommandData
}.

Section engine.
Variable definition : YardDefinition.

Definition enqueueTrain (rnd : Entropy) (trainData : PartialTrain)
    (e : Engine) : string * Engine :=
  let trainId :=
    "train_" +:+ pretty (clock rnd) +:+ "_" +:+ random_suffix rnd in
  let train :=
    mkTrain trainId
      (str_or (p_number trainData)
         ("T" +:+ pretty (Z.of_nat (length (Object_keys (trains (state e)))) + 1)))
      arriving
      "E1"
      east
      (num_or (p_fitness trainData)
         (inject_Z (Qfloor (random_fitness rnd * 100))))
      (num_or (p_mileage trainData)
         (inject_Z (Qfloor (random_mileage rnd * 50000))))
      (default [] (p_jobCard trainData))
      (default [] (p_failures trainData))
      (default false (p_priority trainData) || false)
      (default false (p_departSoon trainData) || false)
      (clock rnd)
      (clock rnd) in
  let e := with_trains (oset trainId train) e in
  let e :=
    emitEvent (clock rnd) train_created (Some trainId)
      ("Train " +:+ t_number train +:+ " arrived at entry point")
      sev_info (Some (DataTrain trainId)) e in
  let e := setTimeout (CbAutoAssignToInspection trainId) 2000 e in
  (trainId, e).

Definition assignTrainToInspection (now : Z) (trainId bayId : string)
    (e : Engine) : Engine :=
  match oget trainId (trains (state e)),
        oget bayId (inspectionBays (state e)) with
  | Some train, Some bay =>
      if negb (bool_decide (bay_status bay = bay_free)) then e else
      let train := train_moved_to inspection bayId now train in
      let e := with_trains (oset trainId train) e in
      let e := with_inspectionBays (oset bayId (bay_claimed trainId now bay)) e in
      let e :=
        emitEvent now train_moved (Some trainId)
          ("Train " +:+ t_number train +:+ " moved to " +:+ bay_name bay
             +:+ " for inspection")
          sev_info (Some (DataMove "E1" bayId)) e in
      setTimeout (CbCompleteInspection trainId bayId)
        (inspectionDuration bay * simulationSpeed (state e)) e
  | _, _ => e
  end.

(** In [find], a configured bay that the registry lacks would raise a
    [TypeError]; the registry is built from the configured list, so the
    lookup succeeds (lemma [configured_bay_registered]). *)
Definition autoAssignToInspection (now : Z) (trainId : string) (e : Engine)
    : Engine :=
  match oget trainId (trains (state e)) with
  | None => e
  | Some train =>
      if negb (bool_decide (t_status train = arriving)) then e else
      let availableBay :=
        List.find
          (fun bayId =>
             match oget bayId (inspectionBays (state e)) with
             | Some bay => bool_decide (bay_status bay = bay_free)
             | None => false
             end)
          (def_inspectionBays definition) in
      if truthy availableBay then
        assignTrainToInspection now trainId (default "" availableBay) e
      else
        let train := train_with_status queued train in
        let e := with_trains (oset trainId train) e in
        emitEvent now train_updated (Some trainId)
          ("Train " +:+ t_number train
             +:+ " queued - all inspection bays occupied")
          sev_warning None e
  end.

Definition processQueuedTrains (now : Z) (e : Engine) : Engine :=
  let queuedTrains :=
    filter (fun train => t_status train = queued)
      (Object_values (trains (state e))) in
  foldl (fun e train => autoAssignToInspection now (t_id train) e)
    e queuedTrains.

(** [random] is the draw of [Math.random()] that decides the inspection. *)
Definition completeInspection (now : Z) (random : Q) (trainId bayId : string)
    (e : Engine) : Engine :=
  match oget trainId (trains (state e)),
        oget bayId (inspectionBays (state e)) with
  | Some train, Some bay =>
      if negb (bool_decide (bay_occupiedBy bay = Some trainId)) then e else
      let passRate : Q :=
        if (0 <? Z.of_nat (length (failures train))) then 0.3%Q else 0.8%Q in
      let inspectionPassed := negb (Qle_bool passRate random) in
      let e := with_inspectionBays (oset bayId (bay_released bay)) e in
      let train :=
        train_moved_to moving (locationNodeId train) now train in
      let e := with_trains (oset trainId train) e in
      let e :=
        emitEvent now inspection_result (Some trainId)
          ("Train " +:+ t_number train +:+ " inspection "
             +:+ (if inspectionPassed then "passed" else "failed"))
          (if inspectionPassed then sev_success else sev_warning)
          (Some (DataInspection bayId inspectionPassed)) e in
      let e :=
        if inspectionPassed then
          let recommendations :=
            generateSidingRecommendations trainId (state e) in
          let e :=
            emitEvent now plan_preview (Some trainId)
              ("Generated " +:+ pretty (Z.of_nat (length recommendations))
                 +:+ " siding recommendations for train " +:+ t_number train)
              sev_info (Some (DataRecommendations recommendations)) e in
          if negb (priority train) && negb (departSoon train) then
            match recommendations with
            | bestRecommendation :: _ =>
                setTimeout
                  (CbAssignTrainToSiding trainId (targetId bestRecommendation)
                     (rec_slot bestRecommendation))
                  1000 e
            | [] => e
            end
          else e
        else
          let recommendations :=
            generateWorkshopRecommendations trainId (state e) in
          let e :=
            emitEvent now plan_preview (Some trainId)
              ("Generated " +:+ pretty (Z.of_nat (length recommendations))
                 +:+ " workshop recommendations for train " +:+ t_number train)
              sev_info (Some (DataRecommendations recommendations)) e in
          match recommendations with
          | bestRecommendation :: _ =>
              setTimeout
                (CbAssignTrainToWorkshop trainId (targetId bestRecommendation))
                1000 e
          | [] => e
          end in
      processQueuedTrains now e
  | _, _ => e
  end.

(** The third parameter of the source ([slot]) is never read. *)
Definition assignTrainToSiding (now : Z) (trainId slotId : string)
    (e : Engine) : Engine :=
  match oget trainId (trains (state e)),
        oget slotId (sidingSlots (state e)) with
  | Some train, Some sidingSlot =>
      if truthy (sl_occupiedBy sidingSlot) then e else
      let train := train_moved_to parked slotId now train in
      let e := with_trains (oset trainId train) e in
      let e := with_sidingSlots (oset slotId (slot_claimed trainId sidingSlot)) e in
      emitEvent now train_moved (Some trainId)
        ("Train " +:+ t_number train +:+ " parked in " +:+ sidingId sidingSlot
           +:+ "-" +:+ slot_letter_string (slot sidingSlot))
        sev_success (Some (DataTarget slotId (slot sidingSlot))) e
  | _, _ => e
  end.

Definition assignTrainToWorkshop (now : Z) (trainId workshopId : string)
    (e : Engine) : Engine :=
  match oget trainId (trains (state e)),
        oget workshopId (workshopLines (state e)) with
  | Some train, Some ws =>
      if truthy (ws_occupiedBy ws) then e else
      let train := train_moved_to workshop workshopId now train in
      let e := with_trains (oset trainId train) e in
      let e := with_workshopLines (oset workshopId (line_claimed trainId ws)) e in
      let e :=
        emitEvent now train_moved (Some trainId)
          ("Train " +:+ t_number train +:+ " sent to " +:+ ws_name ws)
          sev_info (Some (DataWorkshop workshopId)) e in
      setTimeout (CbCompleteWorkshop trainId workshopId)
        (10000 * simulationSpeed (state e)) e
  | _, _ => e
  end.

Definition completeWorkshop (now : Z) (trainId workshopId : string)
    (e : Engine) : Engine :=
  match oget trainId (trains (state e)),
        oget workshopId (workshopLines (state e)) with
  | Some train, Some ws =>
      if negb (bool_decide (ws_occupiedBy ws = Some trainId)) then e else
      let train := train_repaired now train in
      let e := with_trains (oset trainId train) e in
      let e := with_workshopLines (oset workshopId (line_released ws)) e in
      let e :=
        emitEvent now workshop_updated (Some trainId)
          ("Train " +:+ t_number train +:+ " repairs completed at "
             +:+ ws_name ws)
          sev_success (Some (DataWorkshop workshopId)) e in
      let recommendations := generateSidingRecommendations trainId (state e) in
      let e :=
        emitEvent now plan_preview (Some trainId)
          ("Generated " +:+ pretty (Z.of_nat (length recommendations))
             +:+ " siding recommendations after repair")
          sev_info (Some (DataRecommendations recommendations)) e in
      match recommendations with
      | bestRecommendation :: _ =>
          setTimeout
            (CbAssignTrainToSiding trainId (targetId bestRecommendation)
               (rec_slot bestRecommendation))
            1000 e
      | [] => e
      end
  | _, _ => e
  end.

(** [getState] hands out a copy of the state record. *)
Definition getState (e : Engine) : YardState := state e.

Definition processCommand (rnd : Entropy) (command : SimulatorCommand)
    (e : Engine) : Engine :=
  match cmd_type command with
  | create_train =>
      let trainData :=
        match cmd_data command with
        | Some (TrainData d) => d
        | _ => empty_trainData
        end in
      snd (enqueueTrain rnd trainData e)
  | assign_train =>
      match cmd_data command with
      | Some data =>
          if truthy (cmd_trainId command) then
            let trainId := default "" (cmd_trainId command) in
            match data with
            | AssignData target target_siding _ =>
                assignTrainToSiding (clock rnd) trainId target e
            | AssignData target target_workshop _ =>
                assignTrainToWorkshop (clock rnd) trainId target e
            | _ => e
            end
          else e
      | None => e
      end
  | speed_change =>
      match cmd_data command with
      | Some (SpeedData speed) =>
          if Qeq_bool speed 0 then e
          else with_simulationSpeed (Qmax 0.1 (Qmin 10 speed)) e
      | _ => e
      end
  | _ => e
  end.
End engine.

(** ** Runs of the engine *)

(** A draw of [Math.random()] lies in [0, 1). *)
Definition unit_interval (r : Q) : bool :=
  Qle_bool 0 r && negb (Qle_bool 1 r).

(** What can happen to a simulator: a caller invokes one of its public
    methods, or one of its pending timers fires. *)
Inductive Action :=
  | CallEnqueueTrain (rnd : Entropy) (trainData : PartialTrain)
  | CallAssignTrainToSiding (now : Z) (trainId slotId : string)
  | CallAssignTrainToWorkshop (now : Z) (trainId workshopId : string)
  | CallProcessCommand (rnd : Entropy) (command : SimulatorCommand)
  | FireTimer (now : Z) (random : Q) (index : nat).

Definition entropy_ok (rnd : Entropy) : bool :=
  unit_interval (random_fitness rnd) && unit_interval (random_mileage rnd).

Definition action_ok (a : Action) : bool :=
  match a with
  | CallEnqueueTrain rnd _ => entropy_ok rnd
  | CallProcessCommand rnd _ => entropy_ok rnd
  | FireTimer _ random _ => unit_interval random
  | _ => true
  end.

Section runs.
Variable definition : YardDefinition.

Definition run_callback (now : Z) (random : Q) (cb : Callback) (e : Engine)
    : Engine :=
  match cb with
  | CbAutoAssignToInspection trainId =>
      autoAssignToInspection definition now trainId e
  | CbCompleteInspection trainId bayId =>
      completeInspection definition now random trainId bayId e
  | CbAssignTrainToSiding trainId target _ =>
      assignTrainToSiding now trainId target e
  | CbAssignTrainToWorkshop trainId target =>
      assignTrainToWorkshop now trainId target e
  | CbCompleteWorkshop trainId workshopId =>
      completeWorkshop now trainId workshopId e
  end.

Definition perform (a : Action) (e : Engine) : Engine :=
  match a with
  | CallEnqueueTrain rnd trainData => snd (enqueueTrain rnd trainData e)
  | CallAssignTrainToSiding now trainId slotId =>
      assignTrainToSiding now trainId slotId e
  | CallAssignTrainToWorkshop now trainId workshopId =>
      assignTrainToWorkshop now trainId workshopId e
  | CallProcessCommand rnd command => processCommand rnd command e
  | FireTimer now random index =>
      match timers e !! index with
      | Some timer =>
          run_callback now random (callback timer)
            (mkEngine (state e) (delete index (timers e)))
      | None => e
      end
  end.

Definition run (actions : list Action) (e : Engine) : Engine :=
  foldl (fun e a => perform a e) e actions.

Inductive reachable : Engine -> Prop :=
  | reachable_new e :
      newYardSimulator definition = Some e -> reachable e
  | reachable_step a e :
      reachable e -> action_ok a = true -> reachable (perform a e).
End runs.

(** ** A small yard used in examples *)

Definition sample_nodes : object Node :=
  [ ("E1", mkNode (Some "Entry") None);
    ("IL1", mkNode (Some "IL-1") None);
    ("WL1", mkNode (Some "WL-1") None);
    ("WL4", mkNode (Some "WL-4") None);
    ("S1a", mkNode None (Some (mkMetadata "S1" slot_a (Some 1%Q))));
    ("S1b", mkNode None (Some (mkMetadata "S1" slot_b (Some 2%Q))));
    ("S9a", mkNode None (Some (mkMetadata "S9" slot_a (Some 3%Q)))) ].

Definition sample_yard : YardDefinition :=
  mkYardDefinition sample_nodes ["IL1"] ["WL1"; "WL4"] ["S1a"; "S1b"; "S9a"].

Definition sample_engine : Engine :=
  default (mkEngine (mkYardState [] [] [] [] [] 1) [])
    (newYardSimulator sample_yard).

Definition entropy_at (now : Z) (suffix : string) : Entropy :=
  mkEntropy now suffix 0.5%Q 0.5%Q.

(** ** Statements about scoring *)

Definition risk_rank (r : Risk) : Z :=
  match r with low => 0 | medium => 1 | high => 2 end.

(** The siding score in the words of the specification, for a slot whose
    reverse cost is [cost] and whose siding number is [sidingNumber]. *)
Definition specified_sidingScore (train : Train) (s : SidingSlot) (cost : Q)
    (sidingNumber : Z) : Q :=
  Qmax 0
    (100
     + (if departSoon train && bool_decide (slot s = slot_a) then 20 else 0)
     - (if departSoon train && bool_decide (slot s = slot_b) then 10 else 0)
     - cost * 5
     + match blockingRisk s with
       | Some low => 10
       | Some high => -10
       | _ => 0
       end
     + (if priority train then inject_Z ((13 - sidingNumber) * 2) else 0))%Q.

(** The same slot with another reverse cost. *)
Definition with_reverseCost (cost : option Q) (s : SidingSlot) : SidingSlot :=
  mkSidingSlot (sl_id s) (sidingId s) (slot s) (sl_occupiedBy s) cost
    (blockingRisk s).

Definition plain_train : Train :=
  mkTrain "train_0_x" "T1" moving "IL1" east 85 25000 [] [] false false 0 0.

Definition priority_train : Train :=
  mkTrain "train_0_y" "T2" moving "IL1" east 85 25000 [] [] true true 0 0.

Definition slot_S5a (cost : option Q) : SidingSlot :=
  mkSidingSlot "S5a" "S5" slot_a None cost (Some medium).

(** ** Statements about assignment *)

(** A resource has an occupant when its [occupiedBy] holds a train id.  The
    code tests [occupiedBy] for truthiness, and no train id is the empty
    string. *)
Definition occupant (o : option string) : Prop :=
  match o with
  | Some trainId => trainId <> ""
  | None => False
  end.

Definition siding_assignment_refused (trainId slotId : string) (st : YardState)
    : Prop :=
  oget trainId (trains st) = None \/
  oget slotId (sidingSlots st) = None \/
  exists s, oget slotId (sidingSlots st) = Some s /\ occupant (sl_occupiedBy s).

Definition workshop_assignment_refused (trainId workshopId : string)
    (st : YardState) : Prop :=
  oget trainId (trains st) = None \/
  oget workshopId (workshopLines st) = None \/
  exists w, oget workshopId (workshopLines st) = Some w /\
            occupant (ws_occupiedBy w).

(** The sample yard after one train has arrived. *)
Definition one_train_engine : Engine :=
  run sample_yard
    [CallEnqueueTrain (entropy_at 1000 "k3j9x0q2a") empty_trainData]
    sample_engine.

(** The sample yard with that train parked in slot S1a. *)
Definition parked_engine : Engine :=
  assignTrainToSiding 1500 "train_1000_k3j9x0q2a" "S1a" one_train_engine.

(** ** Statements about completion and creation *)

(** Once a completion has released bay [bayId] from train [trainId]: the bay
    is not held by that train and the train is past arrival. *)
Definition released (trainId bayId : string) (e : Engine) : Prop :=
  (forall b, oget bayId (inspectionBays (state e)) = Some b ->
             bay_occupiedBy b <> Some trainId) /\
  (forall t, oget trainId (trains (state e)) = Some t ->
             t_status t <> arriving).

(** The id [enqueueTrain] builds from the clock and the random suffix. *)
Definition generated_id (rnd : Entropy) : string :=
  "train_" +:+ pretty (clock rnd) +:+ "_" +:+ random_suffix rnd.

(** The number given to a train that arrives without one. *)
Definition sequential_number (e : Engine) : string :=
  "T" +:+ pretty (Z.of_nat (length (Object_keys (trains (state e)))) + 1).

(** Train data that supplies the empty string as number. *)
Definition unnumbered_trainData : PartialTrain :=
  mkPartialTrain (Some "") (Some 85%Q) (Some 25000%Q) None (Some []) (Some false)
    (Some false).

(** Train data that supplies a fitness of 0. *)
Definition unfit_trainData : PartialTrain :=
  mkPartialTrain (Some "T7") (Some 0%Q) (Some 25000%Q) None (Some []) (Some false)
    (Some false).

(** Fully supplied train data. *)
Definition full_trainData : PartialTrain :=
  mkPartialTrain (Some "KM-12") (Some 85%Q) (Some 25000%Q)
    (Some [mkJobTask "1" "Brake system check" false])
    (Some ["wheel-alignment"]) (Some true) (Some true).

(** ** Statements about events *)

(** The sample yard with its one train sent to workshop line WL1. *)
Definition in_workshop_engine : Engine :=
  assignTrainToWorkshop 1500 "train_1000_k3j9x0q2a" "WL1" one_train_engine.

(** The sample yard with its one train in inspection bay IL1. *)
Definition in_inspection_engine : Engine :=
  run sample_yard [FireTimer 3000 0 0%nat] one_train_engine.

Definition speed_command (speed : Q) : SimulatorCommand :=
  mkCommand speed_change None (Some (SpeedData speed)).

(** ** Invariants of the yard state *)

(** Trains are filed under their own, non-empty id. *)
Definition trains_wf (m : object Train) : Prop :=
  NoDup (Object_keys m) /\
  forall k t, oget k m = Some t -> t_id t = k /\ k <> "".

(** Workshop lines are filed under their own id, and only WL4 is specialised
    in wheel alignment. *)
Definition lines_wf (m : object WorkshopLine) : Prop :=
  NoDup (Object_keys m) /\
  forall k w, oget k m = Some w ->
    ws_id w = k /\ (specialization w = Some "wheel-alignment" -> k = "WL4").

(** Every configured inspection bay is in the registry. *)
Definition bays_configured (definition : YardDefinition)
    (m : object InspectionBay) : Prop :=
  forall b, b ∈ def_inspectionBays definition -> is_Some (oget b m).

(** [l] is the entry node or the node of a resource of the yard. *)
Definition located (st : YardState) (l : string) : Prop :=
  l = "E1" \/
  is_Some (oget l (inspectionBays st)) \/
  is_Some (oget l (workshopLines st)) \/
  is_Some (oget l (sidingSlots st)).

(** Where the train filed under [k] is, by its status: before inspection it
    is at the entry node; in inspection, in repair or parked it is at a bay,
    line or slot recorded as occupied by it; otherwise it is at some node of
    the yard. *)
Definition placed (st : YardState) (k : string) (t : Train) : Prop :=
  match t_status t with
  | arriving | queued => locationNodeId t = "E1"
  | inspection =>
      exists b, oget (locationNodeId t) (inspectionBays st) = Some b /\
                bay_occupiedBy b = Some k
  | workshop =>
      exists w, oget (locationNodeId t) (workshopLines st) = Some w /\
                ws_occupiedBy w = Some k
  | parked =>
      exists s, oget (locationNodeId t) (sidingSlots st) = Some s /\
                sl_occupiedBy s = Some k
  | moving | test | departed => located st (locationNodeId t)
  end.

Record occupancy (st : YardState) : Prop := mkOccupancy {
  occ_trains :
    forall k t, oget k (trains st) = Some t -> placed st k t;
  occ_bays :
    forall k b o, oget k (inspectionBays st) = Some b ->
      bay_occupiedBy b = Some o ->
      is_Some (oget o (trains st)) /\ bay_status b <> bay_free;
  occ_lines :
    forall k w o, oget k (workshopLines st) = Some w ->
      ws_occupiedBy w = Some o -> is_Some (oget o (trains st));
  occ_slots :
    forall k s o, oget k (sidingSlots st) = Some s ->
      sl_occupiedBy s = Some o -> is_Some (oget o (trains st))
}.

Definition yard_invariant (definition : YardDefinition) (st : YardState)
    : Prop :=
  trains_wf (trains st) /\
  lines_wf (workshopLines st) /\
  bays_configured definition (inspectionBays st) /\
  occupancy st.

(** ** Conservation as the specification states it *)

(** Train [k] is recorded as the occupant of the resource at [node]. *)
Definition occupies (st : YardState) (k node : string) : Prop :=
  (exists b, oget node (inspectionBays st) = Some b /\
             bay_occupiedBy b = Some k) \/
  (exists w, oget node (workshopLines st) = Some w /\
             ws_occupiedBy w = Some k) \/
  (exists s, oget node (sidingSlots st) = Some s /\
             sl_occupiedBy s = Some k).

(** Every train is at the entry node or at the one resource it occupies, and
    occupies no resource it is not located at. *)
Definition conservation_as_specified (st : YardState) : Prop :=
  forall k t, oget k (trains st) = Some t ->
    (locationNodeId t = "E1" \/ occupies st (t_id t) (locationNodeId t)) /\
    (forall node, occupies st (t_id t) node -> node = locationNodeId t).

(** One train arrives, enters bay IL1 when its arrival timer fires, and its
    inspection completes (and passes). *)
Definition inspected_trace : list Action :=
  [ CallEnqueueTrain (entropy_at 1000 "k3j9x0q2a") empty_trainData;
    FireTimer 3000 0 0%nat;
    FireTimer 303000 0.5 0%nat ].

Definition inspected_engine : Engine :=
  run sample_yard inspected_trace sample_engine.

(** One train arrives and is assigned to slot S1a, then to slot S1b. *)
Definition reassigned_trace : list Action :=
  [ CallEnqueueTrain (entropy_at 1000 "k3j9x0q2a") empty_trainData;
    CallAssignTrainToSiding 1500 "train_1000_k3j9x0q2a" "S1a";
    CallAssignTrainToSiding 1800 "train_1000_k3j9x0q2a" "S1b" ].

Definition reassigned_engine : Engine :=
  run sample_yard reassigned_trace sample_engine.

(** Two trains arrive at a yard with the single bay IL1; the first enters
    the bay, the second is queued, and the first inspection completes. *)
Definition queue_trace : list Action :=
  [ CallEnqueueTrain (entropy_at 1000 "k3j9x0q2a") empty_trainData;
    CallEnqueueTrain (entropy_at 1001 "p7m2c4v8b") empty_trainData;
    FireTimer 3000 0 0%nat;
    FireTimer 3001 0 0%nat;
    FireTimer 303000 0.5 0%nat ].

Definition queue_engine : Engine :=
  run sample_yard queue_trace sample_engine.

(** The sample yard after a train with a wheel-alignment failure arrived. *)
Definition wheel_engine : Engine :=
  run sample_yard
    [CallEnqueueTrain (entropy_at 1000 "k3j9x0q2a") full_trainData]
    sample_engine.

(** ** How the engine may change its state *)

(** What a bay, a line and a slot carry from construction. *)
Definition bay_static (b b' : InspectionBay) : Prop :=
  bay_id b' = bay_id b /\ bay_name b' = bay_name b /\
  bay_nodeId b' = bay_nodeId b /\
  inspectionDuration b' = inspectionDuration b.

Definition line_static (w w' : WorkshopLine) : Prop :=
  ws_id w' = ws_id w /\ ws_name w' = ws_name w /\
  ws_nodeId w' = ws_nodeId w /\ specialization w' = specialization w /\
  capacity w' = capacity w.

Definition slot_static (s s' : SidingSlot) : Prop :=
  sl_id s' = sl_id s /\ sidingId s' = sidingId s /\ slot s' = slot s /\
  reverseCost s' = reverseCost s /\ blockingRisk s' = blockingRisk s.

(** A bay is free, unoccupied and without start time, or occupied by a train
    with a start time; a line is free and unoccupied, or occupied. *)
Definition bay_consistent (b : InspectionBay) : Prop :=
  (bay_status b = bay_free /\ bay_occupiedBy b = None /\
   inspectionStartTime b = None) \/
  (bay_status b = bay_occupied /\ is_Some (bay_occupiedBy b) /\
   is_Some (inspectionStartTime b)).

Definition line_consistent (w : WorkshopLine) : Prop :=
  (ws_status w = line_free /\ ws_occupiedBy w = None) \/
  (ws_status w = line_occupied /\ is_Some (ws_occupiedBy w)).

Definition bay_step (b b' : InspectionBay) : Prop :=
  bay_static b b' /\ (b' = b \/ bay_consistent b').

Definition line_step (w w' : WorkshopLine) : Prop :=
  line_static w w' /\ (w' = w \/ line_consistent w').

(** Two dictionaries with the same keys in the same order, whose values are
    related entry by entry. *)
Definition entries {V} (R : V -> V -> Prop) (m m' : object V) : Prop :=
  Forall2 (fun kv kv' => kv.1 = kv'.1 /\ R kv.2 kv'.2) m m'.

(** The bounds of [simulationSpeed]. *)
Definition speed_in_range (q : Q) : Prop := (0.1 <= q)%Q /\ (q <= 10)%Q.

(** Engine [e'] is a later engine of [e]: the resources are the same and only
    their occupancy moved, no train and no event went away, and the speed is
    the old one or a clamped one. *)
Record evolves (e e' : Engine) : Prop := mkEvolves {
  ev_bays :
    entries bay_step (inspectionBays (state e)) (inspectionBays (state e'));
  ev_lines :
    entries line_step (workshopLines (state e)) (workshopLines (state e'));
  ev_slots :
    entries slot_static (sidingSlots (state e)) (sidingSlots (state e'));
  ev_trains :
    Object_keys (trains (state e)) `prefix_of` Object_keys (trains (state e'));
  ev_log :
    eventLog (state e) `prefix_of` eventLog (state e');
  ev_speed :
    simulationSpeed (state e') = simulationSpeed (state e) \/
    speed_in_range (simulationSpeed (state e'))
}.

(** ** What construction gives the resources *)

(** Every id the topology lists as a bay, a line or a slot. *)
Definition configured_ids (definition : YardDefinition) : list string :=
  def_inspectionBays definition ++ def_workshopLines definition
  ++ def_sidingSlots definition.

Definition bay_as_built (k : string) (b : InspectionBay) : Prop :=
  bay_id b = k /\ bay_nodeId b = k /\ (inspectionDuration b == 300000)%Q.

Definition line_as_built (k : string) (w : WorkshopLine) : Prop :=
  ws_id w = k /\ ws_nodeId w = k /\ capacity w = 1 /\
  specialization w
  = (if decide (k = "WL4") then Some "wheel-alignment" else None).

(** A slot mirrors the metadata of its node, and its blocking risk is the one
    computed from its siding and letter. *)
Definition slot_as_built (definition : YardDefinition) (k : string)
    (s : SidingSlot) : Prop :=
  sl_id s = k /\
  blockingRisk s = Some (calculateBlockingRisk (sidingId s) (slot s)) /\
  exists node metadata,
    oget k (nodes definition) = Some node /\
    n_metadata node = Some metadata /\
    sidingId s = md_sidingId metadata /\
    slot s = md_slot metadata /\
    reverseCost s = md_reverseCost metadata.

(** A yard whose topology lacks the node of its second workshop line. *)
Definition broken_yard : YardDefinition :=
  mkYardDefinition sample_nodes ["IL1"] ["WL1"; "WL9"] ["S1a"].

(** ** Statements about the entry to inspection *)

(** The bay filed under [k] is missing or not free. *)
Definition bay_unavailable (st : YardState) (k : string) : Prop :=
  forall b, oget k (inspectionBays st) = Some b -> bay_status b <> bay_free.

(** A yard with two inspection bays. *)
Definition two_bay_yard : YardDefinition :=
  mkYardDefinition
    (("IL2", mkNode None None) :: sample_nodes)
    ["IL1"; "IL2"] ["WL1"; "WL4"] ["S1a"; "S1b"; "S9a"].

Definition two_bay_engine : Engine :=
  default (mkEngine (mkYardState [] [] [] [] [] 1) [])
    (newYardSimulator two_bay_yard).

(** Two trains have arrived at the two-bay yard and the first is in IL1. *)
Definition second_arrival_engine : Engine :=
  run two_bay_yard
    [ CallEnqueueTrain (entropy_at 1000 "k3j9x0q2a") empty_trainData;
      CallEnqueueTrain (entropy_at 1001 "p7m2c4v8b") empty_trainData;
      FireTimer 3000 0 0%nat ]
    two_bay_engine.

(** ** Statements about recommendations *)

(** [a] may stand in front of [b]: the score of [b] is not above that of
    [a]. *)
Definition ranks_before (a b : AssignmentRecommendation) : Prop :=
  num_le (score b) (score a).

(** The recommendations whose score equals [c]. *)
Definition same_score (c : Q) (r : AssignmentRecommendation) : bool :=
  match score r with
  | Some q => Qeq_bool q c
  | None => false
  end.

(** The slots and lines that pass the tests of the two generators. *)
Definition free_slot (s : SidingSlot) : bool := negb (truthy (sl_occupiedBy s)).

Definition eligible_line (train : Train) (ws : WorkshopLine) : bool :=
  negb (truthy (ws_occupiedBy ws))
  && negb (includes "wheel-alignment" (failures train)
           && negb (bool_decide (specialization ws = Some "wheel-alignment"))).

(** The candidates of the two generators, in the order of the registry. *)
Definition siding_candidates (train : Train) (st : YardState)
    : list AssignmentRecommendation :=
  siding_recommendation train
    <$> filter (fun s => free_slot s = true) (Object_values (sidingSlots st)).

Definition workshop_candidates_of (train : Train) (st : YardState)
    : list AssignmentRecommendation :=
  workshop_recommendation train
    <$> filter (fun ws => eligible_line train ws = true)
          (Object_values (workshopLines st)).

(** The sample yard with a priority train waiting and slot S9a taken. *)
Definition ranking_state : YardState :=
  mkYardState
    [("train_0_y", priority_train)]
    []
    []
    [ ("S1a", mkSidingSlot "S1a" "S1" slot_a None (Some 1%Q) (Some high));
      ("S1b", mkSidingSlot "S1b" "S1" slot_b None (Some 2%Q) (Some high));
      ("S9a", mkSidingSlot "S9a" "S9" slot_a (Some "train_0_x") (Some 3%Q)
                (Some low));
      ("S9b", mkSidingSlot "S9b" "S9" slot_b None (Some 3%Q) (Some medium)) ]
    []
    1.

(** ** Statements about the outcome of an inspection *)

(** The chance of passing: 0.8 for a train without recorded failure, 0.3
    otherwise. *)
Definition pass_rate (train : Train) : Q :=
  match failures train with
  | [] => 0.8%Q
  | _ :: _ => 0.3%Q
  end.

(** The timer a completion schedules for the top recommendation, if any. *)
Definition siding_timer (trainId : string)
    (recs : list AssignmentRecommendation) : list Timer :=
  match recs with
  | best :: _ =>
      [mkTimer (CbAssignTrainToSiding trainId (targetId best) (rec_slot best))
         1000]
  | [] => []
  end.

Definition workshop_timer (trainId : string)
    (recs : list AssignmentRecommendation) : list Timer :=
  match recs with
  | best :: _ =>
      [mkTimer (CbAssignTrainToWorkshop trainId (targetId best)) 1000]
  | [] => []
  end.

(** ** What a train keeps *)

(** The attributes a train has from its creation. *)
Definition train_static (t t' : Train) : Prop :=
  t_id t' = t_id t /\ t_number t' = t_number t /\
  orientation t' = orientation t /\ mileage t' = mileage t /\
  jobCard t' = jobCard t /\ priority t' = priority t /\
  departSoon t' = departSoon t /\ arrivalTime t' = arrivalTime t.

(** Action [a] creates a train under id [k]. *)
Definition creates (a : Action) (k : string) : Prop :=
  match a with
  | CallEnqueueTrain rnd _ => k = generated_id rnd
  | CallProcessCommand rnd command =>
      cmd_type command = create_train /\ k = generated_id rnd
  | _ => False
  end.

(** Every train of [m] whose id is not in [K] is in [m'] with the same
    attributes. *)
Definition trains_kept (K : string -> Prop) (m m' : object Train) : Prop :=
  forall k t, ~ K k -> oget k m = Some t ->
    exists t', oget k m' = Some t' /\ train_static t t'.

(** ** What the engine never does *)

(** A slot is left as it is, or it was unoccupied and keeps what it carries
    from construction. *)
Definition slot_step (s s' : SidingSlot) : Prop :=
  s' = s \/ (truthy (sl_occupiedBy s) = false /\ slot_static s s').

(** The number of occupied slots, as counted by [filter(slot => slot.occupiedBy)]. *)
Definition occupied_slots (m : object SidingSlot) : nat :=
  length (filter (fun s => truthy (sl_occupiedBy s) = true) (Object_values m)).

(** The statuses the engine gives to a train, and the types of the events it
    logs. *)
Definition engine_status (s : TrainStatus) : bool :=
  match s with
  | test | departed => false
  | _ => true
  end.

Definition engine_event (ty : EventType) : bool :=
  match ty with
  | train_created | train_moved | train_updated | inspection_result
  | workshop_updated | plan_preview => true
  | _ => false
  end.

Definition tidy (st : YardState) : Prop :=
  (forall k t, oget k (trains st) = Some t ->
     engine_status (t_status t) = true) /\
  Forall (fun ev => engine_event (ev_type ev) = true) (eventLog st).

(** * The control panel and its dashboards

    The React components read the state the engine hands out and call back
    into it through [processCommand].  What follows embeds the computations of
    the components; rendering is left out. *)

(** [s.startsWith(p)] *)
Definition startsWith (s p : string) : bool := String.prefix p s.

(** [s.trim()], on the white space of ASCII. *)
Definition trim (s : string) : string :=
  String.rev (skip_white_space (String.rev (skip_white_space s))).

(** [Math.round] *)
Definition Math_round (q : Q) : Z := Qfloor (q + (1 # 2))%Q.

(** ** YardControlSystem *)

Module YardControlSystem.

Definition handleCreateTrain (rnd : Entropy) (trainData : PartialTrain)
    (e : Engine) : Engine :=
  processCommand rnd (mkCommand create_train None (Some (TrainData trainData))) e.

Definition handleAssignTrain (rnd : Entropy) (trainId targetId : string)
    (letter : option SlotLetter) (e : Engine) : Engine :=
  let targetType :=
    if startsWith targetId "S" then target_siding
    else if startsWith targetId "WL" then target_workshop
    else target_test in
  processCommand rnd
    (mkCommand assign_train (Some trainId)
       (Some (AssignData targetId targetType letter))) e.

Definition handleAssignToWorkshop (rnd : Entropy) (trainId workshopId : string)
    (e : Engine) : Engine :=
  processCommand rnd
    (mkCommand assign_train (Some trainId)
       (Some (AssignData workshopId target_workshop None))) e.

Definition handleRemoveTrain (rnd : Entropy) (trainId : string) (e : Engine)
    : Engine :=
  processCommand rnd (mkCommand remove_train (Some trainId) None) e.

End YardControlSystem.

(** ** InspectionDashboard *)

Module InspectionDashboard.

Definition trainsInInspection (st : YardState) : list Train :=
  filter (fun train => t_status train = inspection) (Object_values (trains st)).

(** No bay records the train as its occupant. *)
Definition inspectionComplete (st : YardState) (train : Train) : bool :=
  negb (bool_decide
          (is_Some
             (List.find
                (fun bay => bool_decide (bay_occupiedBy bay = Some (t_id train)))
                (Object_values (inspectionBays st))))).

(** The trains listed under "Trains Awaiting Assignment": the rows of
    [trainsInInspection.map] that are not [null]. *)
Definition awaitingAssignment (st : YardState) : list Train :=
  filter (fun train => inspectionComplete st train = true)
    (trainsInInspection st).

End InspectionDashboard.

(** ** WorkshopDashboard *)

Module WorkshopDashboard.

Definition getJobProgress (trainId : string) (st : YardState) : Q :=
  match oget trainId (trains st) with
  | None => 0%Q
  | Some train =>
      let completedTasks :=
        length (filter (fun task => task_done task = true) (jobCard train)) in
      if (0 <? Z.of_nat (length (jobCard train)))
      then ((inject_Z (Z.of_nat completedTasks)
             / inject_Z (Z.of_nat (length (jobCard train)))) * 100)%Q
      else 0%Q
  end.

End WorkshopDashboard.

(** ** SidingManager *)

Module SidingManager.

Definition getTrainAtSlot (slotId : string) (st : YardState) : option Train :=
  match oget slotId (sidingSlots st) with
  | Some s =>
      if truthy (sl_occupiedBy s)
      then oget (default "" (sl_occupiedBy s)) (trains st)
      else None
  | None => None
  end.

(** With no slot at all the quotient is [0 / 0]: [NaN]. *)
Definition getSidingUtilization (st : YardState) : jsnum :=
  let totalSlots := length (Object_keys (sidingSlots st)) in
  let occupiedSlots := occupied_slots (sidingSlots st) in
  if (Z.of_nat totalSlots =? 0) then NaN
  else Some (inject_Z
               (Math_round
                  ((inject_Z (Z.of_nat occupiedSlots)
                    / inject_Z (Z.of_nat totalSlots)) * 100)%Q)).

End SidingManager.

(** ** EventLog *)

Definition event_type_string (ty : EventType) : string :=
  match ty with
  | train_created => "train:created"
  | train_moved => "train:moved"
  | train_updated => "train:updated"
  | switch_changed => "switch:changed"
  | inspection_result => "inspection:result"
  | workshop_updated => "workshop:updated"
  | log_new => "log:new"
  | plan_preview => "plan:preview"
  | plan_start => "plan:start"
  | plan_step => "plan:step"
  | plan_complete => "plan:complete"
  | event_error => "error"
  | lock_acquired => "lock:acquired"
  | lock_released => "lock:released"
  end.

Definition severity_string (s : Severity) : string :=
  match s with
  | sev_info => "info"
  | sev_warning => "warning"
  | sev_error => "error"
  | sev_success => "success"
  end.

Module EventLog.

(** [sort((a, b) => b.timestamp - a.timestamp)]: newest first; the sort of an
    array is stable, so events of one timestamp keep their order. *)
Fixpoint insert_by_time (x : YardEvent) (l : list YardEvent) : list YardEvent :=
  match l with
  | [] => [x]
  | y :: rest =>
      if ev_timestamp x <? ev_timestamp y then y :: insert_by_time x rest
      else x :: l
  end.

Definition sort_by_time (l : list YardEvent) : list YardEvent :=
  foldr insert_by_time [] l.

Definition passes_severity (severityFilter : string) (event : YardEvent)
    : bool :=
  bool_decide (severityFilter = "all")
  || bool_decide (severity_string (ev_severity event) = severityFilter).

Definition passes_type (typeFilter : string) (event : YardEvent) : bool :=
  bool_decide (typeFilter = "all")
  || startsWith (event_type_string (ev_type event)) typeFilter.

Definition filteredEvents (severityFilter typeFilter : string)
    (events : list YardEvent) : list YardEvent :=
  take 100
    (sort_by_time
       (filter (fun event => passes_type typeFilter event = true)
          (filter (fun event => passes_severity severityFilter event = true)
             events))).

Definition getEventTypeCategory (type : string) : string :=
  if startsWith type "train:" then "train"
  else if startsWith type "plan:" then "plan"
  else if startsWith type "inspection:" then "inspection"
  else if startsWith type "workshop:" then "workshop"
  else if startsWith type "lock:" then "lock"
  else "system".

(** [[...new Set(l)]]: the first occurrence of each element, in order. *)
Definition distinct (l : list string) : list string :=
  foldl (fun seen x => if includes x seen then seen else (seen ++ [x])%list) [] l.

Definition uniqueTypes (events : list YardEvent) : list string :=
  distinct
    ((fun e => getEventTypeCategory (event_type_string (ev_type e))) <$> events).

End EventLog.

(** ** EntryDashboard *)

Module EntryDashboard.

(** The state of the creation form. *)
Record NewTrain := mkNewTrain {
  nt_number : string;
  nt_fitness : Q;
  nt_mileage : Q;
  nt_priority : bool;
  nt_departSoon : bool;
  nt_failures : list string
}.

Record Form := mkForm {
  newTrain : NewTrain;
  failureInput : string
}.

Definition empty_newTrain : NewTrain :=
  mkNewTrain "" 85 25000 false false [].

Definition with_failures (l : list string) (t : NewTrain) : NewTrain :=
  mkNewTrain (nt_number t) (nt_fitness t) (nt_mileage t) (nt_priority t)
    (nt_departSoon t) l.

Definition form_jobCard : list JobTask :=
  [ mkJobTask "1" "Pre-departure inspection" false;
    mkJobTask "2" "Brake system check" false;
    mkJobTask "3" "Door operation test" false ].

(** What the form hands to [onCreateTrain], and the form after the reset.
    The number written by the first [setNewTrain] is overwritten by the reset
    before it is ever read. *)
Definition handleCreateTrain (form : Form) : PartialTrain * Form :=
  let t := newTrain form in
  (mkPartialTrain (Some (nt_number t)) (Some (nt_fitness t))
     (Some (nt_mileage t)) (Some form_jobCard) (Some (nt_failures t))
     (Some (nt_priority t)) (Some (nt_departSoon t)),
   mkForm empty_newTrain "").

Definition addFailure (form : Form) : Form :=
  let entry := trim (failureInput form) in
  if negb (bool_decide (entry = ""))
     && negb (includes entry (nt_failures (newTrain form)))
  then mkForm (with_failures ((nt_failures (newTrain form) ++ [entry])%list)
                 (newTrain form)) ""
  else form.

Definition removeFailure (failure : string) (form : Form) : Form :=
  mkForm (with_failures
            (filter (fun f => f <> failure) (nt_failures (newTrain form)))
            (newTrain form))
    (failureInput form).

End EntryDashboard.

(** Newest first. *)
Definition not_older (a b : YardEvent) : Prop :=
  ev_timestamp b <= ev_timestamp a.

(** What both filters of the event log let through. *)
Definition passes_filters (severityFilter typeFilter : string)
    (events : list YardEvent) : list YardEvent :=
  filter (fun event => EventLog.passes_type typeFilter event = true)
    (filter (fun event => EventLog.passes_severity severityFilter event = true)
       events).

Definition sample_events : list YardEvent :=
  [ mkEvent 1000 train_created (Some "a") "created" sev_info None;
    mkEvent 3000 train_moved (Some "a") "moved" sev_info None;
    mkEvent 3000 train_updated (Some "b") "queued" sev_warning None;
    mkEvent 2000 event_error None "failed" sev_error None ].

(** *** Using the creation form *)

(** What the operator does with the form: type into the failure field, press
    Add, press the cross of a failure, press Create. *)
Inductive FormAction :=
  | TypeFailure (text : string)
  | PressAdd
  | PressRemove (failure : string)
  | PressCreate.

Definition form_step (form : EntryDashboard.Form) (a : FormAction)
    : EntryDashboard.Form :=
  match a with
  | TypeFailure text => EntryDashboard.mkForm (EntryDashboard.newTrain form) text
  | PressAdd => EntryDashboard.addFailure form
  | PressRemove failure => EntryDashboard.removeFailure failure form
  | PressCreate => snd (EntryDashboard.handleCreateTrain form)
  end.

Definition initial_form : EntryDashboard.Form :=
  EntryDashboard.mkForm EntryDashboard.empty_newTrain "".

Definition form_run (actions : list FormAction) : EntryDashboard.Form :=
  foldl form_step initial_form actions.

(** The failures listed in the form. *)
Definition form_failures (form : EntryDashboard.Form) : list string :=
  EntryDashboard.nt_failures (EntryDashboard.newTrain form).

(** Pressing Create: the form hands its train to the control panel, which
    sends a [create_train] command to the engine. *)
Definition create_from_form (rnd : Entropy) (form : EntryDashboard.Form)
    (e : Engine) : Engine :=
  YardControlSystem.handleCreateTrain rnd
    (fst (EntryDashboard.handleCreateTrain form)) e.

(** * Ids that name a member of [Object.prototype] *)

(** The registries are created as [{}], so they inherit these members: a read
    [registry[id]] under one of these names, when the registry has no key of
    that name, returns the member (a function, or [Object.prototype] itself
    for [__proto__]) and not [undefined]. *)
Definition Object_prototype_members : list string :=
  [ "constructor"; "hasOwnProperty"; "isPrototypeOf"; "propertyIsEnumerable";
    "toLocaleString"; "toString"; "valueOf"; "__defineGetter__";
    "__defineSetter__"; "__lookupGetter__"; "__lookupSetter__"; "__proto__" ].

(** An id that names no such member: a read under it finds an own key or
    nothing. *)
Definition plain (k : string) : bool :=
  negb (bool_decide (k ∈ Object_prototype_members)).

(** ** Calls with plain ids *)

(** The ids a public call reads registries with. *)
Definition plain_action (a : Action) : bool :=
  match a with
  | CallAssignTrainToSiding _ trainId slotId => plain trainId && plain slotId
  | CallAssignTrainToWorkshop _ trainId workshopId =>
      plain trainId && plain workshopId
  | CallProcessCommand _ command =>
      match cmd_type command, cmd_data command with
      | assign_train, Some (AssignData target _ _) =>
          plain (default "" (cmd_trainId command)) && plain target
      | _, _ => true
      end
  | _ => true
  end.

(** The topology lists its bays, lines and slots under plain ids. *)
Definition plain_yard (definition : YardDefinition) : bool :=
  forallb plain
    (def_inspectionBays definition ++ def_workshopLines definition
       ++ def_sidingSlots definition)%list.

(** The states a simulator of a plain yard gets to when every public call
    uses plain ids. *)
Inductive reachable_plain (definition : YardDefinition) : Engine -> Prop :=
  | reachable_plain_new e :
      plain_yard definition = true ->
      newYardSimulator definition = Some e -> reachable_plain definition e
  | reachable_plain_step a e :
      reachable_plain definition e ->
      action_ok a = true -> plain_action a = true ->
      reachable_plain definition (perform definition a e).

(** ** The public assignments on any id *)

(** What the assignments write on the object a registry read returns, when
    that object is a member of [Object.prototype]: these properties stay on
    the member and are what a later read of it finds. *)
Record Member := mkMember {
  mb_status : option string;
  mb_locationNodeId : option string;
  mb_lastUpdated : option Z;
  mb_occupiedBy : option string
}.

Definition untouched : Member := mkMember None None None None.

(** A simulator together with what it has written on members. *)
Record Simulator := mkSimulator {
  engine : Engine;
  written : object Member
}.

(** The value of [registry[id]]. *)
Inductive Read (V : Type) :=
  | Own (v : V)
  | Inherited (m : Member)
  | Undefined.
Arguments Own {V} v.
Arguments Inherited {V} m.
Arguments Undefined {V}.

Definition read {V} (members : object Member) (k : string)
    (registry : object V) : Read V :=
  match oget k registry with
  | Some v => Own v
  | None =>
      if plain k then Undefined
      else Inherited (default untouched (oget k members))
  end.

(** The read is answered by [Object.prototype] itself: the value of its
    [__proto__] accessor on a registry that has no key of that name. *)
Definition reads_prototype {V} (k : string) (registry : object V) : bool :=
  bool_decide (k = "__proto__")
  && match oget k registry with Some _ => false | None => true end.

(** The [name] of the function a member is. *)
Definition function_name (k : string) : string :=
  if bool_decide (k = "constructor") then "Object" else k.

Definition update_member (k : string) (f : Member -> Member) (s : Simulator)
    : Simulator :=
  mkSimulator (engine s)
    (oset k (f (default untouched (oget k (written s)))) (written s)).

Definition update_engine (f : Engine -> Engine) (s : Simulator) : Simulator :=
  mkSimulator (f (engine s)) (written s).

Module Public.

(** [assignTrainToSiding] and [assignTrainToWorkshop] as a caller of the class
    reaches them.  A call that passes the guard with [Object.prototype]
    itself for train or target (id [__proto__]) writes on it, and what is
    written there shows in every object of the program; such a call is
    outside this embedding ([None]). *)
Definition assignTrainToSiding (now : Z) (trainId slotId : string)
    (s : Simulator) : option Simulator :=
  let st := state (engine s) in
  let train := read (written s) trainId (trains st) in
  let sidingSlot := read (written s) slotId (sidingSlots st) in
  match train, sidingSlot with
  | Undefined, _ | _, Undefined => Some s
  | _, _ =>
      let occupiedBy :=
        match sidingSlot with
        | Own sl => sl_occupiedBy sl
        | Inherited m => mb_occupiedBy m
        | Undefined => None
        end in
      if truthy occupiedBy then Some s else
      if reads_prototype trainId (trains st)
         || reads_prototype slotId (sidingSlots st) then None else
      let s :=
        match train with
        | Own t =>
            update_engine
              (with_trains (oset trainId (train_moved_to parked slotId now t))) s
        | _ =>
            update_member trainId
              (fun m => mkMember (Some "parked") (Some slotId) (Some now)
                          (mb_occupiedBy m)) s
        end in
      let s :=
        match sidingSlot with
        | Own sl =>
            update_engine
              (with_sidingSlots (oset slotId (slot_claimed trainId sl))) s
        | _ =>
            update_member slotId
              (fun m => mkMember (mb_status m) (mb_locationNodeId m)
                          (mb_lastUpdated m) (Some trainId)) s
        end in
      let number :=
        match train with Own t => t_number t | _ => "undefined" end in
      let place :=
        match sidingSlot with
        | Own sl => sidingId sl +:+ "-" +:+ slot_letter_string (slot sl)
        | _ => "undefined-undefined"
        end in
      let data :=
        match sidingSlot with
        | Own sl => DataTarget slotId (slot sl)
        | _ => DataTargetOnly slotId
        end in
      Some (update_engine
              (emitEvent now train_moved (Some trainId)
                 ("Train " +:+ number +:+ " parked in " +:+ place)
                 sev_success (Some data)) s)
  end.

Definition assignTrainToWorkshop (now : Z) (trainId workshopId : string)
    (s : Simulator) : option Simulator :=
  let st := state (engine s) in
  let train := read (written s) trainId (trains st) in
  let line := read (written s) workshopId (workshopLines st) in
  match train, line with
  | Undefined, _ | _, Undefined => Some s
  | _, _ =>
      let occupiedBy :=
        match line with
        | Own ws => ws_occupiedBy ws
        | Inherited m => mb_occupiedBy m
        | Undefined => None
        end in
      if truthy occupiedBy then Some s else
      if reads_prototype trainId (trains st)
         || reads_prototype workshopId (workshopLines st) then None else
      let s :=
        match train with
        | Own t =>
            update_engine
              (with_trains
                 (oset trainId (train_moved_to workshop workshopId now t))) s
        | _ =>
            update_member trainId
              (fun m => mkMember (Some "workshop") (Some workshopId) (Some now)
                          (mb_occupiedBy m)) s
        end in
      let s :=
        match line with
        | Own ws =>
            update_engine
              (with_workshopLines (oset workshopId (line_claimed trainId ws))) s
        | _ =>
            update_member workshopId
              (fun m => mkMember (Some "occupied") (mb_locationNodeId m)
                          (mb_lastUpdated m) (Some trainId)) s
        end in
      let number :=
        match train with Own t => t_number t | _ => "undefined" end in
      let name :=
        match line with
        | Own ws => ws_name ws
        | _ => function_name workshopId
        end in
      let s :=
        update_engine
          (emitEvent now train_moved (Some trainId)
             ("Train " +:+ number +:+ " sent to " +:+ name)
             sev_info (Some (DataWorkshop workshopId))) s in
      Some (update_engine
              (fun e =>
                 setTimeout (CbCompleteWorkshop trainId workshopId)
                   (10000 * simulationSpeed (state e)) e) s)
  end.

End Public.

(** ** Counting trains by status *)

Definition count_status (status : TrainStatus) (st : YardState) : nat :=
  length (filter (fun t => t_status t = status) (Object_values (trains st))).

(** * Properties *)

Local Open Scope list_scope.

(** ** JS values *)

Example parseInt_samples :
  parseInt "12" = Some 12 /\ parseInt "" = None /\ parseInt "a" = None /\
  parseInt " -7x" = Some (-7) /\ parseInt "0x1f" = Some 31 /\
  parseInt (substring1 "S10") = Some 10.
Proof. vm_compute. repeat split. Qed.

(** ** Scoring of siding slots *)

Lemma num_or_nonzero (q d : Q) :
  ~ (q == 0)%Q -> num_or (Some q) d = q.
Proof.
  intros H. simpl. destruct (Qeq_bool q 0) eqn:E; [|reflexivity].
  apply Qeq_bool_eq in E. contradiction.
Qed.

(** The chain of [score += ...] statements as one sum. *)
Lemma calculateSidingScore_sum (train : Train) (s : SidingSlot) (n : Z) :
  (priority train = true -> parseInt (substring1 (sidingId s)) = Some n) ->
  exists q,
    calculateSidingScore train s = Some (Qmax 0 q) /\
    (q == 100
          + (if departSoon train && bool_decide (slot s = slot_a) then 20 else 0)
          - (if departSoon train && bool_decide (slot s = slot_b) then 10 else 0)
          - num_or (reverseCost s) 1 * 5
          + match blockingRisk s with
            | Some low => 10
            | Some high => -10
            | _ => 0
            end
          + (if priority train then inject_Z ((13 - n) * 2) else 0))%Q.
Proof.
  intros Hn. unfold calculateSidingScore.
  destruct (priority train) eqn:Hp.
  - rewrite (Hn eq_refl). simpl. eexists. split; [reflexivity|].
    destruct (departSoon train), (slot s), (blockingRisk s) as [[]|];
      simpl; ring.
  - simpl. eexists. split; [reflexivity|].
    destruct (departSoon train), (slot s), (blockingRisk s) as [[]|];
      simpl; ring.
Qed.

(** C6 (the code departs from the claim): [(slot.reverseCost || 1) * 5] takes
    a reverse cost of 0 for a missing one, so every slot whose reverse cost is
    0 is scored as if its cost were 1.  For a train without flags and slot
    S5a with reverse cost 0 the code computes 95 where the claim's sum,
    100 - 0 x 5 + 0, is 100. *)
Theorem C6_zero_cost_charged_as_one :
  (forall train s,
     calculateSidingScore train (with_reverseCost (Some 0%Q) s)
     = calculateSidingScore train (with_reverseCost (Some 1%Q) s)) /\
  reverseCost (slot_S5a (Some 0%Q)) = Some 0%Q /\
  parseInt (substring1 (sidingId (slot_S5a (Some 0%Q)))) = Some 5 /\
  calculateSidingScore plain_train (slot_S5a (Some 0%Q)) = Some 95%Q /\
  (specified_sidingScore plain_train (slot_S5a (Some 0%Q)) 0 5 == 100)%Q /\
  ~ num_eq (calculateSidingScore plain_train (slot_S5a (Some 0%Q)))
           (Some (specified_sidingScore plain_train (slot_S5a (Some 0%Q)) 0 5)).
Proof.
  split; [intros train s; reflexivity|].
  repeat split; try reflexivity.
  vm_compute. intros H. discriminate H.
Qed.

(** The score as the code computes it: the specified sum, floored at 0, with
    the reverse cost read through [|| 1].  For a priority train the siding
    number is the integer [parseInt] finds after the first character of
    [sidingId]. *)
Lemma calculateSidingScore_formula (train : Train) (s : SidingSlot) (n : Z) :
  (priority train = true -> parseInt (substring1 (sidingId s)) = Some n) ->
  num_eq (calculateSidingScore train s)
         (Some (specified_sidingScore train s (num_or (reverseCost s) 1) n)).
Proof.
  intros Hn. destruct (calculateSidingScore_sum train s n Hn) as (q & -> & Hq).
  simpl. unfold specified_sidingScore. rewrite Hq. reflexivity.
Qed.

Lemma calculateSidingScore_formula_example :
  (priority priority_train = true ->
   parseInt (substring1 (sidingId (slot_S5a None))) = Some 5) /\
  num_eq (calculateSidingScore priority_train (slot_S5a None))
         (Some (specified_sidingScore priority_train (slot_S5a None)
                  (num_or (reverseCost (slot_S5a None)) 1) 5)).
Proof.
  split.
  - intros _. reflexivity.
  - apply (calculateSidingScore_formula priority_train (slot_S5a None) 5).
    intros _. reflexivity.
Defined.

(** Without a siding number the score of a priority train is [NaN]. *)
Lemma calculateSidingScore_NaN (train : Train) (s : SidingSlot) :
  priority train = true ->
  parseInt (substring1 (sidingId s)) = None ->
  calculateSidingScore train s = NaN.
Proof.
  intros Hp Hn. unfold calculateSidingScore. rewrite Hp, Hn. reflexivity.
Qed.

(** Two [NaN] scores do not compare. *)
Lemma NaN_not_le (x : jsnum) : ~ num_le NaN x.
Proof. intros H. exact H. Qed.

(** The score never grows with the cost the code charges. *)
Lemma calculateSidingScore_antitone (train : Train) (s : SidingSlot)
    (c1 c2 : option Q) :
  (priority train = true -> is_Some (parseInt (substring1 (sidingId s)))) ->
  (num_or c1 1 <= num_or c2 1)%Q ->
  num_le (calculateSidingScore train (with_reverseCost c2 s))
         (calculateSidingScore train (with_reverseCost c1 s)).
Proof.
  intros Hn Hc.
  assert (exists n, priority train = true ->
                    parseInt (substring1 (sidingId s)) = Some n) as [n Hn'].
  { destruct (priority train); [|exists 0; intros H; discriminate H].
    destruct (Hn eq_refl) as [n ->]. exists n. reflexivity. }
  destruct (calculateSidingScore_sum train (with_reverseCost c1 s) n Hn')
    as (q1 & -> & H1).
  destruct (calculateSidingScore_sum train (with_reverseCost c2 s) n Hn')
    as (q2 & -> & H2).
  simpl in *. apply Q.max_le_compat_l. rewrite H1, H2. lra.
Qed.

(** C7 (the code departs from the claim): [(slot.reverseCost || 1) * 5]
    charges a reverse cost of 0 as 1, so raising the reverse cost of slot S5a
    from 0 to 1/2 raises the score of a train without flags from 95 to 97.5,
    against the comment of that very line, "Lower reverse cost is better". *)
Theorem C7_raising_zero_cost_raises_score :
  (0 < 1 # 2)%Q /\
  calculateSidingScore plain_train (slot_S5a (Some 0%Q)) = Some 95%Q /\
  num_eq (calculateSidingScore plain_train (slot_S5a (Some (1 # 2)%Q)))
         (Some 97.5%Q) /\
  ~ num_le (calculateSidingScore plain_train (slot_S5a (Some (1 # 2)%Q)))
           (calculateSidingScore plain_train (slot_S5a (Some 0%Q))).
Proof.
  split; [reflexivity|]. split; [reflexivity|]. split; [reflexivity|].
  vm_compute. intros H. apply H. reflexivity.
Qed.

(** Apart from that case the score never grows with the cost: for two slots
    that differ only in [reverseCost], unless the smaller cost is zero and the
    larger one is below 1, the slot with the strictly larger cost has a score
    that is less than or equal to the other's. *)
Lemma calculateSidingScore_monotone (train : Train) (s : SidingSlot)
    (r1 r2 : Q) :
  (priority train = true -> is_Some (parseInt (substring1 (sidingId s)))) ->
  ~ (r1 == 0)%Q \/ (1 <= r2)%Q ->
  (r1 < r2)%Q ->
  num_le (calculateSidingScore train (with_reverseCost (Some r2) s))
         (calculateSidingScore train (with_reverseCost (Some r1) s)).
Proof.
  intros Hn Hr Hlt. apply calculateSidingScore_antitone; [exact Hn|].
  simpl. destruct (Qeq_bool r1 0) eqn:E1.
  - apply Qeq_bool_eq in E1. destruct (Qeq_bool r2 0) eqn:E2.
    + apply Qle_refl.
    + destruct Hr as [Hr|Hr]; [contradiction|exact Hr].
  - destruct (Qeq_bool r2 0) eqn:E2.
    + apply Qeq_bool_eq in E2. lra.
    + lra.
Qed.

Lemma calculateSidingScore_monotone_example :
  (priority priority_train = true ->
   is_Some (parseInt (substring1 (sidingId (slot_S5a None))))) /\
  (~ (0 == 0)%Q \/ (1 <= 3)%Q) /\ (0 < 3)%Q /\
  num_le
    (calculateSidingScore priority_train
       (with_reverseCost (Some 3%Q) (slot_S5a None)))
    (calculateSidingScore priority_train
       (with_reverseCost (Some 0%Q) (slot_S5a None))).
Proof.
  assert (H1 : priority priority_train = true ->
               is_Some (parseInt (substring1 (sidingId (slot_S5a None))))).
  { intros _. exists 5. reflexivity. }
  assert (H2 : ~ (0 == 0)%Q \/ (1 <= 3)%Q).
  { right. intros H. discriminate H. }
  assert (H3 : (0 < 3)%Q) by reflexivity.
  split; [exact H1|]. split; [exact H2|]. split; [exact H3|].
  exact (calculateSidingScore_monotone priority_train (slot_S5a None)
           0 3 H1 H2 H3).
Defined.

(** ** Blocking risk *)

Lemma gtb_nan_mono (n1 n2 : Z) (k : Z) :
  n1 <= n2 -> gtb_nan (Some n1) k = true -> gtb_nan (Some n2) k = true.
Proof. simpl. rewrite !Z.ltb_lt. lia. Qed.

Lemma gtb_nan_8_4 (n : option Z) :
  gtb_nan n 8 = true -> gtb_nan n 4 = true.
Proof. destruct n; simpl; [rewrite !Z.ltb_lt; lia | discriminate]. Qed.

(** C8 (as stated) fails: on siding S1 both slots are rated [high]. *)
Lemma C8_same_risk_counterexample :
  calculateBlockingRisk "S1" slot_a = high /\
  calculateBlockingRisk "S1" slot_b = high /\
  ~ (risk_rank (calculateBlockingRisk "S1" slot_a)
     < risk_rank (calculateBlockingRisk "S1" slot_b)).
Proof. vm_compute. repeat split; discriminate. Qed.

(** C8 (amended): slot 'a' never has a higher blocking risk than slot 'b' of
    the same siding, and a strictly lower one when the siding number exceeds
    4; for a fixed slot letter a higher-numbered siding never has a higher
    risk than a lower-numbered one. *)
Theorem C8_blocking_risk_order :
  (forall sidingId,
     risk_rank (calculateBlockingRisk sidingId slot_a)
     <= risk_rank (calculateBlockingRisk sidingId slot_b)) /\
  (forall sidingId n,
     parseInt (substring1 sidingId) = Some n -> 4 < n ->
     risk_rank (calculateBlockingRisk sidingId slot_a)
     < risk_rank (calculateBlockingRisk sidingId slot_b)) /\
  (forall sidingId1 sidingId2 n1 n2 letter,
     parseInt (substring1 sidingId1) = Some n1 ->
     parseInt (substring1 sidingId2) = Some n2 ->
     n1 <= n2 ->
     risk_rank (calculateBlockingRisk sidingId2 letter)
     <= risk_rank (calculateBlockingRisk sidingId1 letter)).
Proof.
  split; [|split].
  - intros sid. unfold calculateBlockingRisk.
    destruct (gtb_nan _ 8) eqn:E8; [simpl; lia|].
    destruct (gtb_nan _ 4); simpl; lia.
  - intros sid n Hn Hgt. unfold calculateBlockingRisk. rewrite Hn.
    assert (gtb_nan (Some n) 4 = true) as -> by (simpl; apply Z.ltb_lt; lia).
    destruct (gtb_nan (Some n) 8); simpl; lia.
  - intros sid1 sid2 n1 n2 letter H1 H2 Hle. unfold calculateBlockingRisk.
    rewrite H1, H2.
    pose proof (gtb_nan_mono n1 n2 8 Hle) as M8.
    pose proof (gtb_nan_mono n1 n2 4 Hle) as M4.
    pose proof (gtb_nan_8_4 (Some n2)) as L2.
    destruct letter;
      destruct (gtb_nan (Some n1) 8), (gtb_nan (Some n1) 4),
               (gtb_nan (Some n2) 8), (gtb_nan (Some n2) 4);
      simpl; try lia;
      try (specialize (M8 eq_refl); discriminate M8);
      try (specialize (M4 eq_refl); discriminate M4);
      try (specialize (L2 eq_refl); discriminate L2).
Qed.

Lemma C8_blocking_risk_order_witness :
  risk_rank (calculateBlockingRisk "S3" slot_a)
  <= risk_rank (calculateBlockingRisk "S3" slot_b) /\
  (parseInt (substring1 "S7") = Some 7 /\ 4 < 7 /\
   risk_rank (calculateBlockingRisk "S7" slot_a)
   < risk_rank (calculateBlockingRisk "S7" slot_b)) /\
  (parseInt (substring1 "S2") = Some 2 /\
   parseInt (substring1 "S11") = Some 11 /\ 2 <= 11 /\
   risk_rank (calculateBlockingRisk "S11" slot_b)
   <= risk_rank (calculateBlockingRisk "S2" slot_b)).
Proof.
  destruct C8_blocking_risk_order as (Hab & Hstrict & Hmono).
  split; [exact (Hab "S3")|]. split.
  - assert (H1 : parseInt (substring1 "S7") = Some 7) by reflexivity.
    assert (H2 : 4 < 7) by reflexivity.
    split; [exact H1|]. split; [exact H2|]. exact (Hstrict "S7" 7 H1 H2).
  - assert (H1 : parseInt (substring1 "S2") = Some 2) by reflexivity.
    assert (H2 : parseInt (substring1 "S11") = Some 11) by reflexivity.
    assert (H3 : 2 <= 11) by (intros H; discriminate H).
    split; [exact H1|]. split; [exact H2|]. split; [exact H3|].
    exact (Hmono "S2" "S11" 2 11 slot_b H1 H2 H3).
Defined.

(** ** Dictionaries *)

Section object_facts.
Context {V : Type}.
Implicit Types (m : object V) (k : string) (v : V).

Lemma oget_oset_eq k v m : oget k (oset k v m) = Some v.
Proof.
  induction m as [|[k' v'] m IH]; simpl.
  - destruct (decide (k = k)); congruence.
  - destruct (decide (k = k')) as [->|Hne]; simpl.
    + destruct (decide (k' = k')); congruence.
    + destruct (decide (k = k')); [contradiction|exact IH].
Qed.

Lemma oget_oset_ne k k' v m : k <> k' -> oget k' (oset k v m) = oget k' m.
Proof.
  intros Hne. induction m as [|[k0 v0] m IH]; simpl.
  - destruct (decide (k' = k)); congruence.
  - destruct (decide (k = k0)) as [->|Hk]; simpl.
    + destruct (decide (k' = k0)); congruence.
    + destruct (decide (k' = k0)); [reflexivity|exact IH].
Qed.

Lemma oget_oset k k' v m :
  oget k' (oset k v m) = if decide (k = k') then Some v else oget k' m.
Proof.
  destruct (decide (k = k')) as [->|Hne].
  - apply oget_oset_eq.
  - apply oget_oset_ne, Hne.
Qed.

Lemma oget_is_Some_oset k k' v m :
  is_Some (oget k' m) -> is_Some (oget k' (oset k v m)).
Proof.
  rewrite oget_oset. destruct (decide (k = k')); [eauto|trivial].
Qed.

Lemma Object_keys_oset k v m :
  is_Some (oget k m) -> Object_keys (oset k v m) = Object_keys m.
Proof.
  unfold Object_keys. induction m as [|[k' v'] m IH]; simpl.
  - intros [x Hx]. discriminate Hx.
  - destruct (decide (k = k')) as [->|Hne]; simpl; [reflexivity|].
    intros H. f_equal. apply IH, H.
Qed.

Lemma oget_None_keys k m : oget k m = None <-> k ∉ Object_keys m.
Proof.
  unfold Object_keys. induction m as [|[k' v'] m IH]; simpl.
  - split; [intros _; apply not_elem_of_nil|reflexivity].
  - rewrite not_elem_of_cons.
    destruct (decide (k = k')) as [->|Hne].
    + split; [discriminate|intros [H _]; contradiction].
    + rewrite IH. tauto.
Qed.

Lemma Object_values_oget m v :
  v ∈ Object_values m -> exists k, k ∈ Object_keys m /\ (k, v) ∈ m.
Proof.
  unfold Object_values, Object_keys. intros H.
  apply list_elem_of_fmap in H as ([k v'] & -> & Hin).
  exists k. split; [|exact Hin].
  apply list_elem_of_fmap. exists (k, v'). split; [reflexivity|exact Hin].
Qed.

Lemma oget_NoDup m k v :
  NoDup (Object_keys m) -> (k, v) ∈ m -> oget k m = Some v.
Proof.
  unfold Object_keys. induction m as [|[k' v'] m IH]; simpl.
  - intros _ H. apply elem_of_nil in H. contradiction.
  - intros Hnd Hin. apply NoDup_cons in Hnd as [Hk' Hnd].
    apply elem_of_cons in Hin as [Heq|Hin].
    + injection Heq as -> ->. destruct (decide (k' = k')); congruence.
    + destruct (decide (k = k')) as [->|Hne]; [|apply IH; assumption].
      exfalso. apply Hk'. apply list_elem_of_fmap.
      exists (k', v). split; [reflexivity|exact Hin].
Qed.
End object_facts.

(** ** Assignment to sidings and workshops *)

Lemma truthy_occupant (o : option string) : truthy o = true <-> occupant o.
Proof.
  destruct o as [[|c s]|]; simpl.
  - split; [discriminate|intros H; contradiction].
  - split; [intros _ H; discriminate H|reflexivity].
  - split; [discriminate|contradiction].
Qed.

Lemma assignTrainToSiding_refused now trainId slotId e :
  siding_assignment_refused trainId slotId (state e) ->
  assignTrainToSiding now trainId slotId e = e.
Proof.
  unfold assignTrainToSiding. intros [H|[H|(s & H & Ho)]]; rewrite H.
  - reflexivity.
  - destruct (oget trainId _); reflexivity.
  - destruct (oget trainId _); [|reflexivity].
    apply truthy_occupant in Ho. rewrite Ho. reflexivity.
Qed.

Lemma assignTrainToWorkshop_refused now trainId workshopId e :
  workshop_assignment_refused trainId workshopId (state e) ->
  assignTrainToWorkshop now trainId workshopId e = e.
Proof.
  unfold assignTrainToWorkshop. intros [H|[H|(w & H & Ho)]]; rewrite H.
  - reflexivity.
  - destruct (oget trainId _); reflexivity.
  - destruct (oget trainId _); [|reflexivity].
    apply truthy_occupant in Ho. rewrite Ho. reflexivity.
Qed.

Lemma not_occupant_truthy (o : option string) : ~ occupant o -> truthy o = false.
Proof.
  intros H. destruct (truthy o) eqn:E; [|reflexivity].
  apply truthy_occupant in E. contradiction.
Qed.

Lemma assignTrainToSiding_accepted now trainId slotId e train s :
  oget trainId (trains (state e)) = Some train ->
  oget slotId (sidingSlots (state e)) = Some s ->
  ~ occupant (sl_occupiedBy s) ->
  oget slotId (sidingSlots (state (assignTrainToSiding now trainId slotId e)))
  = Some (slot_claimed trainId s) /\
  oget trainId (trains (state (assignTrainToSiding now trainId slotId e)))
  = Some (train_moved_to parked slotId now train).
Proof.
  intros Ht Hs Ho. unfold assignTrainToSiding. rewrite Ht, Hs.
  rewrite (not_occupant_truthy _ Ho). simpl.
  split; apply oget_oset_eq.
Qed.

Lemma assignTrainToWorkshop_accepted now trainId workshopId e train w :
  oget trainId (trains (state e)) = Some train ->
  oget workshopId (workshopLines (state e)) = Some w ->
  ~ occupant (ws_occupiedBy w) ->
  oget workshopId
    (workshopLines (state (assignTrainToWorkshop now trainId workshopId e)))
  = Some (line_claimed trainId w) /\
  oget trainId (trains (state (assignTrainToWorkshop now trainId workshopId e)))
  = Some (train_moved_to workshop workshopId now train).
Proof.
  intros Ht Hw Ho. unfold assignTrainToWorkshop. rewrite Ht, Hw.
  rewrite (not_occupant_truthy _ Ho). simpl.
  split; apply oget_oset_eq.
Qed.

(** The guard of the assignments on the registered ids: an assignment whose
    train or target is no key of its registry, or whose target has an
    occupant, leaves the engine (state, event log, timers) as it was; when the
    train exists and the target is free, the target's [occupiedBy] becomes
    that train id; and a resource that has an occupant keeps it through any
    assignment.  (For an id that is no key but names a member of
    [Object.prototype] the code reads the member: see [Public].) *)
Lemma assignment_exclusive (now : Z) (trainId target : string) (e : Engine) :
  (siding_assignment_refused trainId target (state e) ->
   assignTrainToSiding now trainId target e = e) /\
  (workshop_assignment_refused trainId target (state e) ->
   assignTrainToWorkshop now trainId target e = e) /\
  (forall train s,
     oget trainId (trains (state e)) = Some train ->
     oget target (sidingSlots (state e)) = Some s ->
     ~ occupant (sl_occupiedBy s) ->
     exists s',
       oget target (sidingSlots (state (assignTrainToSiding now trainId target e)))
       = Some s' /\ sl_occupiedBy s' = Some trainId) /\
  (forall train w,
     oget trainId (trains (state e)) = Some train ->
     oget target (workshopLines (state e)) = Some w ->
     ~ occupant (ws_occupiedBy w) ->
     exists w',
       oget target
         (workshopLines (state (assignTrainToWorkshop now trainId target e)))
       = Some w' /\ ws_occupiedBy w' = Some trainId) /\
  (forall k s,
     oget k (sidingSlots (state e)) = Some s -> occupant (sl_occupiedBy s) ->
     oget k (sidingSlots (state (assignTrainToSiding now trainId target e)))
     = Some s) /\
  (forall k w,
     oget k (workshopLines (state e)) = Some w -> occupant (ws_occupiedBy w) ->
     oget k (workshopLines (state (assignTrainToWorkshop now trainId target e)))
     = Some w).
Proof.
  split; [apply assignTrainToSiding_refused|].
  split; [apply assignTrainToWorkshop_refused|].
  split; [|split; [|split]].
  - intros train s Ht Hs Ho.
    destruct (assignTrainToSiding_accepted now _ _ _ _ _ Ht Hs Ho) as [H _].
    eexists. split; [exact H|reflexivity].
  - intros train w Ht Hw Ho.
    destruct (assignTrainToWorkshop_accepted now _ _ _ _ _ Ht Hw Ho) as [H _].
    eexists. split; [exact H|reflexivity].
  - intros k s Hk Ho. destruct (decide (target = k)) as [->|Hne].
    + rewrite assignTrainToSiding_refused; [exact Hk|].
      right; right. exists s. split; assumption.
    + unfold assignTrainToSiding.
      destruct (oget trainId _); [|exact Hk].
      destruct (oget target _) eqn:Et; [|exact Hk].
      destruct (truthy _); [exact Hk|]. simpl.
      rewrite oget_oset_ne; assumption.
  - intros k w Hk Ho. destruct (decide (target = k)) as [->|Hne].
    + rewrite assignTrainToWorkshop_refused; [exact Hk|].
      right; right. exists w. split; assumption.
    + unfold assignTrainToWorkshop.
      destruct (oget trainId _); [|exact Hk].
      destruct (oget target _) eqn:Et; [|exact Hk].
      destruct (truthy _); [exact Hk|]. simpl.
      rewrite oget_oset_ne; assumption.
Qed.

Lemma assignment_exclusive_example :
  (siding_assignment_refused "train_1000_k3j9x0q2a" "S1a" (state parked_engine) /\
   assignTrainToSiding 2000 "train_1000_k3j9x0q2a" "S1a" parked_engine
   = parked_engine) /\
  (workshop_assignment_refused "train_404" "WL1" (state one_train_engine) /\
   assignTrainToWorkshop 2000 "train_404" "WL1" one_train_engine
   = one_train_engine) /\
  (exists s',
     oget "S1a"
       (sidingSlots
          (state (assignTrainToSiding 2000 "train_1000_k3j9x0q2a" "S1a"
                    one_train_engine)))
     = Some s' /\ sl_occupiedBy s' = Some "train_1000_k3j9x0q2a") /\
  (exists w',
     oget "WL1"
       (workshopLines
          (state (assignTrainToWorkshop 2000 "train_1000_k3j9x0q2a" "WL1"
                    one_train_engine)))
     = Some w' /\ ws_occupiedBy w' = Some "train_1000_k3j9x0q2a").
Proof.
  assert (R1 : siding_assignment_refused "train_1000_k3j9x0q2a" "S1a"
                 (state parked_engine)).
  { right; right. eexists. split; [vm_compute; reflexivity|].
    simpl. discriminate. }
  assert (R2 : workshop_assignment_refused "train_404" "WL1"
                 (state one_train_engine)).
  { left. vm_compute. reflexivity. }
  split; [split; [exact R1|]|split; [split; [exact R2|]|split]].
  - exact (proj1 (assignment_exclusive 2000 "train_1000_k3j9x0q2a" "S1a"
                    parked_engine) R1).
  - exact (proj1 (proj2 (assignment_exclusive 2000 "train_404" "WL1"
                           one_train_engine)) R2).
  - refine (proj1 (proj2 (proj2 (assignment_exclusive 2000
             "train_1000_k3j9x0q2a" "S1a" one_train_engine))) _ _ _ _ _).
    + vm_compute. reflexivity.
    + vm_compute. reflexivity.
    + simpl. tauto.
  - refine (proj1 (proj2 (proj2 (proj2 (assignment_exclusive 2000
             "train_1000_k3j9x0q2a" "WL1" one_train_engine)))) _ _ _ _ _).
    + vm_compute. reflexivity.
    + vm_compute. reflexivity.
    + simpl. tauto.
Defined.


(** *** The assignments on any id *)

(** On ids that are keys of their registry or plain, the public assignments
    are the ones of the engine and write on no member. *)
Lemma Public_assignTrainToSiding_plain now trainId slotId s :
  is_Some (oget trainId (trains (state (engine s)))) \/ plain trainId = true ->
  is_Some (oget slotId (sidingSlots (state (engine s)))) \/ plain slotId = true ->
  Public.assignTrainToSiding now trainId slotId s
  = Some (mkSimulator (assignTrainToSiding now trainId slotId (engine s))
            (written s)).
Proof.
  intros Ht Hs. destruct s as [e w].
  unfold Public.assignTrainToSiding, assignTrainToSiding, reads_prototype, read.
  cbn [engine written] in *.
  destruct (oget trainId (trains (state e))) as [train|] eqn:Et.
  - destruct (oget slotId (sidingSlots (state e))) as [sl|] eqn:Es.
    + destruct (truthy (sl_occupiedBy sl)); [reflexivity|].
      rewrite !andb_false_r. reflexivity.
    + destruct Hs as [[x Hx]|Hs]; [discriminate Hx|]. rewrite Hs. reflexivity.
  - destruct Ht as [[x Hx]|Ht]; [discriminate Hx|]. rewrite Ht. reflexivity.
Qed.

Lemma Public_assignTrainToWorkshop_plain now trainId workshopId s :
  is_Some (oget trainId (trains (state (engine s)))) \/ plain trainId = true ->
  is_Some (oget workshopId (workshopLines (state (engine s))))
  \/ plain workshopId = true ->
  Public.assignTrainToWorkshop now trainId workshopId s
  = Some (mkSimulator (assignTrainToWorkshop now trainId workshopId (engine s))
            (written s)).
Proof.
  intros Ht Hs. destruct s as [e w].
  unfold Public.assignTrainToWorkshop, assignTrainToWorkshop, reads_prototype,
    read.
  cbn [engine written] in *.
  destruct (oget trainId (trains (state e))) as [train|] eqn:Et.
  - destruct (oget workshopId (workshopLines (state e))) as [ws|] eqn:Es.
    + destruct (truthy (ws_occupiedBy ws)); [reflexivity|].
      rewrite !andb_false_r. reflexivity.
    + destruct Hs as [[x Hx]|Hs]; [discriminate Hx|]. rewrite Hs. reflexivity.
  - destruct Ht as [[x Hx]|Ht]; [discriminate Hx|]. rewrite Ht. reflexivity.
Qed.

(** C1 (the code departs from the claim): the guard [!train || !sidingSlot]
    takes a member of [Object.prototype] for a train or a target.  In the new
    sample yard, where no train exists, [assignTrainToSiding("constructor",
    "S1a")] occupies slot S1a for "constructor" and logs a move; with the one
    registered train, [assignTrainToSiding(train, "constructor")] parks the
    train at "constructor", which is no slot, and logs a move; and
    [assignTrainToWorkshop("constructor", "WL1")] occupies line WL1, logs a
    move and sets a completion timer.  The claim has each of these calls
    leave the state unchanged and log nothing. *)
Theorem C1_prototype_member_passes_guard :
  (oget "constructor" (trains (state sample_engine)) = None /\
   exists s',
     Public.assignTrainToSiding 1500 "constructor" "S1a"
       (mkSimulator sample_engine []) = Some s' /\
     sl_occupiedBy <$> oget "S1a" (sidingSlots (state (engine s')))
     = Some (Some "constructor") /\
     trains (state (engine s')) = [] /\
     eventLog (state (engine s'))
     = [mkEvent 1500 train_moved (Some "constructor")
          "Train undefined parked in S1-a" sev_success
          (Some (DataTarget "S1a" slot_a))] /\
     written s'
     = [("constructor", mkMember (Some "parked") (Some "S1a") (Some 1500) None)]) /\
  (oget "constructor" (sidingSlots (state one_train_engine)) = None /\
   exists s',
     Public.assignTrainToSiding 1500 "train_1000_k3j9x0q2a" "constructor"
       (mkSimulator one_train_engine []) = Some s' /\
     (t_status <$> oget "train_1000_k3j9x0q2a" (trains (state (engine s')))
      = Some parked) /\
     (locationNodeId
      <$> oget "train_1000_k3j9x0q2a" (trains (state (engine s')))
      = Some "constructor") /\
     sidingSlots (state (engine s')) = sidingSlots (state one_train_engine) /\
     last (eventLog (state (engine s')))
     = Some (mkEvent 1500 train_moved (Some "train_1000_k3j9x0q2a")
               "Train T1 parked in undefined-undefined" sev_success
               (Some (DataTargetOnly "constructor"))) /\
     written s'
     = [("constructor", mkMember None None None (Some "train_1000_k3j9x0q2a"))]) /\
  (exists s',
     Public.assignTrainToWorkshop 1500 "constructor" "WL1"
       (mkSimulator sample_engine []) = Some s' /\
     (ws_occupiedBy <$> oget "WL1" (workshopLines (state (engine s')))
      = Some (Some "constructor")) /\
     eventLog (state (engine s'))
     = [mkEvent 1500 train_moved (Some "constructor")
          "Train undefined sent to WL-1" sev_info
          (Some (DataWorkshop "WL1"))] /\
     callback <$> timers (engine s')
     = [CbCompleteWorkshop "constructor" "WL1"]).
Proof.
  split; [|split].
  - split; [reflexivity|]. eexists. split; [vm_compute; reflexivity|].
    repeat split.
  - split; [reflexivity|]. eexists. split; [vm_compute; reflexivity|].
    repeat split.
  - eexists. split; [vm_compute; reflexivity|]. repeat split.
Qed.

(** ** Completion handlers *)

Section completion.
Variable definition : YardDefinition.

Lemma assignTrainToInspection_released now x bay trainId bayId e :
  x <> trainId ->
  released trainId bayId e ->
  released trainId bayId (assignTrainToInspection now x bay e).
Proof.
  intros Hx [Hb Ht]. unfold assignTrainToInspection.
  destruct (oget x _) as [tx|]; [|split; assumption].
  destruct (oget bay _) as [b0|]; [|split; assumption].
  destruct (negb _); [split; assumption|].
  split; simpl.
  - intros b. rewrite oget_oset. destruct (decide (bay = bayId)).
    + intros [= <-]. simpl. congruence.
    + apply Hb.
  - intros t. rewrite oget_oset_ne by exact Hx. apply Ht.
Qed.

Lemma autoAssignToInspection_released now x trainId bayId e :
  released trainId bayId e ->
  released trainId bayId (autoAssignToInspection definition now x e).
Proof.
  intros HR. unfold autoAssignToInspection.
  destruct (oget x (trains (state e))) as [tx|] eqn:Ex; [|exact HR].
  destruct (decide (t_status tx = arriving)) as [Ha|Ha].
  2:{ rewrite bool_decide_eq_false_2 by exact Ha. exact HR. }
  rewrite bool_decide_eq_true_2 by exact Ha. simpl.
  assert (x <> trainId) as Hx.
  { intros ->. destruct HR as [_ Ht]. exact (Ht _ Ex Ha). }
  destruct (truthy _).
  - apply assignTrainToInspection_released; assumption.
  - destruct HR as [Hb Ht]. split; simpl.
    + exact Hb.
    + intros t. rewrite oget_oset_ne by exact Hx. apply Ht.
Qed.

Lemma processQueuedTrains_released now trainId bayId e :
  released trainId bayId e ->
  released trainId bayId (processQueuedTrains definition now e).
Proof.
  unfold processQueuedTrains.
  generalize (filter (fun train => t_status train = queued)
                (Object_values (trains (state e)))).
  intros l. revert e. induction l as [|t l IH]; intros e HR; simpl.
  - exact HR.
  - apply IH, autoAssignToInspection_released, HR.
Qed.

Lemma completeInspection_guard now random trainId bayId e :
  (forall b, oget bayId (inspectionBays (state e)) = Some b ->
             bay_occupiedBy b <> Some trainId) ->
  completeInspection definition now random trainId bayId e = e.
Proof.
  intros Hb. unfold completeInspection.
  destruct (oget trainId _); [|reflexivity].
  destruct (oget bayId _) as [b|]; [|reflexivity].
  rewrite bool_decide_eq_false_2 by (apply Hb; reflexivity). reflexivity.
Qed.

Lemma completeInspection_released now random trainId bayId e train bay :
  oget trainId (trains (state e)) = Some train ->
  oget bayId (inspectionBays (state e)) = Some bay ->
  bay_occupiedBy bay = Some trainId ->
  released trainId bayId
    (completeInspection definition now random trainId bayId e).
Proof.
  intros Ht Hb Ho. unfold completeInspection. rewrite Ht, Hb.
  rewrite bool_decide_eq_true_2 by exact Ho. simpl.
  apply processQueuedTrains_released.
  assert (forall e0,
    oget bayId (inspectionBays (state e0)) = Some (bay_released bay) ->
    oget trainId (trains (state e0))
    = Some (train_moved_to moving (locationNodeId train) now train) ->
    released trainId bayId e0) as Hrel.
  { intros e0 H1 H2. split.
    - intros b. rewrite H1. intros [= <-]. discriminate.
    - intros t. rewrite H2. intros [= <-]. discriminate. }
  destruct (negb (Qle_bool _ random)).
  - destruct (negb (priority _) && negb (departSoon _));
      [destruct (generateSidingRecommendations _ _)|];
      apply Hrel; simpl; apply oget_oset_eq.
  - destruct (generateWorkshopRecommendations _ _);
      apply Hrel; simpl; apply oget_oset_eq.
Qed.

Lemma completeWorkshop_guard now trainId workshopId e :
  (forall w, oget workshopId (workshopLines (state e)) = Some w ->
             ws_occupiedBy w <> Some trainId) ->
  completeWorkshop now trainId workshopId e = e.
Proof.
  intros Hw. unfold completeWorkshop.
  destruct (oget trainId _); [|reflexivity].
  destruct (oget workshopId _) as [w|]; [|reflexivity].
  rewrite bool_decide_eq_false_2 by (apply Hw; reflexivity). reflexivity.
Qed.

(** C3: a completion handler run a second time for the same train and
    resource changes nothing: the engine after the second call (state, event
    log and pending timers) is the engine after the first. *)
Theorem C3_completion_idempotent (now now' : Z) (random random' : Q)
    (trainId target : string) (e : Engine) :
  completeInspection definition now' random' trainId target
    (completeInspection definition now random trainId target e)
  = completeInspection definition now random trainId target e /\
  completeWorkshop now' trainId target
    (completeWorkshop now trainId target e)
  = completeWorkshop now trainId target e.
Proof.
  split.
  - destruct (oget trainId (trains (state e))) as [train|] eqn:Ht.
    2:{ unfold completeInspection at 2. rewrite Ht.
        unfold completeInspection. rewrite Ht. reflexivity. }
    destruct (oget target (inspectionBays (state e))) as [bay|] eqn:Hb.
    2:{ rewrite (completeInspection_guard now random) by
          (intros b; rewrite Hb; discriminate).
        apply completeInspection_guard. intros b. rewrite Hb. discriminate. }
    destruct (decide (bay_occupiedBy bay = Some trainId)) as [Ho|Ho].
    + apply completeInspection_guard.
      apply (completeInspection_released now random _ _ _ _ _ Ht Hb Ho).
    + rewrite (completeInspection_guard now random) by
        (intros b; rewrite Hb; intros [= <-]; exact Ho).
      apply completeInspection_guard.
      intros b; rewrite Hb; intros [= <-]; exact Ho.
  - destruct (oget trainId (trains (state e))) as [train|] eqn:Ht.
    2:{ unfold completeWorkshop at 2. rewrite Ht.
        unfold completeWorkshop. rewrite Ht. reflexivity. }
    destruct (oget target (workshopLines (state e))) as [w|] eqn:Hw.
    2:{ rewrite (completeWorkshop_guard now) by
          (intros x; rewrite Hw; discriminate).
        apply completeWorkshop_guard. intros x. rewrite Hw. discriminate. }
    destruct (decide (ws_occupiedBy w = Some trainId)) as [Ho|Ho].
    + apply completeWorkshop_guard.
      unfold completeWorkshop. rewrite Ht, Hw.
      rewrite bool_decide_eq_true_2 by exact Ho. simpl.
      intros x.
      destruct (generateSidingRecommendations _ _); simpl;
        rewrite oget_oset_eq; intros [= <-]; discriminate.
    + rewrite (completeWorkshop_guard now) by
        (intros x; rewrite Hw; intros [= <-]; exact Ho).
      apply completeWorkshop_guard.
      intros x; rewrite Hw; intros [= <-]; exact Ho.
Qed.
End completion.

(** ** Train creation *)

Lemma unit_interval_bounds (r : Q) :
  unit_interval r = true -> (0 <= r)%Q /\ (r < 1)%Q.
Proof.
  unfold unit_interval. intros H. apply andb_true_iff in H as [H0 H1].
  apply Qle_bool_iff in H0. split; [exact H0|].
  apply Qnot_le_lt. intros Hle. apply Qle_bool_iff in Hle.
  rewrite Hle in H1. discriminate H1.
Qed.

(** [Math.floor(Math.random() * n)] is one of 0, ..., n - 1. *)
Lemma random_floor_range (r : Q) (n : Z) :
  0 < n -> unit_interval r = true ->
  0 <= Qfloor (r * inject_Z n) < n.
Proof.
  intros Hn Hr. apply unit_interval_bounds in Hr as [H0 H1].
  assert (inject_Z 0 < inject_Z n)%Q as Hn'
    by (rewrite <- Zlt_Qlt; exact Hn).
  change (inject_Z 0) with 0%Q in Hn'.
  split.
  - assert (Qfloor (inject_Z 0) <= Qfloor (r * inject_Z n)) as H.
    { apply Qfloor_resp_le. change (inject_Z 0) with 0%Q.
      apply Qmult_le_0_compat; [exact H0|apply Qlt_le_weak, Hn']. }
    rewrite Qfloor_Z in H. exact H.
  - rewrite Zlt_Qlt. eapply Qle_lt_trans; [apply Qfloor_le|].
    assert (r * inject_Z n < 1 * inject_Z n)%Q as H
      by (apply Qmult_lt_compat_r; assumption).
    rewrite Qmult_1_l in H. exact H.
Qed.

Lemma generated_id_not_empty (rnd : Entropy) : generated_id rnd <> "".
Proof. unfold generated_id. simpl. discriminate. Qed.

Lemma enqueueTrain_id (rnd : Entropy) (trainData : PartialTrain) (e : Engine) :
  fst (enqueueTrain rnd trainData e) = generated_id rnd.
Proof. reflexivity. Qed.

(** C10 (as stated) fails: a number supplied as the empty string is not kept;
    the train gets the generated number. *)
Lemma C10_empty_number_counterexample :
  p_number unnumbered_trainData = Some "" /\
  exists train,
    oget (fst (enqueueTrain (entropy_at 1000 "k3j9x0q2a") unnumbered_trainData
                 sample_engine))
      (trains (state (snd (enqueueTrain (entropy_at 1000 "k3j9x0q2a")
                             unnumbered_trainData sample_engine))))
    = Some train /\
    t_number train = "T1" /\ t_number train <> "".
Proof.
  split; [reflexivity|]. eexists. split; [vm_compute; reflexivity|].
  split; [reflexivity|discriminate].
Qed.

(** A fitness supplied as 0 is replaced by a random draw as well. *)
Lemma enqueueTrain_zero_fitness :
  p_fitness unfit_trainData = Some 0%Q /\
  exists train,
    oget (generated_id (entropy_at 1000 "k3j9x0q2a"))
      (trains (state (snd (enqueueTrain (entropy_at 1000 "k3j9x0q2a")
                             unfit_trainData sample_engine))))
    = Some train /\
    fitness train = 50%Q.
Proof.
  split; [reflexivity|]. eexists. split; [vm_compute; reflexivity|reflexivity].
Qed.

(** C10 (amended): [enqueueTrain] returns the generated id and stores under
    it a train at the entry node E1 with status [arriving].  A supplied
    non-empty number, non-zero fitness, non-zero mileage, job card, failure
    list, priority and departSoon flag are kept.  An omitted or empty number
    becomes the sequential number; an omitted fitness (mileage) is an integer
    in 0..99 (0..49999); an omitted job card or failure list is empty and an
    omitted flag is false. *)
Theorem C10_enqueueTrain_creates (rnd : Entropy) (trainData : PartialTrain)
    (e : Engine) :
  entropy_ok rnd = true ->
  fst (enqueueTrain rnd trainData e) = generated_id rnd /\
  exists train,
    oget (generated_id rnd)
      (trains (state (snd (enqueueTrain rnd trainData e)))) = Some train /\
    t_id train = generated_id rnd /\
    t_status train = arriving /\
    locationNodeId train = "E1" /\
    (forall s, p_number trainData = Some s -> s <> "" -> t_number train = s) /\
    (p_number trainData = None \/ p_number trainData = Some "" ->
     t_number train = sequential_number e) /\
    (forall q, p_fitness trainData = Some q -> ~ (q == 0)%Q ->
               fitness train = q) /\
    (p_fitness trainData = None ->
     exists k, fitness train = inject_Z k /\ 0 <= k < 100) /\
    (forall q, p_mileage trainData = Some q -> ~ (q == 0)%Q ->
               mileage train = q) /\
    (p_mileage trainData = None ->
     exists k, mileage train = inject_Z k /\ 0 <= k < 50000) /\
    jobCard train = default [] (p_jobCard trainData) /\
    failures train = default [] (p_failures trainData) /\
    priority train = default false (p_priority trainData) /\
    departSoon train = default false (p_departSoon trainData).
Proof.
  intros Hrnd. apply andb_true_iff in Hrnd as [Hf Hm].
  split; [reflexivity|].
  eexists. split; [simpl; apply oget_oset_eq|]. simpl.
  split; [reflexivity|]. split; [reflexivity|]. split; [reflexivity|].
  split.
  { intros s -> Hs. destruct s; [contradiction|reflexivity]. }
  split.
  { intros [->| ->]; reflexivity. }
  split.
  { intros q -> Hq. apply num_or_nonzero, Hq. }
  split.
  { intros ->. simpl. eexists. split; [reflexivity|].
    apply (random_floor_range _ 100); [reflexivity|exact Hf]. }
  split.
  { intros q -> Hq. apply num_or_nonzero, Hq. }
  split.
  { intros ->. simpl. eexists. split; [reflexivity|].
    apply (random_floor_range _ 50000); [reflexivity|exact Hm]. }
  split; [reflexivity|]. split; [reflexivity|].
  split; apply orb_false_r.
Qed.

Lemma C10_enqueueTrain_creates_witness :
  entropy_ok (entropy_at 1000 "k3j9x0q2a") = true /\
  fst (enqueueTrain (entropy_at 1000 "k3j9x0q2a") full_trainData sample_engine)
  = "train_1000_k3j9x0q2a" /\
  exists train,
    oget "train_1000_k3j9x0q2a"
      (trains (state (snd (enqueueTrain (entropy_at 1000 "k3j9x0q2a")
                             full_trainData sample_engine))))
    = Some train /\
    t_status train = arriving /\ locationNodeId train = "E1" /\
    t_number train = "KM-12" /\ fitness train = 85%Q /\
    failures train = ["wheel-alignment"] /\ priority train = true.
Proof.
  assert (H : entropy_ok (entropy_at 1000 "k3j9x0q2a") = true) by reflexivity.
  split; [exact H|].
  destruct (C10_enqueueTrain_creates (entropy_at 1000 "k3j9x0q2a")
              full_trainData sample_engine H)
    as (Hid & train & Hget & _ & Hst & Hloc & Hnum & _ & Hfit & _ & _ & _
        & _ & Hfail & Hprio & _).
  split; [exact Hid|]. exists train.
  split; [exact Hget|]. split; [exact Hst|]. split; [exact Hloc|].
  split; [apply Hnum; [reflexivity|discriminate]|].
  split; [apply Hfit; [reflexivity|intros Hq; discriminate Hq]|].
  split; [exact Hfail|exact Hprio].
Defined.

(** ** Events *)

Section events.
Variable definition : YardDefinition.

Lemma assignTrainToInspection_log now trainId bayId e :
  exists evs,
    eventLog (state (assignTrainToInspection now trainId bayId e))
    = eventLog (state e) ++ evs.
Proof.
  unfold assignTrainToInspection.
  destruct (oget trainId _); [|exists []; symmetry; apply app_nil_r].
  destruct (oget bayId _); [|exists []; symmetry; apply app_nil_r].
  destruct (negb _); [exists []; symmetry; apply app_nil_r|].
  simpl. eexists. reflexivity.
Qed.

Lemma autoAssignToInspection_log now trainId e :
  exists evs,
    eventLog (state (autoAssignToInspection definition now trainId e))
    = eventLog (state e) ++ evs.
Proof.
  unfold autoAssignToInspection.
  destruct (oget trainId _); [|exists []; symmetry; apply app_nil_r].
  destruct (negb _); [exists []; symmetry; apply app_nil_r|].
  destruct (truthy _).
  - apply assignTrainToInspection_log.
  - simpl. eexists. reflexivity.
Qed.

Lemma processQueuedTrains_log now e :
  exists evs,
    eventLog (state (processQueuedTrains definition now e))
    = eventLog (state e) ++ evs.
Proof.
  unfold processQueuedTrains.
  generalize (filter (fun train => t_status train = queued)
                (Object_values (trains (state e)))).
  intros l. revert e. induction l as [|t l IH]; intros e; simpl.
  - exists []. symmetry. apply app_nil_r.
  - destruct (IH (autoAssignToInspection definition now (t_id t) e))
      as [evs2 ->].
    destruct (autoAssignToInspection_log now (t_id t) e) as [evs1 ->].
    exists (evs1 ++ evs2). symmetry. apply app_assoc.
Qed.

(** C9 (as stated) fails: a speed change alters the state and logs nothing,
    and a workshop completion logs two events. *)
Lemma C9_event_count_counterexample :
  (simulationSpeed (state sample_engine) = 1%Q /\
   simulationSpeed
     (state (processCommand (entropy_at 9000 "z") (speed_command 2)
               sample_engine)) = 2%Q /\
   eventLog (state (processCommand (entropy_at 9000 "z") (speed_command 2)
                      sample_engine))
   = eventLog (state sample_engine)) /\
  length (eventLog (state (completeWorkshop 11500 "train_1000_k3j9x0q2a"
                             "WL1" in_workshop_engine)))
  = (length (eventLog (state in_workshop_engine)) + 2)%nat.
Proof. vm_compute. repeat split. Qed.

(** C9 (amended): train creation, a successful inspection assignment, a
    successful siding assignment and a successful workshop assignment each
    append exactly one event; a workshop completion that passes its guard
    appends exactly two (the repair result and the siding preview); an
    inspection completion that passes its guard appends the inspection
    result and the plan preview, in that order, ahead of anything else; a
    speed change appends none. *)
Theorem C9_events_per_operation :
  (forall rnd trainData e,
     exists ev,
       eventLog (state (snd (enqueueTrain rnd trainData e)))
       = eventLog (state e) ++ [ev] /\ ev_type ev = train_created) /\
  (forall now trainId bayId e train bay,
     oget trainId (trains (state e)) = Some train ->
     oget bayId (inspectionBays (state e)) = Some bay ->
     bay_status bay = bay_free ->
     exists ev,
       eventLog (state (assignTrainToInspection now trainId bayId e))
       = eventLog (state e) ++ [ev] /\ ev_type ev = train_moved) /\
  (forall now trainId slotId e train s,
     oget trainId (trains (state e)) = Some train ->
     oget slotId (sidingSlots (state e)) = Some s ->
     ~ occupant (sl_occupiedBy s) ->
     exists ev,
       eventLog (state (assignTrainToSiding now trainId slotId e))
       = eventLog (state e) ++ [ev] /\ ev_type ev = train_moved) /\
  (forall now trainId workshopId e train w,
     oget trainId (trains (state e)) = Some train ->
     oget workshopId (workshopLines (state e)) = Some w ->
     ~ occupant (ws_occupiedBy w) ->
     exists ev,
       eventLog (state (assignTrainToWorkshop now trainId workshopId e))
       = eventLog (state e) ++ [ev] /\ ev_type ev = train_moved) /\
  (forall now trainId workshopId e train w,
     oget trainId (trains (state e)) = Some train ->
     oget workshopId (workshopLines (state e)) = Some w ->
     ws_occupiedBy w = Some trainId ->
     exists ev1 ev2,
       eventLog (state (completeWorkshop now trainId workshopId e))
       = eventLog (state e) ++ [ev1; ev2] /\
       ev_type ev1 = workshop_updated /\ ev_type ev2 = plan_preview) /\
  (forall now random trainId bayId e train bay,
     oget trainId (trains (state e)) = Some train ->
     oget bayId (inspectionBays (state e)) = Some bay ->
     bay_occupiedBy bay = Some trainId ->
     exists ev1 ev2 rest,
       eventLog (state (completeInspection definition now random trainId
                          bayId e))
       = eventLog (state e) ++ ev1 :: ev2 :: rest /\
       ev_type ev1 = inspection_result /\ ev_type ev2 = plan_preview) /\
  (forall rnd speed e,
     eventLog (state (processCommand rnd (speed_command speed) e))
     = eventLog (state e)).
Proof.
  split; [|split; [|split; [|split; [|split; [|split]]]]].
  - intros. eexists. split; reflexivity.
  - intros now trainId bayId e train bay Ht Hb Hf.
    unfold assignTrainToInspection. rewrite Ht, Hb.
    rewrite bool_decide_eq_true_2 by exact Hf. simpl.
    eexists. split; reflexivity.
  - intros now trainId slotId e train s Ht Hs Ho.
    unfold assignTrainToSiding. rewrite Ht, Hs.
    rewrite (not_occupant_truthy _ Ho). simpl.
    eexists. split; reflexivity.
  - intros now trainId workshopId e train w Ht Hw Ho.
    unfold assignTrainToWorkshop. rewrite Ht, Hw.
    rewrite (not_occupant_truthy _ Ho). simpl.
    eexists. split; reflexivity.
  - intros now trainId workshopId e train w Ht Hw Ho.
    unfold completeWorkshop. rewrite Ht, Hw.
    rewrite bool_decide_eq_true_2 by exact Ho. simpl.
    destruct (generateSidingRecommendations _ _); simpl;
      rewrite <- app_assoc; do 2 eexists; (split; [reflexivity|]);
      split; reflexivity.
  - intros now random trainId bayId e train bay Ht Hb Ho.
    unfold completeInspection. rewrite Ht, Hb.
    rewrite bool_decide_eq_true_2 by exact Ho. simpl.
    match goal with
    | |- context [processQueuedTrains definition now ?e0] =>
        destruct (processQueuedTrains_log now e0) as [rest ->];
        assert (exists ev1 ev2,
                  eventLog (state e0) = eventLog (state e) ++ [ev1; ev2] /\
                  ev_type ev1 = inspection_result /\
                  ev_type ev2 = plan_preview) as (ev1 & ev2 & -> & H1 & H2)
    end.
    { destruct (negb (Qle_bool _ random)).
      - destruct (negb (priority _) && negb (departSoon _));
          [destruct (generateSidingRecommendations _ _)|]; simpl;
          rewrite <- app_assoc; do 2 eexists; (split; [reflexivity|]);
          split; reflexivity.
      - destruct (generateWorkshopRecommendations _ _); simpl;
          rewrite <- app_assoc; do 2 eexists; (split; [reflexivity|]);
          split; reflexivity. }
    exists ev1, ev2, rest. rewrite <- app_assoc. split; [reflexivity|].
    split; assumption.
  - intros rnd speed e. unfold processCommand, speed_command. simpl.
    destruct (Qeq_bool speed 0); reflexivity.
Qed.
End events.

Lemma C9_events_per_operation_witness :
  (exists ev,
     eventLog (state (assignTrainToSiding 1500 "train_1000_k3j9x0q2a" "S1a"
                        one_train_engine))
     = eventLog (state one_train_engine) ++ [ev] /\ ev_type ev = train_moved) /\
  (exists ev1 ev2,
     eventLog (state (completeWorkshop 11500 "train_1000_k3j9x0q2a" "WL1"
                        in_workshop_engine))
     = eventLog (state in_workshop_engine) ++ [ev1; ev2] /\
     ev_type ev1 = workshop_updated /\ ev_type ev2 = plan_preview) /\
  (exists ev1 ev2 rest,
     eventLog (state (completeInspection sample_yard 303000 0.5
                        "train_1000_k3j9x0q2a" "IL1" in_inspection_engine))
     = eventLog (state in_inspection_engine) ++ ev1 :: ev2 :: rest /\
     ev_type ev1 = inspection_result /\ ev_type ev2 = plan_preview).
Proof.
  destruct (C9_events_per_operation sample_yard)
    as (_ & _ & Hsiding & _ & Hrepair & Hinspect & _).
  split; [|split].
  - refine (Hsiding 1500 "train_1000_k3j9x0q2a" "S1a" one_train_engine
              _ _ _ _ _).
    + vm_compute. reflexivity.
    + vm_compute. reflexivity.
    + simpl. tauto.
  - refine (Hrepair 11500 "train_1000_k3j9x0q2a" "WL1" in_workshop_engine
              _ _ _ _ _).
    + vm_compute. reflexivity.
    + vm_compute. reflexivity.
    + reflexivity.
  - refine (Hinspect 303000 0.5%Q "train_1000_k3j9x0q2a" "IL1"
              in_inspection_engine _ _ _ _ _).
    + vm_compute. reflexivity.
    + vm_compute. reflexivity.
    + reflexivity.
Defined.

(** ** Invariants *)

Lemma Object_keys_oset_new {V} (k : string) (v : V) (m : object V) :
  oget k m = None -> Object_keys (oset k v m) = Object_keys m ++ [k].
Proof.
  unfold Object_keys. induction m as [|[k' v'] m IH]; simpl.
  - reflexivity.
  - destruct (decide (k = k')); [discriminate|].
    intros H. simpl. f_equal. apply IH, H.
Qed.

Lemma NoDup_keys_oset {V} (k : string) (v : V) (m : object V) :
  NoDup (Object_keys m) -> NoDup (Object_keys (oset k v m)).
Proof.
  intros Hnd. destruct (oget k m) eqn:E.
  - rewrite Object_keys_oset by eauto. exact Hnd.
  - rewrite Object_keys_oset_new by exact E.
    apply NoDup_app. split; [exact Hnd|]. split.
    + intros x Hx Hk. apply list_elem_of_singleton in Hk as ->.
      apply oget_None_keys in E. contradiction.
    + apply NoDup_singleton.
Qed.

Lemma trains_wf_oset (k : string) (t : Train) (m : object Train) :
  trains_wf m -> t_id t = k -> k <> "" -> trains_wf (oset k t m).
Proof.
  intros [Hnd Hid] Ht Hk. split; [apply NoDup_keys_oset, Hnd|].
  intros k' t'. rewrite oget_oset. destruct (decide (k = k')) as [<-|_].
  - intros [= <-]. split; assumption.
  - apply Hid.
Qed.

Lemma trains_wf_update (k : string) (t t' : Train) (m : object Train) :
  trains_wf m -> oget k m = Some t -> t_id t' = t_id t ->
  trains_wf (oset k t' m).
Proof.
  intros Hwf Hk Hid. destruct (proj2 Hwf k t Hk) as [H1 H2].
  apply trains_wf_oset; [exact Hwf|congruence|exact H2].
Qed.

Lemma lines_wf_update (k : string) (w w' : WorkshopLine)
    (m : object WorkshopLine) :
  lines_wf m -> oget k m = Some w ->
  ws_id w' = ws_id w -> specialization w' = specialization w ->
  lines_wf (oset k w' m).
Proof.
  intros [Hnd Hw] Hk Hid Hsp. split; [apply NoDup_keys_oset, Hnd|].
  intros k' x. rewrite oget_oset. destruct (decide (k = k')) as [<-|_].
  - intros [= <-]. rewrite Hid, Hsp. apply Hw, Hk.
  - apply Hw.
Qed.

Lemma bays_configured_oset definition (k : string) (b : InspectionBay)
    (m : object InspectionBay) :
  bays_configured definition m -> bays_configured definition (oset k b m).
Proof. intros H x Hx. apply oget_is_Some_oset, H, Hx. Qed.

Lemma placed_located (st : YardState) (k : string) (t : Train) :
  placed st k t -> located st (locationNodeId t).
Proof.
  unfold placed, located. destruct (t_status t); try tauto.
  - intros (b & -> & _). right; left. eauto.
  - intros (s & -> & _). right; right; right. eauto.
  - intros (w & -> & _). right; right; left. eauto.
Qed.

(** An occupant stays registered when the train registry is only written
    with [oset]. *)
Ltac still_registered H :=
  let k := fresh "k" in
  let x := fresh "x" in
  let o := fresh "o" in
  let Hk := fresh "Hk" in
  let Ho := fresh "Ho" in
  intros k x o Hk Ho;
  first
    [ apply oget_is_Some_oset, (H k x o Hk Ho)
    | split;
      [ apply oget_is_Some_oset, (proj1 (H k x o Hk Ho))
      | exact (proj2 (H k x o Hk Ho)) ] ].

Lemma occupancy_assignTrainToSiding now trainId slotId e :
  trains_wf (trains (state e)) ->
  occupancy (state e) ->
  occupancy (state (assignTrainToSiding now trainId slotId e)).
Proof.
  intros Hwf Hocc. unfold assignTrainToSiding.
  destruct (oget trainId (trains (state e))) as [train|] eqn:Et; [|exact Hocc].
  destruct (oget slotId (sidingSlots (state e))) as [s|] eqn:Es; [|exact Hocc].
  destruct (truthy (sl_occupiedBy s)) eqn:Etr; [exact Hocc|].
  destruct Hocc as [Ht Hb Hl Hs]. split; simpl.
  - intros k t. rewrite oget_oset. destruct (decide (trainId = k)) as [<-|Hne].
    + intros [= <-]. unfold placed. simpl.
      exists (slot_claimed trainId s). split; [apply oget_oset_eq|reflexivity].
    + intros Hk. specialize (Ht k t Hk). unfold placed, located in *. simpl.
      destruct (t_status t); try exact Ht.
      * rewrite oget_oset. destruct Ht as [H|[H|[H|H]]]; try tauto.
        right; right; right. destruct (decide _); [eauto|exact H].
      * destruct Ht as (s0 & Hs0 & Ho). rewrite oget_oset.
        destruct (decide (slotId = locationNodeId t)) as [Heq|_]; [|eauto].
        exfalso. rewrite <- Heq, Es in Hs0. injection Hs0 as <-.
        rewrite Ho in Etr. destruct (proj2 Hwf k t Hk) as [_ Hk0].
        destruct k; [contradiction|discriminate Etr].
      * rewrite oget_oset. destruct Ht as [H|[H|[H|H]]]; try tauto.
        right; right; right. destruct (decide _); [eauto|exact H].
      * rewrite oget_oset. destruct Ht as [H|[H|[H|H]]]; try tauto.
        right; right; right. destruct (decide _); [eauto|exact H].
  - still_registered Hb.
  - still_registered Hl.
  - intros k x o. rewrite oget_oset. destruct (decide (slotId = k)) as [<-|_].
    + intros [= <-] [= <-]. rewrite oget_oset_eq. eauto.
    + intros Hk Ho. apply oget_is_Some_oset, (Hs k x o Hk Ho).
Qed.

(** A train other than the one an operation moves stays placed when the
    operation keeps every resource and every record of that train as
    occupant. *)
Lemma placed_kept (st st' : YardState) (k : string) (t : Train) :
  (forall l b, oget l (inspectionBays st) = Some b ->
     exists b', oget l (inspectionBays st') = Some b' /\
                (bay_occupiedBy b = Some k -> bay_occupiedBy b' = Some k)) ->
  (forall l w, oget l (workshopLines st) = Some w ->
     exists w', oget l (workshopLines st') = Some w' /\
                (ws_occupiedBy w = Some k -> ws_occupiedBy w' = Some k)) ->
  (forall l s, oget l (sidingSlots st) = Some s ->
     exists s', oget l (sidingSlots st') = Some s' /\
                (sl_occupiedBy s = Some k -> sl_occupiedBy s' = Some k)) ->
  placed st k t -> placed st' k t.
Proof.
  intros Hb Hw Hs. unfold placed, located.
  assert (forall l, is_Some (oget l (inspectionBays st)) ->
                    is_Some (oget l (inspectionBays st'))) as Hb'.
  { intros l [b Hl]. destruct (Hb l b Hl) as (b' & -> & _). eauto. }
  assert (forall l, is_Some (oget l (workshopLines st)) ->
                    is_Some (oget l (workshopLines st'))) as Hw'.
  { intros l [w Hl]. destruct (Hw l w Hl) as (w' & -> & _). eauto. }
  assert (forall l, is_Some (oget l (sidingSlots st)) ->
                    is_Some (oget l (sidingSlots st'))) as Hs'.
  { intros l [s Hl]. destruct (Hs l s Hl) as (s' & -> & _). eauto. }
  destruct (t_status t); try tauto;
    try (intros [H|[H|[H|H]]]; [tauto | right; left; apply Hb', H
                               | right; right; left; apply Hw', H
                               | right; right; right; apply Hs', H]).
  - intros (b & Hl & Ho). destruct (Hb _ b Hl) as (b' & Hl' & Ho'). eauto.
  - intros (s & Hl & Ho). destruct (Hs _ s Hl) as (s' & Hl' & Ho'). eauto.
  - intros (w & Hl & Ho). destruct (Hw _ w Hl) as (w' & Hl' & Ho'). eauto.
Qed.

Lemma kept_refl {V} (occupiedBy : V -> option string) (k : string)
    (m : object V) :
  forall l v, oget l m = Some v ->
    exists v', oget l m = Some v' /\
               (occupiedBy v = Some k -> occupiedBy v' = Some k).
Proof. intros l v H. exists v. split; [exact H|trivial]. Qed.

Lemma kept_oset {V} (occupiedBy : V -> option string) (k target : string)
    (new : V) (m : object V) :
  (forall old, oget target m = Some old -> occupiedBy old = Some k ->
               occupiedBy new = Some k) ->
  forall l v, oget l m = Some v ->
    exists v', oget l (oset target new m) = Some v' /\
               (occupiedBy v = Some k -> occupiedBy v' = Some k).
Proof.
  intros Hnew l v Hl. rewrite oget_oset.
  destruct (decide (target = l)) as [->|_].
  - exists new. split; [reflexivity|]. apply Hnew, Hl.
  - exists v. split; [exact Hl|trivial].
Qed.

Lemma nonempty_truthy (k : string) : k <> "" -> truthy (Some k) = true.
Proof. destruct k; [contradiction|reflexivity]. Qed.

Section preservation.
Variable definition : YardDefinition.

Lemma invariant_enqueueTrain rnd trainData e :
  yard_invariant definition (state e) ->
  yard_invariant definition (state (snd (enqueueTrain rnd trainData e))).
Proof.
  intros (Htr & Hli & Hba & [Ht Hb Hl Hs]). simpl.
  split; [|split; [exact Hli|split; [exact Hba|]]].
  - apply trains_wf_oset; [exact Htr|reflexivity|discriminate].
  - split; simpl.
    + intros k t. rewrite oget_oset. destruct (decide _) as [<-|_].
      * intros [= <-]. reflexivity.
      * intros Hk. exact (Ht k t Hk).
    + still_registered Hb.
    + still_registered Hl.
    + still_registered Hs.
Qed.

Lemma invariant_assignTrainToInspection now trainId bayId e :
  yard_invariant definition (state e) ->
  yard_invariant definition
    (state (assignTrainToInspection now trainId bayId e)).
Proof.
  intros Hinv. unfold assignTrainToInspection.
  destruct (oget trainId (trains (state e))) as [train|] eqn:Et;
    [|exact Hinv].
  destruct (oget bayId (inspectionBays (state e))) as [bay|] eqn:Eb;
    [|exact Hinv].
  destruct (decide (bay_status bay = bay_free)) as [Hfree|Hfree].
  2:{ rewrite bool_decide_eq_false_2 by exact Hfree. exact Hinv. }
  rewrite bool_decide_eq_true_2 by exact Hfree.
  destruct Hinv as (Htr & Hli & Hba & [Ht Hb Hl Hs]). simpl.
  split; [|split; [exact Hli|split]].
  - eapply trains_wf_update; [exact Htr|exact Et|reflexivity].
  - apply bays_configured_oset, Hba.
  - split; simpl.
    + intros k t. rewrite oget_oset.
      destruct (decide (trainId = k)) as [<-|Hne].
      * intros [= <-]. unfold placed. simpl.
        eexists. split; [apply oget_oset_eq|reflexivity].
      * intros Hk. eapply placed_kept; [| | |exact (Ht k t Hk)]; simpl.
        -- apply kept_oset. intros old Hold Ho.
           rewrite Eb in Hold. injection Hold as <-.
           destruct (Hb _ _ _ Eb Ho) as [_ Hnf]. contradiction.
        -- apply kept_refl.
        -- apply kept_refl.
    + intros k b o. rewrite oget_oset.
      destruct (decide (bayId = k)) as [<-|_].
      * intros [= <-] [= <-]. rewrite oget_oset_eq.
        split; [eauto|discriminate].
      * intros Hk Ho. destruct (Hb k b o Hk Ho) as [H1 H2].
        split; [apply oget_is_Some_oset, H1|exact H2].
    + still_registered Hl.
    + still_registered Hs.
Qed.

Lemma invariant_autoAssignToInspection now trainId e :
  yard_invariant definition (state e) ->
  yard_invariant definition
    (state (autoAssignToInspection definition now trainId e)).
Proof.
  intros Hinv. unfold autoAssignToInspection.
  destruct (oget trainId (trains (state e))) as [train|] eqn:Et;
    [|exact Hinv].
  destruct (decide (t_status train = arriving)) as [Ha|Ha].
  2:{ rewrite bool_decide_eq_false_2 by exact Ha. exact Hinv. }
  rewrite bool_decide_eq_true_2 by exact Ha. simpl.
  destruct (truthy _); [apply invariant_assignTrainToInspection, Hinv|].
  destruct Hinv as (Htr & Hli & Hba & [Ht Hb Hl Hs]). simpl.
  split; [|split; [exact Hli|split; [exact Hba|]]].
  - eapply trains_wf_update; [exact Htr|exact Et|reflexivity].
  - split; simpl.
    + intros k t. rewrite oget_oset.
      destruct (decide (trainId = k)) as [<-|Hne].
      * intros [= <-]. specialize (Ht _ _ Et). unfold placed in *.
        rewrite Ha in Ht. exact Ht.
      * intros Hk. exact (Ht k t Hk).
    + still_registered Hb.
    + still_registered Hl.
    + still_registered Hs.
Qed.

Lemma invariant_processQueuedTrains now e :
  yard_invariant definition (state e) ->
  yard_invariant definition (state (processQueuedTrains definition now e)).
Proof.
  unfold processQueuedTrains.
  generalize (filter (fun train => t_status train = queued)
                (Object_values (trains (state e)))).
  intros l. revert e. induction l as [|t l IH]; intros e Hinv; simpl.
  - exact Hinv.
  - apply IH, invariant_autoAssignToInspection, Hinv.
Qed.

(** What [completeInspection] does to the registries before it turns to the
    queue: the bay is released and the train is set moving where it is. *)
Lemma invariant_release_bay now trainId bayId e train bay log' timers' :
  yard_invariant definition (state e) ->
  oget trainId (trains (state e)) = Some train ->
  oget bayId (inspectionBays (state e)) = Some bay ->
  bay_occupiedBy bay = Some trainId ->
  yard_invariant definition
    (state
       (mkEngine
          (mkYardState
             (oset trainId
                (train_moved_to moving (locationNodeId train) now train)
                (trains (state e)))
             (oset bayId (bay_released bay) (inspectionBays (state e)))
             (workshopLines (state e)) (sidingSlots (state e))
             log' (simulationSpeed (state e)))
          timers')).
Proof.
  intros (Htr & Hli & Hba & [Ht Hb Hl Hs]) Et Eb Ho. simpl.
  split; [|split; [exact Hli|split]].
  - eapply trains_wf_update; [exact Htr|exact Et|reflexivity].
  - apply bays_configured_oset, Hba.
  - split; simpl.
    + intros k t. rewrite oget_oset.
      destruct (decide (trainId = k)) as [<-|Hne].
      * intros [= <-]. unfold placed. simpl.
        pose proof (placed_located _ _ _ (Ht _ _ Et)) as Hloc.
        unfold located in *. simpl.
        destruct Hloc as [H|[H|[H|H]]]; try tauto.
        right; left. apply oget_is_Some_oset, H.
      * intros Hk. eapply placed_kept; [| | |exact (Ht k t Hk)]; simpl.
        -- apply kept_oset. intros old Hold Hoc.
           rewrite Eb in Hold. injection Hold as <-. congruence.
        -- apply kept_refl.
        -- apply kept_refl.
    + intros k b o. rewrite oget_oset.
      destruct (decide (bayId = k)) as [<-|_].
      * intros [= <-]. discriminate.
      * intros Hk Hoc. destruct (Hb k b o Hk Hoc) as [H1 H2].
        split; [apply oget_is_Some_oset, H1|exact H2].
    + still_registered Hl.
    + still_registered Hs.
Qed.

Lemma invariant_completeInspection now random trainId bayId e :
  yard_invariant definition (state e) ->
  yard_invariant definition
    (state (completeInspection definition now random trainId bayId e)).
Proof.
  intros Hinv. unfold completeInspection.
  destruct (oget trainId (trains (state e))) as [train|] eqn:Et;
    [|exact Hinv].
  destruct (oget bayId (inspectionBays (state e))) as [bay|] eqn:Eb;
    [|exact Hinv].
  destruct (decide (bay_occupiedBy bay = Some trainId)) as [Ho|Ho].
  2:{ rewrite bool_decide_eq_false_2 by exact Ho. exact Hinv. }
  rewrite bool_decide_eq_true_2 by exact Ho. simpl.
  apply invariant_processQueuedTrains.
  destruct (negb (Qle_bool _ random)).
  - destruct (negb (priority _) && negb (departSoon _));
      [destruct (generateSidingRecommendations _ _)|];
      apply (invariant_release_bay now _ _ _ _ _ _ _ Hinv Et Eb Ho).
  - destruct (generateWorkshopRecommendations _ _);
      apply (invariant_release_bay now _ _ _ _ _ _ _ Hinv Et Eb Ho).
Qed.

Lemma invariant_assignTrainToSiding now trainId slotId e :
  yard_invariant definition (state e) ->
  yard_invariant definition
    (state (assignTrainToSiding now trainId slotId e)).
Proof.
  intros (Htr & Hli & Hba & Hocc).
  split; [|split; [|split]].
  - unfold assignTrainToSiding.
    destruct (oget trainId (trains (state e))) as [train|] eqn:Et;
      [|exact Htr].
    destruct (oget slotId _); [|exact Htr].
    destruct (truthy _); [exact Htr|]. simpl.
    eapply trains_wf_update; [exact Htr|exact Et|reflexivity].
  - unfold assignTrainToSiding.
    destruct (oget trainId _); [|exact Hli].
    destruct (oget slotId _); [|exact Hli].
    destruct (truthy _); exact Hli.
  - unfold assignTrainToSiding.
    destruct (oget trainId _); [|exact Hba].
    destruct (oget slotId _); [|exact Hba].
    destruct (truthy _); exact Hba.
  - apply occupancy_assignTrainToSiding; assumption.
Qed.

Lemma invariant_assignTrainToWorkshop now trainId workshopId e :
  yard_invariant definition (state e) ->
  yard_invariant definition
    (state (assignTrainToWorkshop now trainId workshopId e)).
Proof.
  intros Hinv. unfold assignTrainToWorkshop.
  destruct (oget trainId (trains (state e))) as [train|] eqn:Et;
    [|exact Hinv].
  destruct (oget workshopId (workshopLines (state e))) as [ws|] eqn:Ew;
    [|exact Hinv].
  destruct (truthy (ws_occupiedBy ws)) eqn:Etr; [exact Hinv|].
  destruct Hinv as (Htr & Hli & Hba & [Ht Hb Hl Hs]). simpl.
  split; [|split; [|split; [exact Hba|]]].
  - eapply trains_wf_update; [exact Htr|exact Et|reflexivity].
  - eapply lines_wf_update; [exact Hli|exact Ew|reflexivity|reflexivity].
  - split; simpl.
    + intros k t. rewrite oget_oset.
      destruct (decide (trainId = k)) as [<-|Hne].
      * intros [= <-]. unfold placed. simpl.
        eexists. split; [apply oget_oset_eq|reflexivity].
      * intros Hk. eapply placed_kept; [| | |exact (Ht k t Hk)]; simpl.
        -- apply kept_refl.
        -- apply kept_oset. intros old Hold Ho.
           rewrite Ew in Hold. injection Hold as <-. exfalso.
           rewrite Ho in Etr. destruct (proj2 Htr k t Hk) as [_ Hk0].
           rewrite (nonempty_truthy _ Hk0) in Etr. discriminate Etr.
        -- apply kept_refl.
    + still_registered Hb.
    + intros k w o. rewrite oget_oset.
      destruct (decide (workshopId = k)) as [<-|_].
      * intros [= <-] [= <-]. rewrite oget_oset_eq. eauto.
      * intros Hk Ho. apply oget_is_Some_oset, (Hl k w o Hk Ho).
    + still_registered Hs.
Qed.

Lemma invariant_release_line now trainId workshopId e train ws log' timers' :
  yard_invariant definition (state e) ->
  oget trainId (trains (state e)) = Some train ->
  oget workshopId (workshopLines (state e)) = Some ws ->
  ws_occupiedBy ws = Some trainId ->
  yard_invariant definition
    (state
       (mkEngine
          (mkYardState
             (oset trainId (train_repaired now train) (trains (state e)))
             (inspectionBays (state e))
             (oset workshopId (line_released ws) (workshopLines (state e)))
             (sidingSlots (state e))
             log' (simulationSpeed (state e)))
          timers')).
Proof.
  intros (Htr & Hli & Hba & [Ht Hb Hl Hs]) Et Ew Ho. simpl.
  split; [|split; [|split; [exact Hba|]]].
  - eapply trains_wf_update; [exact Htr|exact Et|reflexivity].
  - eapply lines_wf_update; [exact Hli|exact Ew|reflexivity|reflexivity].
  - split; simpl.
    + intros k t. rewrite oget_oset.
      destruct (decide (trainId = k)) as [<-|Hne].
      * intros [= <-]. unfold placed. simpl.
        pose proof (placed_located _ _ _ (Ht _ _ Et)) as Hloc.
        unfold located in *. simpl.
        destruct Hloc as [H|[H|[H|H]]]; try tauto.
        right; right; left. apply oget_is_Some_oset, H.
      * intros Hk. eapply placed_kept; [| | |exact (Ht k t Hk)]; simpl.
        -- apply kept_refl.
        -- apply kept_oset. intros old Hold Hoc.
           rewrite Ew in Hold. injection Hold as <-. congruence.
        -- apply kept_refl.
    + still_registered Hb.
    + intros k w o. rewrite oget_oset.
      destruct (decide (workshopId = k)) as [<-|_].
      * intros [= <-]. discriminate.
      * intros Hk Hoc. apply oget_is_Some_oset, (Hl k w o Hk Hoc).
    + still_registered Hs.
Qed.

Lemma invariant_completeWorkshop now trainId workshopId e :
  yard_invariant definition (state e) ->
  yard_invariant definition
    (state (completeWorkshop now trainId workshopId e)).
Proof.
  intros Hinv. unfold completeWorkshop.
  destruct (oget trainId (trains (state e))) as [train|] eqn:Et;
    [|exact Hinv].
  destruct (oget workshopId (workshopLines (state e))) as [ws|] eqn:Ew;
    [|exact Hinv].
  destruct (decide (ws_occupiedBy ws = Some trainId)) as [Ho|Ho].
  2:{ rewrite bool_decide_eq_false_2 by exact Ho. exact Hinv. }
  rewrite bool_decide_eq_true_2 by exact Ho. simpl.
  destruct (generateSidingRecommendations _ _);
    apply (invariant_release_line now _ _ _ _ _ _ _ Hinv Et Ew Ho).
Qed.

Lemma invariant_processCommand rnd command e :
  yard_invariant definition (state e) ->
  yard_invariant definition (state (processCommand rnd command e)).
Proof.
  intros Hinv. unfold processCommand.
  destruct (cmd_type command); try exact Hinv.
  - apply invariant_enqueueTrain, Hinv.
  - destruct (cmd_data command) as [data|]; [|exact Hinv].
    destruct (truthy _); [|exact Hinv].
    destruct data as [|target [| |] letter|]; try exact Hinv.
    + apply invariant_assignTrainToSiding, Hinv.
    + apply invariant_assignTrainToWorkshop, Hinv.
  - destruct (cmd_data command) as [[| |speed]|]; try exact Hinv.
    destruct (Qeq_bool speed 0); [exact Hinv|].
    destruct Hinv as (Htr & Hli & Hba & [Ht Hb Hl Hs]).
    split; [exact Htr|split; [exact Hli|split; [exact Hba|]]].
    split; assumption.
Qed.

Lemma invariant_perform a e :
  yard_invariant definition (state e) ->
  yard_invariant definition (state (perform definition a e)).
Proof.
  intros Hinv. destruct a as [rnd d|now t s|now t w|rnd c|now random i];
    simpl.
  - apply invariant_enqueueTrain, Hinv.
  - apply invariant_assignTrainToSiding, Hinv.
  - apply invariant_assignTrainToWorkshop, Hinv.
  - apply invariant_processCommand, Hinv.
  - destruct (timers e !! i) as [timer|]; [|exact Hinv].
    destruct (callback timer); simpl.
    + apply invariant_autoAssignToInspection. exact Hinv.
    + apply invariant_completeInspection. exact Hinv.
    + apply invariant_assignTrainToSiding. exact Hinv.
    + apply invariant_assignTrainToWorkshop. exact Hinv.
    + apply invariant_completeWorkshop. exact Hinv.
Qed.
End preservation.

(** ** The constructed state and the reachable states *)

Lemma lines_wf_oset (k : string) (w : WorkshopLine) (m : object WorkshopLine) :
  lines_wf m -> ws_id w = k ->
  (specialization w = Some "wheel-alignment" -> k = "WL4") ->
  lines_wf (oset k w m).
Proof.
  intros [Hnd Hw] Hid Hsp. split; [apply NoDup_keys_oset, Hnd|].
  intros k' x. rewrite oget_oset. destruct (decide (k = k')) as [<-|_].
  - intros [= <-]. split; assumption.
  - apply Hw.
Qed.

Section initial.
Variable definition : YardDefinition.

Lemma init_inspectionBays_spec ids index acc m :
  init_inspectionBays definition ids index acc = Some m ->
  (forall k b, oget k acc = Some b -> bay_occupiedBy b = None) ->
  (forall k b, oget k m = Some b -> bay_occupiedBy b = None) /\
  (forall k, k ∈ ids \/ is_Some (oget k acc) -> is_Some (oget k m)).
Proof.
  revert index acc. induction ids as [|nodeId ids IH]; intros index acc; simpl.
  - intros [= <-] Hacc. split; [exact Hacc|].
    intros k [Hk|Hk]; [apply elem_of_nil in Hk; contradiction|exact Hk].
  - destruct (oget nodeId (nodes definition)) as [node|]; [|discriminate].
    simpl. intros Hm Hacc. apply IH in Hm as [H1 H2].
    + split; [exact H1|]. intros k [Hk|Hk].
      * apply elem_of_cons in Hk as [->|Hk]; [|apply H2; left; exact Hk].
        apply H2. right. rewrite oget_oset_eq. eauto.
      * apply H2. right. apply oget_is_Some_oset, Hk.
    + intros k b. rewrite oget_oset. destruct (decide _).
      * intros [= <-]. reflexivity.
      * apply Hacc.
Qed.

Lemma init_workshopLines_spec ids index acc m :
  init_workshopLines definition ids index acc = Some m ->
  lines_wf acc ->
  (forall k w, oget k acc = Some w -> ws_occupiedBy w = None) ->
  lines_wf m /\ (forall k w, oget k m = Some w -> ws_occupiedBy w = None).
Proof.
  revert index acc. induction ids as [|nodeId ids IH]; intros index acc; simpl.
  - intros [= <-] Hwf Hacc. split; assumption.
  - destruct (oget nodeId (nodes definition)) as [node|]; [|discriminate].
    simpl. intros Hm Hwf Hacc. apply IH in Hm; [exact Hm| |].
    + apply lines_wf_oset; [exact Hwf|reflexivity|]. simpl.
      destruct (decide (nodeId = "WL4")); [trivial|discriminate].
    + intros k w. rewrite oget_oset. destruct (decide (nodeId = k)).
      * intros [= <-]. reflexivity.
      * apply Hacc.
Qed.

Lemma init_sidingSlots_spec ids acc m :
  init_sidingSlots definition ids acc = Some m ->
  (forall k s, oget k acc = Some s -> sl_occupiedBy s = None) ->
  (forall k s, oget k m = Some s -> sl_occupiedBy s = None).
Proof.
  revert acc. induction ids as [|nodeId ids IH]; intros acc; simpl.
  - intros [= <-] Hacc. exact Hacc.
  - destruct (oget nodeId (nodes definition)) as [node|]; [|discriminate].
    simpl. destruct (n_metadata node) as [metadata|].
    + intros Hm Hacc. apply (IH _ Hm).
      intros k s. rewrite oget_oset. destruct (decide (nodeId = k)).
      * intros [= <-]. reflexivity.
      * apply Hacc.
    + apply IH.
Qed.

Lemma invariant_new e :
  newYardSimulator definition = Some e ->
  yard_invariant definition (state e).
Proof.
  unfold newYardSimulator, initializeState.
  destruct (init_inspectionBays definition _ 0 []) as [bays|] eqn:Eb;
    [|discriminate].
  destruct (init_workshopLines definition _ 0 []) as [lines|] eqn:El;
    [|discriminate].
  destruct (init_sidingSlots definition _ []) as [slots|] eqn:Es;
    [|discriminate].
  simpl. intros [= <-]. simpl.
  apply init_inspectionBays_spec in Eb as [Hb1 Hb2];
    [|intros k b H; discriminate H].
  apply init_workshopLines_spec in El as [Hl1 Hl2];
    [|split; [apply NoDup_nil_2|intros k w H; discriminate H]
     |intros k w H; discriminate H].
  pose proof (init_sidingSlots_spec _ _ _ Es) as Hs.
  split; [|split; [exact Hl1|split]].
  - split; [apply NoDup_nil_2|intros k t H; discriminate H].
  - intros b Hb. apply Hb2. left. exact Hb.
  - split; simpl.
    + intros k t H. discriminate H.
    + intros k b o Hk Ho. rewrite (Hb1 k b Hk) in Ho. discriminate Ho.
    + intros k w o Hk Ho. rewrite (Hl2 k w Hk) in Ho. discriminate Ho.
    + intros k s o Hk Ho.
      assert (sl_occupiedBy s = None) as Hnone.
      { apply (Hs (fun k0 s0 (H : oget k0 [] = Some s0) =>
                     ltac:(discriminate H)) k s Hk). }
      rewrite Hnone in Ho. discriminate Ho.
Qed.

Theorem reachable_invariant e :
  reachable definition e -> yard_invariant definition (state e).
Proof.
  induction 1 as [e Hnew|a e Hreach IH Hok].
  - apply invariant_new, Hnew.
  - apply invariant_perform, IH.
Qed.

Lemma reachable_run actions e :
  reachable definition e ->
  forallb action_ok actions = true ->
  reachable definition (run definition actions e).
Proof.
  revert e. induction actions as [|a actions IH]; intros e He; simpl.
  - intros _. exact He.
  - intros H. apply andb_true_iff in H as [Ha Hrest].
    apply IH; [|exact Hrest]. apply reachable_step; assumption.
Qed.

(** The lookup inside [find] of [autoAssignToInspection] never misses. *)
Lemma configured_bay_registered e bayId :
  reachable definition e ->
  bayId ∈ def_inspectionBays definition ->
  is_Some (oget bayId (inspectionBays (state e))).
Proof.
  intros He Hb. destruct (reachable_invariant e He) as (_ & _ & Hba & _).
  apply Hba, Hb.
Qed.
End initial.

(** In a reachable state a recorded occupant is never the empty string, so
    the truthiness test of the assignment guards sees every occupant. *)
Lemma reachable_occupants definition e :
  reachable definition e ->
  (forall k w, oget k (workshopLines (state e)) = Some w ->
               (occupant (ws_occupiedBy w) <-> is_Some (ws_occupiedBy w))) /\
  (forall k s, oget k (sidingSlots (state e)) = Some s ->
               (occupant (sl_occupiedBy s) <-> is_Some (sl_occupiedBy s))).
Proof.
  intros He.
  destruct (reachable_invariant definition e He)
    as ([_ Hid] & _ & _ & [_ _ Hl Hs]).
  split.
  - intros k w Hk. destruct (ws_occupiedBy w) as [o|] eqn:Eo; simpl.
    + split; [eauto|]. intros _.
      destruct (Hl k w o Hk Eo) as [t Ht]. apply (Hid o t Ht).
    + split; [contradiction|]. intros [x Hx]. discriminate Hx.
  - intros k s Hk. destruct (sl_occupiedBy s) as [o|] eqn:Eo; simpl.
    + split; [eauto|]. intros _.
      destruct (Hs k s o Hk Eo) as [t Ht]. apply (Hid o t Ht).
    + split; [contradiction|]. intros [x Hx]. discriminate Hx.
Qed.

Lemma reachable_sample_engine : reachable sample_yard sample_engine.
Proof. apply reachable_new. reflexivity. Qed.

(** ** Conservation *)

Lemma reachable_inspected_engine : reachable sample_yard inspected_engine.
Proof. apply reachable_run; [apply reachable_sample_engine|reflexivity]. Qed.

Lemma reachable_reassigned_engine : reachable sample_yard reassigned_engine.
Proof. apply reachable_run; [apply reachable_sample_engine|reflexivity]. Qed.

(** *** Calls with plain ids *)

Lemma reachable_plain_reachable definition e :
  reachable_plain definition e -> reachable definition e.
Proof.
  induction 1 as [e _ Hnew|a e _ IH Hok _].
  - apply reachable_new, Hnew.
  - apply reachable_step; assumption.
Qed.

Lemma reachable_plain_run definition actions e :
  reachable_plain definition e ->
  forallb (fun a => action_ok a && plain_action a) actions = true ->
  reachable_plain definition (run definition actions e).
Proof.
  revert e. induction actions as [|a actions IH]; intros e He; simpl.
  - intros _. exact He.
  - intros H. apply andb_true_iff in H as [Ha Hrest].
    apply andb_true_iff in Ha as [Hok Hplain].
    apply IH; [|exact Hrest]. apply reachable_plain_step; assumption.
Qed.

Lemma reachable_plain_sample_engine : reachable_plain sample_yard sample_engine.
Proof. apply reachable_plain_new; reflexivity. Qed.

Lemma reachable_plain_inspected_engine :
  reachable_plain sample_yard inspected_engine.
Proof.
  apply reachable_plain_run; [apply reachable_plain_sample_engine|reflexivity].
Qed.

Lemma reachable_plain_reassigned_engine :
  reachable_plain sample_yard reassigned_engine.
Proof.
  apply reachable_plain_run; [apply reachable_plain_sample_engine|reflexivity].
Qed.

(** C2 (as stated) fails in two states reached by calls with plain ids: after
    its inspection has completed a train is still located at bay IL1, which
    it no longer occupies; and a parked train assigned to a second slot is
    recorded as the occupant of both slots. *)
Lemma C2_conservation_counterexample :
  (reachable_plain sample_yard inspected_engine /\
   ~ conservation_as_specified (state inspected_engine)) /\
  (reachable_plain sample_yard reassigned_engine /\
   ~ conservation_as_specified (state reassigned_engine)).
Proof.
  split; split.
  - apply reachable_plain_inspected_engine.
  - intros H.
    assert (exists t,
              oget "train_1000_k3j9x0q2a" (trains (state inspected_engine))
              = Some t /\ t_id t = "train_1000_k3j9x0q2a" /\
              locationNodeId t = "IL1") as (t & Ht & Hid & Hloc).
    { eexists. split; [vm_compute; reflexivity|]. split; reflexivity. }
    destruct (H _ _ Ht) as [[Hentry|Hocc] _].
    + rewrite Hloc in Hentry. discriminate Hentry.
    + rewrite Hid, Hloc in Hocc.
      destruct Hocc as [(b & Hb & Ho)|[(w & Hw & Ho)|(s & Hs & Ho)]].
      * vm_compute in Hb. injection Hb as <-. discriminate Ho.
      * vm_compute in Hw. discriminate Hw.
      * vm_compute in Hs. discriminate Hs.
  - apply reachable_plain_reassigned_engine.
  - intros H.
    assert (exists t,
              oget "train_1000_k3j9x0q2a" (trains (state reassigned_engine))
              = Some t /\ t_id t = "train_1000_k3j9x0q2a" /\
              locationNodeId t = "S1b") as (t & Ht & Hid & Hloc).
    { eexists. split; [vm_compute; reflexivity|]. split; reflexivity. }
    destruct (H _ _ Ht) as [_ Honly].
    assert ("S1a" = locationNodeId t) as Habs.
    { apply Honly. rewrite Hid. right; right.
      eexists. split; [vm_compute; reflexivity|reflexivity]. }
    rewrite Hloc in Habs. discriminate Habs.
Qed.

(** C2 (amended): in every state a simulator of a plain yard gets to when the
    train and target ids of its public calls are plain (none names a member
    of [Object.prototype]), each train is filed under its own id and its
    [locationNodeId] is the entry node or the id of an inspection bay,
    workshop line or siding slot of the yard; a train whose status is
    arriving or queued is at the entry node, and a train whose status is
    inspection, workshop or parked is located at a bay, line or slot whose
    [occupiedBy] is that train's id; and every [occupiedBy] names a train of
    the registry. *)
Theorem C2_conservation_by_status (definition : YardDefinition) (e : Engine) :
  reachable_plain definition e ->
  (forall k t, oget k (trains (state e)) = Some t ->
     t_id t = k /\
     located (state e) (locationNodeId t) /\
     placed (state e) (t_id t) t) /\
  (forall k b o, oget k (inspectionBays (state e)) = Some b ->
     bay_occupiedBy b = Some o -> is_Some (oget o (trains (state e)))) /\
  (forall k w o, oget k (workshopLines (state e)) = Some w ->
     ws_occupiedBy w = Some o -> is_Some (oget o (trains (state e)))) /\
  (forall k s o, oget k (sidingSlots (state e)) = Some s ->
     sl_occupiedBy s = Some o -> is_Some (oget o (trains (state e)))).
Proof.
  intros He. apply reachable_plain_reachable in He.
  destruct (reachable_invariant definition e He)
    as (Htr & _ & _ & [Ht Hb Hl Hs]).
  split; [|split; [|split]].
  - intros k t Hk. destruct (proj2 Htr k t Hk) as [Hid _].
    split; [exact Hid|]. rewrite Hid.
    split; [eapply placed_located|]; apply Ht, Hk.
  - intros k b o Hk Ho. apply (Hb k b o Hk Ho).
  - exact Hl.
  - exact Hs.
Qed.

Lemma C2_conservation_by_status_witness :
  reachable_plain sample_yard reassigned_engine /\
  exists t,
    oget "train_1000_k3j9x0q2a" (trains (state reassigned_engine)) = Some t /\
    t_id t = "train_1000_k3j9x0q2a" /\
    located (state reassigned_engine) (locationNodeId t) /\
    placed (state reassigned_engine) (t_id t) t.
Proof.
  split; [apply reachable_plain_reassigned_engine|].
  eexists. split; [vm_compute; reflexivity|].
  apply (proj1 (C2_conservation_by_status sample_yard reassigned_engine
                  reachable_plain_reassigned_engine)).
  vm_compute. reflexivity.
Defined.

(** ** The queue of waiting trains *)

Lemma autoAssignToInspection_queued definition now trainId e t :
  oget trainId (trains (state e)) = Some t ->
  t_status t = queued ->
  autoAssignToInspection definition now trainId e = e.
Proof.
  intros Ht Hq. unfold autoAssignToInspection. rewrite Ht, Hq. reflexivity.
Qed.

(** With every train filed under its own id, [processQueuedTrains] changes
    nothing: each queued train it hands to [autoAssignToInspection] is turned
    away by the test for status [arriving]. *)
Lemma processQueuedTrains_idle definition now e :
  trains_wf (trains (state e)) ->
  processQueuedTrains definition now e = e.
Proof.
  intros [Hnd Hid]. unfold processQueuedTrains.
  assert (forall t,
            t ∈ filter (fun train => t_status train = queued)
                  (Object_values (trains (state e))) ->
            autoAssignToInspection definition now (t_id t) e = e) as Hall.
  { intros t Hin. apply list_elem_of_filter in Hin as [Hq Hin].
    apply Object_values_oget in Hin as (k & _ & Hin).
    pose proof (oget_NoDup _ _ _ Hnd Hin) as Hk.
    destruct (Hid k t Hk) as [-> _].
    eapply autoAssignToInspection_queued; eassumption. }
  revert Hall.
  generalize (filter (fun train => t_status train = queued)
                (Object_values (trains (state e)))).
  intros l. induction l as [|t l IH]; intros Hall; simpl; [reflexivity|].
  rewrite Hall by apply list_elem_of_here.
  apply IH. intros t' Ht'. apply Hall, list_elem_of_further, Ht'.
Qed.

Lemma reachable_queue_engine : reachable sample_yard queue_engine.
Proof. apply reachable_run; [apply reachable_sample_engine|reflexivity]. Qed.

(** C4 (the code departs from the claim): two trains arrive at a yard with
    one inspection bay; the second is queued; when the inspection of the first
    completes and frees the bay, the second train is still queued at the entry
    node, the bay stays free, and no pending timer will look at the queued
    train again. *)
Theorem C4_queued_train_stays_queued :
  reachable sample_yard queue_engine /\
  (exists t,
     oget "train_1001_p7m2c4v8b" (trains (state queue_engine)) = Some t /\
     t_status t = queued /\ locationNodeId t = "E1") /\
  (exists b,
     oget "IL1" (inspectionBays (state queue_engine)) = Some b /\
     bay_status b = bay_free /\ bay_occupiedBy b = None) /\
  timers queue_engine
  = [mkTimer (CbAssignTrainToSiding "train_1000_k3j9x0q2a" "S9a" (Some slot_a))
       1000].
Proof.
  split; [apply reachable_queue_engine|].
  split; [eexists; split; [vm_compute; reflexivity|split; reflexivity]|].
  split; [eexists; split; [vm_compute; reflexivity|split; reflexivity]|].
  vm_compute. reflexivity.
Qed.

(** In no reachable state does the re-evaluation of the queue do anything. *)
Lemma processQueuedTrains_never_assigns definition now e :
  reachable definition e -> processQueuedTrains definition now e = e.
Proof.
  intros He. apply processQueuedTrains_idle.
  apply (reachable_invariant definition e He).
Qed.

(** ** Workshop recommendations *)

Lemma sort_insert_perm (x : AssignmentRecommendation)
    (l : list AssignmentRecommendation) :
  sort_insert x l ≡ₚ x :: l.
Proof.
  induction l as [|y l IH]; simpl; [reflexivity|].
  destruct (score_gtb y x); [|reflexivity].
  rewrite IH. apply Permutation_swap.
Qed.

Lemma sort_by_score_perm (l : list AssignmentRecommendation) :
  sort_by_score l ≡ₚ l.
Proof.
  unfold sort_by_score. induction l as [|x l IH]; simpl; [reflexivity|].
  rewrite sort_insert_perm, IH. reflexivity.
Qed.

(** The lines [generateWorkshopRecommendations] lets through for a train. *)
Lemma workshop_candidates (train : Train) (ws : WorkshopLine)
    (r : AssignmentRecommendation) :
  includes "wheel-alignment" (failures train) = true ->
  In r (if negb (truthy (ws_occupiedBy ws)) then
          if true && negb (bool_decide
                             (specialization ws = Some "wheel-alignment"))
          then []
          else [workshop_recommendation train ws]
        else []) ->
  r = workshop_recommendation train ws /\
  specialization ws = Some "wheel-alignment" /\
  truthy (ws_occupiedBy ws) = false.
Proof.
  intros _. destruct (truthy _); simpl; [intros []|].
  destruct (decide (specialization ws = Some "wheel-alignment")) as [Hs|Hs].
  - rewrite bool_decide_eq_true_2 by exact Hs. simpl.
    intros [<-|[]]. auto.
  - rewrite bool_decide_eq_false_2 by exact Hs. simpl. intros [].
Qed.

Lemma flat_map_nil {V R} (f : V -> list R) (l : list V) :
  (forall v, v ∈ l -> f v = []) -> flat_map f l = [].
Proof.
  induction l as [|v l IH]; intros H; simpl; [reflexivity|].
  rewrite (H v) by apply list_elem_of_here. simpl.
  apply IH. intros v' Hv'. apply H, list_elem_of_further, Hv'.
Qed.

(** A selection that only the entry filed under [key] can pass yields at
    most one element. *)
Lemma flat_map_single_key {V R} (key : string) (f : V -> list R)
    (m : object V) :
  NoDup (Object_keys m) ->
  (forall k v, (k, v) ∈ m -> f v <> [] -> k = key) ->
  (forall v, (length (f v) <= 1)%nat) ->
  (length (flat_map f (Object_values m)) <= 1)%nat.
Proof.
  intros Hnd Hkey Hlen. induction m as [|[k v] m IH].
  - simpl. lia.
  - change (Object_values ((k, v) :: m)) with (v :: Object_values m).
    change (Object_keys ((k, v) :: m)) with (k :: Object_keys m) in Hnd.
    apply NoDup_cons in Hnd as [Hk Hnd].
    change (flat_map f (v :: Object_values m))
      with (f v ++ flat_map f (Object_values m)).
    rewrite length_app.
    destruct (f v) as [|r rs] eqn:Ef.
    + simpl. apply IH; [exact Hnd|].
      intros k' v' Hin. apply Hkey. apply list_elem_of_further, Hin.
    + assert (k = key) as ->.
      { apply (Hkey k v); [apply list_elem_of_here|rewrite Ef; discriminate]. }
      rewrite (flat_map_nil f (Object_values m)).
      * specialize (Hlen v). rewrite Ef in Hlen. simpl in *. lia.
      * intros v' Hv'. apply Object_values_oget in Hv' as (k' & Hk' & Hin).
        destruct (f v') eqn:Ef'; [reflexivity|]. exfalso. apply Hk.
        assert (k' = key) as <-; [|exact Hk'].
        apply (Hkey k' v'); [apply list_elem_of_further, Hin
                            |rewrite Ef'; discriminate].
Qed.

(** C5: for a train with a wheel-alignment failure every recommendation of
    [generateWorkshopRecommendations] is for a line whose specialization is
    wheel-alignment (a line of any other kind is left out, whatever its
    score); and in a reachable state, where only WL4 carries that
    specialization, the list has at most one element and its target is WL4. *)
Theorem C5_wheel_alignment_exclusion (definition : YardDefinition) :
  (forall st trainId train r,
     oget trainId (trains st) = Some train ->
     "wheel-alignment" ∈ failures train ->
     r ∈ generateWorkshopRecommendations trainId st ->
     exists ws,
       ws ∈ Object_values (workshopLines st) /\
       targetId r = ws_id ws /\
       specialization ws = Some "wheel-alignment") /\
  (forall e trainId train,
     reachable definition e ->
     oget trainId (trains (state e)) = Some train ->
     "wheel-alignment" ∈ failures train ->
     (length (generateWorkshopRecommendations trainId (state e)) <= 1)%nat /\
     forall r, r ∈ generateWorkshopRecommendations trainId (state e) ->
               targetId r = "WL4").
Proof.
  assert (forall st trainId train r,
     oget trainId (trains st) = Some train ->
     "wheel-alignment" ∈ failures train ->
     r ∈ generateWorkshopRecommendations trainId st ->
     exists ws,
       ws ∈ Object_values (workshopLines st) /\
       targetId r = ws_id ws /\
       specialization ws = Some "wheel-alignment") as Hfirst.
  { intros st trainId train r Ht Hfail. unfold generateWorkshopRecommendations.
    rewrite Ht. rewrite sort_by_score_perm.
    assert (includes "wheel-alignment" (failures train) = true) as Hinc
      by (apply bool_decide_eq_true_2, Hfail).
    rewrite Hinc. intros Hr. apply list_elem_of_In, in_flat_map in Hr
      as (ws & Hws & Hr).
    apply (workshop_candidates train ws r Hinc) in Hr as (-> & Hsp & _).
    exists ws. split; [apply list_elem_of_In, Hws|]. split; [reflexivity|exact Hsp]. }
  split; [exact Hfirst|].
  intros e trainId train He Ht Hfail.
  destruct (reachable_invariant definition e He) as (_ & [Hnd Hw] & _ & _).
  split.
  - unfold generateWorkshopRecommendations. rewrite Ht.
    rewrite sort_by_score_perm.
    assert (includes "wheel-alignment" (failures train) = true) as Hinc
      by (apply bool_decide_eq_true_2, Hfail).
    rewrite Hinc.
    apply (flat_map_single_key "WL4"); [exact Hnd| |].
    + intros k ws Hin Hne.
      apply (Hw k ws (oget_NoDup _ _ _ Hnd Hin)).
      destruct (truthy _); [contradiction|].
      destruct (decide (specialization ws = Some "wheel-alignment"));
        [assumption|].
      rewrite bool_decide_eq_false_2 in Hne by assumption. contradiction.
    + intros ws. destruct (truthy _); simpl; [lia|].
      destruct (negb _); simpl; lia.
  - intros r Hr. destruct (Hfirst _ _ _ _ Ht Hfail Hr) as (ws & Hin & -> & Hsp).
    apply Object_values_oget in Hin as (k & _ & Hin).
    destruct (Hw k ws (oget_NoDup _ _ _ Hnd Hin)) as [-> Hk]. apply Hk, Hsp.
Qed.

Lemma reachable_wheel_engine : reachable sample_yard wheel_engine.
Proof. apply reachable_run; [apply reachable_sample_engine|reflexivity]. Qed.

Lemma C5_wheel_alignment_exclusion_witness :
  reachable sample_yard wheel_engine /\
  (exists train,
     oget "train_1000_k3j9x0q2a" (trains (state wheel_engine)) = Some train /\
     "wheel-alignment" ∈ failures train) /\
  (length (generateWorkshopRecommendations "train_1000_k3j9x0q2a"
             (state wheel_engine)) <= 1)%nat /\
  forall r,
    r ∈ generateWorkshopRecommendations "train_1000_k3j9x0q2a"
          (state wheel_engine) ->
    targetId r = "WL4".
Proof.
  assert (exists train,
     oget "train_1000_k3j9x0q2a" (trains (state wheel_engine)) = Some train /\
     "wheel-alignment" ∈ failures train) as Htrain.
  { eexists. split; [vm_compute; reflexivity|]. simpl. apply list_elem_of_here. }
  split; [apply reachable_wheel_engine|]. split; [exact Htrain|].
  destruct Htrain as (train & Ht & Hfail).
  exact (proj2 (C5_wheel_alignment_exclusion sample_yard) wheel_engine
           "train_1000_k3j9x0q2a" train reachable_wheel_engine Ht Hfail).
Defined.

Example wheel_engine_recommendations :
  map targetId (generateWorkshopRecommendations "train_1000_k3j9x0q2a"
                  (state wheel_engine)) = ["WL4"] /\
  map score (generateWorkshopRecommendations "train_1000_k3j9x0q2a"
               (state wheel_engine)) = [Some 150%Q].
Proof. vm_compute. split; reflexivity. Qed.

(** * Further properties of the engine *)

(** ** Later engines *)

Section entries_facts.
Context {V : Type} (R : V -> V -> Prop).
Implicit Types (m : object V).

Lemma entries_refl m : (forall v, R v v) -> entries R m m.
Proof.
  intros HR. unfold entries. induction m as [|[k v] m IH]; constructor; auto.
Qed.

Lemma entries_trans m1 m2 m3 :
  (forall a b c, R a b -> R b c -> R a c) ->
  entries R m1 m2 -> entries R m2 m3 -> entries R m1 m3.
Proof.
  intros HR H12. revert m3. induction H12 as [|x y l l' [Hk Hv] _ IH];
    intros m3 H23; inversion H23 as [|? z ? l'' [Hk' Hv'] Hrest]; subst.
  - constructor.
  - constructor; [split; [congruence|eapply HR; eauto]|apply IH, Hrest].
Qed.

Lemma entries_oset m k v v' :
  (forall x, R x x) -> oget k m = Some v -> R v v' ->
  entries R m (oset k v' m).
Proof.
  intros HR. unfold entries. induction m as [|[k0 v0] m IH]; simpl.
  - discriminate.
  - destruct (decide (k = k0)) as [->|Hne].
    + intros [= ->] Hv. constructor; [split; [reflexivity|exact Hv]|].
      apply (entries_refl m HR).
    + intros Hk Hv. constructor; [split; [reflexivity|apply HR]|].
      apply IH; assumption.
Qed.

Lemma entries_keys m m' : entries R m m' -> Object_keys m' = Object_keys m.
Proof.
  unfold Object_keys. induction 1 as [|[k v] [k' v'] l l' [Hk _] _ IH]; simpl.
  - reflexivity.
  - simpl in Hk. subst. f_equal. exact IH.
Qed.

Lemma entries_oget m m' k v' :
  entries R m m' -> oget k m' = Some v' ->
  exists v, oget k m = Some v /\ R v v'.
Proof.
  induction 1 as [|[k0 v0] [k1 v1] l l' [Hk Hv] _ IH]; simpl.
  - discriminate.
  - simpl in Hk, Hv. subst k1. destruct (decide (k = k0)).
    + intros [= ->]. eauto.
    + exact IH.
Qed.

Lemma entries_oget_fwd m m' k v :
  entries R m m' -> oget k m = Some v ->
  exists v', oget k m' = Some v' /\ R v v'.
Proof.
  induction 1 as [|[k0 v0] [k1 v1] l l' [Hk Hv] _ IH]; simpl.
  - discriminate.
  - simpl in Hk, Hv. subst k1. destruct (decide (k = k0)).
    + intros [= ->]. eauto.
    + exact IH.
Qed.
End entries_facts.

Lemma bay_static_refl b : bay_static b b.
Proof. repeat split. Qed.

Lemma line_static_refl w : line_static w w.
Proof. repeat split. Qed.

Lemma slot_static_refl s : slot_static s s.
Proof. repeat split. Qed.

Lemma bay_step_refl b : bay_step b b.
Proof. split; [apply bay_static_refl|left; reflexivity]. Qed.

Lemma line_step_refl w : line_step w w.
Proof. split; [apply line_static_refl|left; reflexivity]. Qed.

Lemma bay_step_trans a b c : bay_step a b -> bay_step b c -> bay_step a c.
Proof.
  intros [(H1 & H2 & H3 & H4) Hb] [(G1 & G2 & G3 & G4) Hc].
  split; [repeat split; congruence|].
  destruct Hc as [->|Hc]; [exact Hb|right; exact Hc].
Qed.

Lemma line_step_trans a b c : line_step a b -> line_step b c -> line_step a c.
Proof.
  intros [(H1 & H2 & H3 & H4 & H5) Hb] [(G1 & G2 & G3 & G4 & G5) Hc].
  split; [repeat split; congruence|].
  destruct Hc as [->|Hc]; [exact Hb|right; exact Hc].
Qed.

Lemma slot_static_trans a b c :
  slot_static a b -> slot_static b c -> slot_static a c.
Proof.
  intros (H1 & H2 & H3 & H4 & H5) (G1 & G2 & G3 & G4 & G5).
  repeat split; congruence.
Qed.

Lemma keys_prefix_oset {V} (k : string) (v : V) (m : object V) :
  Object_keys m `prefix_of` Object_keys (oset k v m).
Proof.
  destruct (oget k m) eqn:E.
  - rewrite Object_keys_oset by eauto. reflexivity.
  - rewrite Object_keys_oset_new by exact E. apply prefix_app_r. reflexivity.
Qed.

Lemma evolves_refl e : evolves e e.
Proof.
  split; try reflexivity.
  - apply entries_refl, bay_step_refl.
  - apply entries_refl, line_step_refl.
  - apply entries_refl, slot_static_refl.
  - left. reflexivity.
Qed.

Lemma evolves_trans e1 e2 e3 : evolves e1 e2 -> evolves e2 e3 -> evolves e1 e3.
Proof.
  intros [B1 L1 S1 T1 G1 V1] [B2 L2 S2 T2 G2 V2]. split.
  - eapply entries_trans; [apply bay_step_trans|exact B1|exact B2].
  - eapply entries_trans; [apply line_step_trans|exact L1|exact L2].
  - eapply entries_trans; [apply slot_static_trans|exact S1|exact S2].
  - etrans; eassumption.
  - etrans; eassumption.
  - destruct V2 as [->|V2]; [exact V1|right; exact V2].
Qed.

Lemma evolves_emitEvent now ty trainId message severity data e :
  evolves e (emitEvent now ty trainId message severity data e).
Proof.
  split; simpl; try reflexivity.
  - apply entries_refl, bay_step_refl.
  - apply entries_refl, line_step_refl.
  - apply entries_refl, slot_static_refl.
  - apply prefix_app_r. reflexivity.
  - left. reflexivity.
Qed.

Lemma evolves_same_state e e' : state e' = state e -> evolves e e'.
Proof.
  intros H. split; rewrite H; try reflexivity.
  - apply entries_refl, bay_step_refl.
  - apply entries_refl, line_step_refl.
  - apply entries_refl, slot_static_refl.
  - left. reflexivity.
Qed.

Lemma evolves_setTimeout cb ms e : evolves e (setTimeout cb ms e).
Proof. apply evolves_same_state. reflexivity. Qed.

Lemma evolves_train k t e : evolves e (with_trains (oset k t) e).
Proof.
  split; simpl; try reflexivity.
  - apply entries_refl, bay_step_refl.
  - apply entries_refl, line_step_refl.
  - apply entries_refl, slot_static_refl.
  - apply keys_prefix_oset.
  - left. reflexivity.
Qed.

Lemma evolves_bay k b b' e :
  oget k (inspectionBays (state e)) = Some b -> bay_step b b' ->
  evolves e (with_inspectionBays (oset k b') e).
Proof.
  intros Hk Hb. split; simpl; try reflexivity.
  - eapply entries_oset; [apply bay_step_refl|exact Hk|exact Hb].
  - apply entries_refl, line_step_refl.
  - apply entries_refl, slot_static_refl.
  - left. reflexivity.
Qed.

Lemma evolves_line k w w' e :
  oget k (workshopLines (state e)) = Some w -> line_step w w' ->
  evolves e (with_workshopLines (oset k w') e).
Proof.
  intros Hk Hw. split; simpl; try reflexivity.
  - apply entries_refl, bay_step_refl.
  - eapply entries_oset; [apply line_step_refl|exact Hk|exact Hw].
  - apply entries_refl, slot_static_refl.
  - left. reflexivity.
Qed.

Lemma evolves_slot k s s' e :
  oget k (sidingSlots (state e)) = Some s -> slot_static s s' ->
  evolves e (with_sidingSlots (oset k s') e).
Proof.
  intros Hk Hs. split; simpl; try reflexivity.
  - apply entries_refl, bay_step_refl.
  - apply entries_refl, line_step_refl.
  - eapply entries_oset; [apply slot_static_refl|exact Hk|exact Hs].
  - left. reflexivity.
Qed.

Lemma evolves_speed v e :
  speed_in_range v -> evolves e (with_simulationSpeed v e).
Proof.
  intros Hv. split; simpl; try reflexivity.
  - apply entries_refl, bay_step_refl.
  - apply entries_refl, line_step_refl.
  - apply entries_refl, slot_static_refl.
  - right. exact Hv.
Qed.

Lemma bay_claimed_step trainId now b : bay_step b (bay_claimed trainId now b).
Proof.
  split; [repeat split|]. right. right. simpl. eauto.
Qed.

Lemma bay_released_step b : bay_step b (bay_released b).
Proof.
  split; [repeat split|]. right. left. simpl. auto.
Qed.

Lemma line_claimed_step trainId w : line_step w (line_claimed trainId w).
Proof.
  split; [repeat split|]. right. right. simpl. eauto.
Qed.

Lemma line_released_step w : line_step w (line_released w).
Proof.
  split; [repeat split|]. right. left. simpl. auto.
Qed.

Lemma slot_claimed_static trainId s : slot_static s (slot_claimed trainId s).
Proof. repeat split. Qed.

(** One step of a chain of updates. *)
Ltac later_engine :=
  first
    [ apply evolves_refl
    | eapply evolves_trans; [|apply evolves_setTimeout]
    | eapply evolves_trans; [|apply evolves_emitEvent]
    | eapply evolves_trans; [|apply evolves_train] ].

Section evolution.
Variable definition : YardDefinition.

Lemma evolves_enqueueTrain rnd trainData e :
  evolves e (snd (enqueueTrain rnd trainData e)).
Proof. unfold enqueueTrain. cbv zeta. simpl snd. repeat later_engine. Qed.

Lemma evolves_assignTrainToInspection now trainId bayId e :
  evolves e (assignTrainToInspection now trainId bayId e).
Proof.
  unfold assignTrainToInspection.
  destruct (oget trainId _); [|apply evolves_refl].
  destruct (oget bayId (inspectionBays (state e))) as [bay|] eqn:Eb;
    [|apply evolves_refl].
  destruct (negb _); [apply evolves_refl|]. cbv zeta.
  do 2 later_engine.
  eapply evolves_trans; [apply evolves_train|].
  eapply evolves_bay; [exact Eb|apply bay_claimed_step].
Qed.

Lemma evolves_autoAssignToInspection now trainId e :
  evolves e (autoAssignToInspection definition now trainId e).
Proof.
  unfold autoAssignToInspection.
  destruct (oget trainId _); [|apply evolves_refl].
  destruct (negb _); [apply evolves_refl|]. cbv zeta.
  destruct (truthy _); [apply evolves_assignTrainToInspection|].
  repeat later_engine.
Qed.

Lemma evolves_processQueuedTrains now e :
  evolves e (processQueuedTrains definition now e).
Proof.
  unfold processQueuedTrains.
  generalize (filter (fun train => t_status train = queued)
                (Object_values (trains (state e)))).
  intros l. revert e. induction l as [|t l IH]; intros e; simpl.
  - apply evolves_refl.
  - eapply evolves_trans; [apply evolves_autoAssignToInspection|apply IH].
Qed.

Lemma evolves_completeInspection now random trainId bayId e :
  evolves e (completeInspection definition now random trainId bayId e).
Proof.
  unfold completeInspection.
  destruct (oget trainId _); [|apply evolves_refl].
  destruct (oget bayId (inspectionBays (state e))) as [bay|] eqn:Eb;
    [|apply evolves_refl].
  destruct (negb (bool_decide _)); [apply evolves_refl|]. cbv zeta.
  eapply evolves_trans; [|apply evolves_processQueuedTrains].
  assert (evolves e (with_inspectionBays (oset bayId (bay_released bay)) e))
    as Hbay by (eapply evolves_bay; [exact Eb|apply bay_released_step]).
  destruct (negb (Qle_bool _ random)).
  - destruct (negb (priority _) && negb (departSoon _));
      [destruct (generateSidingRecommendations _ _)|];
      repeat later_engine; exact Hbay.
  - destruct (generateWorkshopRecommendations _ _);
      repeat later_engine; exact Hbay.
Qed.

Lemma evolves_assignTrainToSiding now trainId slotId e :
  evolves e (assignTrainToSiding now trainId slotId e).
Proof.
  unfold assignTrainToSiding.
  destruct (oget trainId _); [|apply evolves_refl].
  destruct (oget slotId (sidingSlots (state e))) as [s|] eqn:Es;
    [|apply evolves_refl].
  destruct (truthy _); [apply evolves_refl|]. cbv zeta.
  later_engine.
  eapply evolves_trans; [apply evolves_train|].
  eapply evolves_slot; [exact Es|apply slot_claimed_static].
Qed.

Lemma evolves_assignTrainToWorkshop now trainId workshopId e :
  evolves e (assignTrainToWorkshop now trainId workshopId e).
Proof.
  unfold assignTrainToWorkshop.
  destruct (oget trainId _); [|apply evolves_refl].
  destruct (oget workshopId (workshopLines (state e))) as [w|] eqn:Ew;
    [|apply evolves_refl].
  destruct (truthy _); [apply evolves_refl|]. cbv zeta.
  do 2 later_engine.
  eapply evolves_trans; [apply evolves_train|].
  eapply evolves_line; [exact Ew|apply line_claimed_step].
Qed.

Lemma evolves_completeWorkshop now trainId workshopId e :
  evolves e (completeWorkshop now trainId workshopId e).
Proof.
  unfold completeWorkshop.
  destruct (oget trainId _); [|apply evolves_refl].
  destruct (oget workshopId (workshopLines (state e))) as [w|] eqn:Ew;
    [|apply evolves_refl].
  destruct (negb (bool_decide _)); [apply evolves_refl|]. cbv zeta.
  assert (evolves e
            (with_workshopLines (oset workshopId (line_released w))
               (with_trains (oset trainId (train_repaired now t)) e)))
    as Hline.
  { eapply evolves_trans; [apply evolves_train|].
    eapply evolves_line; [exact Ew|apply line_released_step]. }
  destruct (generateSidingRecommendations _ _);
    repeat later_engine; exact Hline.
Qed.

Lemma speed_clamped (speed : Q) :
  speed_in_range (Qmax 0.1 (Qmin 10 speed)).
Proof.
  split.
  - apply Q.le_max_l.
  - apply Q.max_lub; [intros H; discriminate H|apply Q.le_min_l].
Qed.

Lemma evolves_processCommand rnd command e :
  evolves e (processCommand rnd command e).
Proof.
  unfold processCommand.
  destruct (cmd_type command); try apply evolves_refl.
  - apply evolves_enqueueTrain.
  - destruct (cmd_data command) as [data|]; [|apply evolves_refl].
    destruct (truthy _); [|apply evolves_refl].
    destruct data as [|target [| |] letter|]; try apply evolves_refl.
    + apply evolves_assignTrainToSiding.
    + apply evolves_assignTrainToWorkshop.
  - destruct (cmd_data command) as [[| |speed]|]; try apply evolves_refl.
    destruct (Qeq_bool speed 0); [apply evolves_refl|].
    apply evolves_speed, speed_clamped.
Qed.

Lemma evolves_perform a e : evolves e (perform definition a e).
Proof.
  destruct a as [rnd d|now t s|now t w|rnd c|now random i]; simpl.
  - apply evolves_enqueueTrain.
  - apply evolves_assignTrainToSiding.
  - apply evolves_assignTrainToWorkshop.
  - apply evolves_processCommand.
  - destruct (timers e !! i) as [timer|]; [|apply evolves_refl].
    eapply evolves_trans;
      [apply (evolves_same_state e
                (mkEngine (state e) (delete i (timers e)))); reflexivity|].
    destruct (callback timer); simpl.
    + apply evolves_autoAssignToInspection.
    + apply evolves_completeInspection.
    + apply evolves_assignTrainToSiding.
    + apply evolves_assignTrainToWorkshop.
    + apply evolves_completeWorkshop.
Qed.

Lemma evolves_run actions e : evolves e (run definition actions e).
Proof.
  revert e. induction actions as [|a actions IH]; intros e; simpl.
  - apply evolves_refl.
  - eapply evolves_trans; [apply evolves_perform|apply IH].
Qed.
End evolution.

(** ** What a run keeps *)

(** X1: the event log only grows: through any sequence of calls and timer
    firings the old log is a prefix of the new one, so no event is removed or
    reordered and no field of a logged event is written again.  (The payload
    of a creation event is the train object itself, not a copy: its content
    goes on changing with the train.) *)
Theorem X1_event_log_append_only (definition : YardDefinition)
    (actions : list Action) (e : Engine) :
  eventLog (state e) `prefix_of` eventLog (state (run definition actions e)).
Proof. apply (ev_log _ _ (evolves_run definition actions e)). Qed.

(** X2: no sequence of calls and timer firings adds, removes or reorders a
    bay, a line or a slot, and none changes what a resource carries from
    construction (id, name, node, duration; specialization, capacity; siding,
    letter, reverse cost, blocking risk). *)
Theorem X2_resources_fixed (definition : YardDefinition)
    (actions : list Action) (e : Engine) :
  let e' := run definition actions e in
  (Object_keys (inspectionBays (state e'))
   = Object_keys (inspectionBays (state e)) /\
   Object_keys (workshopLines (state e'))
   = Object_keys (workshopLines (state e)) /\
   Object_keys (sidingSlots (state e'))
   = Object_keys (sidingSlots (state e))) /\
  (forall k b, oget k (inspectionBays (state e)) = Some b ->
     exists b', oget k (inspectionBays (state e')) = Some b' /\
                bay_static b b') /\
  (forall k w, oget k (workshopLines (state e)) = Some w ->
     exists w', oget k (workshopLines (state e')) = Some w' /\
                line_static w w') /\
  (forall k s, oget k (sidingSlots (state e)) = Some s ->
     exists s', oget k (sidingSlots (state e')) = Some s' /\
                slot_static s s').
Proof.
  intros e'. destruct (evolves_run definition actions e) as [B L S _ _ _].
  fold e' in B, L, S.
  split; [split; [|split]; eapply entries_keys; eassumption|].
  split; [|split].
  - intros k b Hk. destruct (entries_oget_fwd _ _ _ _ _ B Hk) as (b' & Hb' & Hs & _).
    eauto.
  - intros k w Hk. destruct (entries_oget_fwd _ _ _ _ _ L Hk) as (w' & Hw' & Hs & _).
    eauto.
  - intros k s Hk. apply (entries_oget_fwd _ _ _ _ _ S Hk).
Qed.

Lemma prefix_keys_is_Some {V} (m m' : object V) (k : string) :
  Object_keys m `prefix_of` Object_keys m' ->
  is_Some (oget k m) -> is_Some (oget k m').
Proof.
  intros [rest Hrest] [v Hv].
  destruct (oget k m') eqn:E; [eauto|].
  apply oget_None_keys in E. exfalso. apply E. rewrite Hrest.
  apply elem_of_app. left.
  destruct (decide (k ∈ Object_keys m)) as [Hin|Hin]; [exact Hin|].
  apply oget_None_keys in Hin. congruence.
Qed.

(** X3: a train, once registered, is never removed: through any sequence of
    calls and timer firings the ids of the registry stay, in their order, at
    the front of the later registry, and the number of trains never drops. *)
Theorem X3_trains_never_removed (definition : YardDefinition)
    (actions : list Action) (e : Engine) :
  let e' := run definition actions e in
  Object_keys (trains (state e)) `prefix_of` Object_keys (trains (state e')) /\
  (forall k, is_Some (oget k (trains (state e))) ->
             is_Some (oget k (trains (state e')))) /\
  (length (Object_keys (trains (state e)))
   <= length (Object_keys (trains (state e'))))%nat.
Proof.
  intros e'. pose proof (ev_trains _ _ (evolves_run definition actions e)) as H.
  fold e' in H. split; [exact H|]. split.
  - intros k. apply prefix_keys_is_Some, H.
  - apply prefix_length, H.
Qed.

(** ** Construction *)

Section built.
Variable definition : YardDefinition.

Lemma init_inspectionBays_all (P : string -> InspectionBay -> Prop)
    ids index acc m :
  init_inspectionBays definition ids index acc = Some m ->
  (forall k b, oget k acc = Some b -> P k b) ->
  (forall k node (i : Z), k ∈ ids -> oget k (nodes definition) = Some node ->
     P k (mkInspectionBay k (str_or (n_label node) ("IL-" +:+ pretty i)) k
            None None (5 * 60 * 1000) bay_free)) ->
  forall k b, oget k m = Some b -> P k b.
Proof.
  revert index acc. induction ids as [|nodeId ids IH]; intros index acc; simpl.
  - intros [= <-] Hacc _. exact Hacc.
  - destruct (oget nodeId (nodes definition)) as [node|] eqn:En;
      [|discriminate].
    simpl. intros Hm Hacc Hnew. apply (IH _ _ Hm).
    + intros k b. rewrite oget_oset. destruct (decide (nodeId = k)) as [<-|_].
      * intros [= <-]. apply Hnew; [apply list_elem_of_here|exact En].
      * apply Hacc.
    + intros k node' i Hk. apply Hnew, list_elem_of_further, Hk.
Qed.

Lemma init_workshopLines_all (P : string -> WorkshopLine -> Prop)
    ids index acc m :
  init_workshopLines definition ids index acc = Some m ->
  (forall k w, oget k acc = Some w -> P k w) ->
  (forall k node (i : Z), k ∈ ids -> oget k (nodes definition) = Some node ->
     P k (mkWorkshopLine k (str_or (n_label node) ("WL-" +:+ pretty i)) k None
            (if decide (k = "WL4") then Some "wheel-alignment" else None)
            1 line_free)) ->
  forall k w, oget k m = Some w -> P k w.
Proof.
  revert index acc. induction ids as [|nodeId ids IH]; intros index acc; simpl.
  - intros [= <-] Hacc _. exact Hacc.
  - destruct (oget nodeId (nodes definition)) as [node|] eqn:En;
      [|discriminate].
    simpl. intros Hm Hacc Hnew. apply (IH _ _ Hm).
    + intros k w. rewrite oget_oset. destruct (decide (nodeId = k)) as [<-|_].
      * intros [= <-]. apply Hnew; [apply list_elem_of_here|exact En].
      * apply Hacc.
    + intros k node' i Hk. apply Hnew, list_elem_of_further, Hk.
Qed.

Lemma init_sidingSlots_all (P : string -> SidingSlot -> Prop) ids acc m :
  init_sidingSlots definition ids acc = Some m ->
  (forall k s, oget k acc = Some s -> P k s) ->
  (forall k node metadata, k ∈ ids ->
     oget k (nodes definition) = Some node ->
     n_metadata node = Some metadata ->
     P k (mkSidingSlot k (md_sidingId metadata) (md_slot metadata) None
            (md_reverseCost metadata)
            (Some (calculateBlockingRisk (md_sidingId metadata)
                     (md_slot metadata))))) ->
  forall k s, oget k m = Some s -> P k s.
Proof.
  revert acc. induction ids as [|nodeId ids IH]; intros acc; simpl.
  - intros [= <-] Hacc _. exact Hacc.
  - destruct (oget nodeId (nodes definition)) as [node|] eqn:En;
      [|discriminate].
    simpl. destruct (n_metadata node) as [metadata|] eqn:Em.
    + intros Hm Hacc Hnew. apply (IH _ Hm).
      * intros k s. rewrite oget_oset.
        destruct (decide (nodeId = k)) as [<-|_].
        -- intros [= <-]. eapply Hnew; [apply list_elem_of_here|exact En|exact Em].
        -- apply Hacc.
      * intros k node' md Hk. apply Hnew, list_elem_of_further, Hk.
    + intros Hm Hacc Hnew. apply (IH _ Hm Hacc).
      intros k node' md Hk. apply Hnew, list_elem_of_further, Hk.
Qed.

(** Which ids end up in the registries. *)
Lemma init_inspectionBays_registered ids index acc m k :
  init_inspectionBays definition ids index acc = Some m ->
  (is_Some (oget k m) <-> k ∈ ids \/ is_Some (oget k acc)).
Proof.
  revert index acc. induction ids as [|nodeId ids IH]; intros index acc; simpl.
  - intros [= <-]. rewrite elem_of_nil. tauto.
  - destruct (oget nodeId (nodes definition)) as [node|]; [|discriminate].
    simpl. intros Hm. rewrite (IH _ _ Hm), elem_of_cons, oget_oset.
    destruct (decide (nodeId = k)) as [->|Hne].
    + split; [tauto|]. intros _. right. eauto.
    + split; [tauto|]. intros [[Heq|H]|H]; [congruence|tauto|tauto].
Qed.

Lemma init_workshopLines_registered ids index acc m k :
  init_workshopLines definition ids index acc = Some m ->
  (is_Some (oget k m) <-> k ∈ ids \/ is_Some (oget k acc)).
Proof.
  revert index acc. induction ids as [|nodeId ids IH]; intros index acc; simpl.
  - intros [= <-]. rewrite elem_of_nil. tauto.
  - destruct (oget nodeId (nodes definition)) as [node|]; [|discriminate].
    simpl. intros Hm. rewrite (IH _ _ Hm), elem_of_cons, oget_oset.
    destruct (decide (nodeId = k)) as [->|Hne].
    + split; [tauto|]. intros _. right. eauto.
    + split; [tauto|]. intros [[Heq|H]|H]; [congruence|tauto|tauto].
Qed.

Lemma init_sidingSlots_registered ids acc m k :
  init_sidingSlots definition ids acc = Some m ->
  (is_Some (oget k m) <->
   (k ∈ ids /\ exists node, oget k (nodes definition) = Some node /\
                            is_Some (n_metadata node))
   \/ is_Some (oget k acc)).
Proof.
  revert acc. induction ids as [|nodeId ids IH]; intros acc; simpl.
  - intros [= <-]. rewrite elem_of_nil. tauto.
  - destruct (oget nodeId (nodes definition)) as [node|] eqn:En;
      [|discriminate].
    simpl. destruct (n_metadata node) as [metadata|] eqn:Em.
    + intros Hm. rewrite (IH _ Hm), elem_of_cons, oget_oset.
      destruct (decide (nodeId = k)) as [->|Hne].
      * split; [intros _|intros _; right; eauto].
        left. split; [left; reflexivity|]. exists node. rewrite Em. eauto.
      * split.
        -- intros [[H H']|H]; [left; split; [right; exact H|exact H']
                               |right; exact H].
        -- intros [[[Heq|H] H']|H];
             [congruence|left; split; assumption|right; exact H].
    + intros Hm. rewrite (IH _ Hm), elem_of_cons.
      split.
      { intros [[H H']|H]; [left; split; [right; exact H|exact H']
                           |right; exact H]. }
      intros [[[->|H] (node' & Hn & Hmd)]|H];
        [|left; split; [exact H|eauto]|right; exact H].
      rewrite En in Hn. injection Hn as <-. rewrite Em in Hmd.
      destruct Hmd as [x Hx]. discriminate Hx.
Qed.

(** Each loop of the constructor fails exactly when a listed id has no
    node. *)
Lemma init_inspectionBays_fails ids index acc :
  init_inspectionBays definition ids index acc = None <->
  exists k, k ∈ ids /\ oget k (nodes definition) = None.
Proof.
  revert index acc. induction ids as [|nodeId ids IH]; intros index acc; simpl.
  - split; [discriminate|]. intros (k & Hk & _). apply elem_of_nil in Hk as [].
  - destruct (oget nodeId (nodes definition)) as [node|] eqn:En; simpl.
    + rewrite IH. split.
      * intros (k & Hk & Hn). exists k. split; [right; exact Hk|exact Hn].
      * intros (k & Hk & Hn). apply elem_of_cons in Hk as [->|Hk];
          [congruence|eauto].
    + split; [intros _|reflexivity]. exists nodeId.
      split; [apply list_elem_of_here|exact En].
Qed.

Lemma init_workshopLines_fails ids index acc :
  init_workshopLines definition ids index acc = None <->
  exists k, k ∈ ids /\ oget k (nodes definition) = None.
Proof.
  revert index acc. induction ids as [|nodeId ids IH]; intros index acc; simpl.
  - split; [discriminate|]. intros (k & Hk & _). apply elem_of_nil in Hk as [].
  - destruct (oget nodeId (nodes definition)) as [node|] eqn:En; simpl.
    + rewrite IH. split.
      * intros (k & Hk & Hn). exists k. split; [right; exact Hk|exact Hn].
      * intros (k & Hk & Hn). apply elem_of_cons in Hk as [->|Hk];
          [congruence|eauto].
    + split; [intros _|reflexivity]. exists nodeId.
      split; [apply list_elem_of_here|exact En].
Qed.

Lemma init_sidingSlots_fails ids acc :
  init_sidingSlots definition ids acc = None <->
  exists k, k ∈ ids /\ oget k (nodes definition) = None.
Proof.
  revert acc. induction ids as [|nodeId ids IH]; intros acc; simpl.
  - split; [discriminate|]. intros (k & Hk & _). apply elem_of_nil in Hk as [].
  - destruct (oget nodeId (nodes definition)) as [node|] eqn:En; simpl.
    + assert (forall acc',
                init_sidingSlots definition ids acc' = None <->
                exists k, k ∈ nodeId :: ids /\ oget k (nodes definition) = None)
        as Hstep.
      { intros acc'. rewrite IH. split.
        - intros (k & Hk & Hn). exists k. split; [right; exact Hk|exact Hn].
        - intros (k & Hk & Hn). apply elem_of_cons in Hk as [->|Hk];
            [congruence|eauto]. }
      destruct (n_metadata node); apply Hstep.
    + split; [intros _|reflexivity]. exists nodeId.
      split; [apply list_elem_of_here|exact En].
Qed.
End built.

(** X6: constructing a simulator fails (the constructor throws) when some
    plain id the topology lists as bay, line or slot has no node.  When the
    construction of a plain yard succeeds there is no train, no event and no
    timer, the speed is 1, the bays and lines are exactly the listed ones, the
    slots are exactly the listed ones whose node has metadata, and every
    resource is free and unoccupied. *)
Theorem X6_construction (definition : YardDefinition) :
  ((exists k, k ∈ configured_ids definition /\ plain k = true /\
              oget k (nodes definition) = None) ->
   newYardSimulator definition = None) /\
  (forall e, plain_yard definition = true ->
     newYardSimulator definition = Some e ->
     trains (state e) = [] /\ eventLog (state e) = [] /\ timers e = [] /\
     simulationSpeed (state e) = 1%Q /\
     (forall k, is_Some (oget k (inspectionBays (state e))) <->
                k ∈ def_inspectionBays definition) /\
     (forall k, is_Some (oget k (workshopLines (state e))) <->
                k ∈ def_workshopLines definition) /\
     (forall k, is_Some (oget k (sidingSlots (state e))) <->
                k ∈ def_sidingSlots definition /\
                exists node, oget k (nodes definition) = Some node /\
                             is_Some (n_metadata node)) /\
     (forall k b, oget k (inspectionBays (state e)) = Some b ->
        bay_status b = bay_free /\ bay_occupiedBy b = None) /\
     (forall k w, oget k (workshopLines (state e)) = Some w ->
        ws_status w = line_free /\ ws_occupiedBy w = None) /\
     (forall k s, oget k (sidingSlots (state e)) = Some s ->
        sl_occupiedBy s = None)).
Proof.
  unfold newYardSimulator, initializeState, configured_ids. split.
  - destruct (init_inspectionBays definition _ 0 []) as [bays|] eqn:Eb;
      [|reflexivity].
    destruct (init_workshopLines definition _ 0 []) as [lines|] eqn:El;
      [|reflexivity].
    destruct (init_sidingSlots definition _ []) as [slots|] eqn:Es;
      [|reflexivity].
    simpl. intros (k & Hk & _ & Hn). exfalso.
    rewrite !elem_of_app in Hk. destruct Hk as [Hk|[Hk|Hk]].
    + assert (init_inspectionBays definition (def_inspectionBays definition)
                0 [] = None) as H by (apply init_inspectionBays_fails; eauto).
      congruence.
    + assert (init_workshopLines definition (def_workshopLines definition)
                0 [] = None) as H by (apply init_workshopLines_fails; eauto).
      congruence.
    + assert (init_sidingSlots definition (def_sidingSlots definition) []
              = None) as H by (apply init_sidingSlots_fails; eauto).
      congruence.
  - intros e _.
    destruct (init_inspectionBays definition _ 0 []) as [bays|] eqn:Eb;
      [|discriminate].
    destruct (init_workshopLines definition _ 0 []) as [lines|] eqn:El;
      [|discriminate].
    destruct (init_sidingSlots definition _ []) as [slots|] eqn:Es;
      [|discriminate].
    simpl. intros [= <-]. simpl.
    assert (forall V (k : string), is_Some (oget k ([] : object V)) -> False)
      as Hnil by (intros V k [x Hx]; discriminate Hx).
    do 4 (split; [reflexivity|]).
    split; [|split; [|split; [|split; [|split]]]].
    + intros k. rewrite (init_inspectionBays_registered _ _ _ _ _ k Eb).
      split; [intros [H|H]; [exact H|destruct (Hnil _ _ H)]|auto].
    + intros k. rewrite (init_workshopLines_registered _ _ _ _ _ k El).
      split; [intros [H|H]; [exact H|destruct (Hnil _ _ H)]|auto].
    + intros k. rewrite (init_sidingSlots_registered _ _ _ _ k Es).
      split; [intros [H|H]; [exact H|destruct (Hnil _ _ H)]|auto].
    + apply (init_inspectionBays_all definition
               (fun _ b => bay_status b = bay_free /\ bay_occupiedBy b = None)
               _ _ _ _ Eb); [intros k b H; discriminate H|].
      intros. split; reflexivity.
    + apply (init_workshopLines_all definition
               (fun _ w => ws_status w = line_free /\ ws_occupiedBy w = None)
               _ _ _ _ El); [intros k w H; discriminate H|].
      intros. split; reflexivity.
    + apply (init_sidingSlots_all definition
               (fun _ s => sl_occupiedBy s = None) _ _ _ Es);
        [intros k s H; discriminate H|].
      intros. reflexivity.
Qed.

Example construction_of_broken_yard :
  newYardSimulator broken_yard = None /\
  "WL9" ∈ configured_ids broken_yard /\ plain "WL9" = true /\
  oget "WL9" (nodes broken_yard) = None.
Proof.
  split; [reflexivity|]. split; [|split; reflexivity].
  unfold configured_ids. simpl. apply list_elem_of_In. simpl. tauto.
Qed.

(** ** What holds in every reachable state *)

Section reachable_facts.
Variable definition : YardDefinition.

Lemma new_simulator_built e :
  newYardSimulator definition = Some e ->
  simulationSpeed (state e) = 1%Q /\
  (forall k b, oget k (inspectionBays (state e)) = Some b ->
     bay_as_built k b /\ bay_consistent b) /\
  (forall k w, oget k (workshopLines (state e)) = Some w ->
     line_as_built k w /\ line_consistent w) /\
  (forall k s, oget k (sidingSlots (state e)) = Some s ->
     slot_as_built definition k s).
Proof.
  unfold newYardSimulator, initializeState.
  destruct (init_inspectionBays definition _ 0 []) as [bays|] eqn:Eb;
    [|discriminate].
  destruct (init_workshopLines definition _ 0 []) as [lines|] eqn:El;
    [|discriminate].
  destruct (init_sidingSlots definition _ []) as [slots|] eqn:Es;
    [|discriminate].
  simpl. intros [= <-]. simpl. split; [reflexivity|]. split; [|split].
  - apply (init_inspectionBays_all definition
             (fun k b => bay_as_built k b /\ bay_consistent b) _ _ _ _ Eb);
      [intros k b H; discriminate H|].
    intros k node i _ _. split.
    + split; [reflexivity|]. split; reflexivity.
    + left. simpl. auto.
  - apply (init_workshopLines_all definition
             (fun k w => line_as_built k w /\ line_consistent w) _ _ _ _ El);
      [intros k w H; discriminate H|].
    intros k node i _ _. split.
    + repeat split.
    + left. simpl. auto.
  - apply (init_sidingSlots_all definition (slot_as_built definition)
             _ _ _ Es); [intros k s H; discriminate H|].
    intros k node metadata _ Hn Hm. split; [reflexivity|].
    split; [reflexivity|]. exists node, metadata. simpl. auto.
Qed.

Lemma reachable_built e :
  reachable definition e ->
  speed_in_range (simulationSpeed (state e)) /\
  (forall k b, oget k (inspectionBays (state e)) = Some b ->
     bay_as_built k b /\ bay_consistent b) /\
  (forall k w, oget k (workshopLines (state e)) = Some w ->
     line_as_built k w /\ line_consistent w) /\
  (forall k s, oget k (sidingSlots (state e)) = Some s ->
     slot_as_built definition k s).
Proof.
  induction 1 as [e Hnew|a e Hreach (Hv & Hb & Hl & Hs) Hok].
  - destruct (new_simulator_built e Hnew) as (-> & H).
    split; [|exact H]. split; intros H'; discriminate H'.
  - destruct (evolves_perform definition a e) as [B L S _ _ V].
    split; [|split; [|split]].
    + destruct V as [->|V]; assumption.
    + intros k b' Hk.
      destruct (entries_oget _ _ _ _ _ B Hk)
        as (b & Hb0 & (H1 & H2 & H3 & H4) & Hsame).
      destruct (Hb k b Hb0) as [(G1 & G2 & G3) Hc]. split.
      * split; [congruence|]. split; [congruence|]. rewrite H4. exact G3.
      * destruct Hsame as [->|Hc']; assumption.
    + intros k w' Hk.
      destruct (entries_oget _ _ _ _ _ L Hk)
        as (w & Hw0 & (H1 & H2 & H3 & H4 & H5) & Hsame).
      destruct (Hl k w Hw0) as [(G1 & G2 & G3 & G4) Hc]. split.
      * repeat split; congruence.
      * destruct Hsame as [->|Hc']; assumption.
    + intros k s' Hk.
      destruct (entries_oget _ _ _ _ _ S Hk)
        as (s & Hs0 & (H1 & H2 & H3 & H4 & H5)).
      destruct (Hs k s Hs0) as (G1 & G2 & node & md & Hn & Hm & G3 & G4 & G5).
      split; [congruence|]. split; [congruence|].
      exists node, md. repeat split; congruence.
Qed.
End reachable_facts.

(** X4: in every reachable state the simulation speed lies between 0.1 and
    10: it starts at 1 and only [processCommand] writes it, clamped. *)
Theorem X4_speed_in_range (definition : YardDefinition) (e : Engine) :
  reachable definition e -> speed_in_range (simulationSpeed (state e)).
Proof. intros He. apply (reachable_built definition e He). Qed.

Lemma X4_speed_in_range_witness :
  reachable sample_yard
    (run sample_yard [CallProcessCommand (entropy_at 9000 "z")
                        (speed_command 250)] sample_engine) /\
  simulationSpeed
    (state (run sample_yard [CallProcessCommand (entropy_at 9000 "z")
                               (speed_command 250)] sample_engine)) = 10%Q /\
  speed_in_range
    (simulationSpeed
       (state (run sample_yard [CallProcessCommand (entropy_at 9000 "z")
                                  (speed_command 250)] sample_engine))).
Proof.
  assert (reachable sample_yard
            (run sample_yard [CallProcessCommand (entropy_at 9000 "z")
                                (speed_command 250)] sample_engine)) as H
    by (apply reachable_run; [apply reachable_sample_engine|reflexivity]).
  split; [exact H|]. split; [reflexivity|].
  exact (X4_speed_in_range sample_yard _ H).
Defined.

(** X5: in every reachable state occupancy and status agree: a bay is either
    free, without occupant and without start time, or occupied, with an
    occupant and a start time; a workshop line is either free without
    occupant or occupied with one.  The statuses 'cleaning' and 'maintenance'
    never occur. *)
Theorem X5_status_matches_occupancy (definition : YardDefinition) (e : Engine) :
  reachable definition e ->
  (forall k b, oget k (inspectionBays (state e)) = Some b ->
     bay_consistent b) /\
  (forall k w, oget k (workshopLines (state e)) = Some w ->
     line_consistent w).
Proof.
  intros He. destruct (reachable_built definition e He) as (_ & Hb & Hl & _).
  split.
  - intros k b Hk. apply (Hb k b Hk).
  - intros k w Hk. apply (Hl k w Hk).
Qed.

Lemma reachable_in_inspection_engine :
  reachable sample_yard in_inspection_engine.
Proof.
  apply reachable_run; [|reflexivity].
  apply reachable_run; [apply reachable_sample_engine|reflexivity].
Qed.

Lemma X5_status_matches_occupancy_witness :
  reachable sample_yard in_inspection_engine /\
  exists b, oget "IL1" (inspectionBays (state in_inspection_engine)) = Some b /\
            bay_occupiedBy b = Some "train_1000_k3j9x0q2a" /\
            bay_consistent b.
Proof.
  split; [apply reachable_in_inspection_engine|].
  eexists. split; [vm_compute; reflexivity|]. split; [reflexivity|].
  apply (proj1 (X5_status_matches_occupancy sample_yard in_inspection_engine
                  reachable_in_inspection_engine) "IL1").
  vm_compute. reflexivity.
Defined.

(** X7: in every reachable state the resources still carry what construction
    gave them: a bay is filed under its id, at its node, with an inspection
    duration of 300000 ms; a line is filed under its id with capacity 1, and
    it is specialised in wheel alignment exactly when its id is WL4; a slot is
    filed under its id, mirrors the metadata of its node (siding, letter,
    reverse cost), and its blocking risk is the one [calculateBlockingRisk]
    gives for its siding and letter. *)
Theorem X7_resources_as_built (definition : YardDefinition) (e : Engine) :
  reachable definition e ->
  (forall k b, oget k (inspectionBays (state e)) = Some b ->
     bay_as_built k b) /\
  (forall k w, oget k (workshopLines (state e)) = Some w ->
     line_as_built k w) /\
  (forall k s, oget k (sidingSlots (state e)) = Some s ->
     slot_as_built definition k s).
Proof.
  intros He. destruct (reachable_built definition e He) as (_ & Hb & Hl & Hs).
  split; [|split].
  - intros k b Hk. apply (Hb k b Hk).
  - intros k w Hk. apply (Hl k w Hk).
  - exact Hs.
Qed.

Lemma X7_resources_as_built_witness :
  reachable sample_yard reassigned_engine /\
  exists s, oget "S1b" (sidingSlots (state reassigned_engine)) = Some s /\
            sl_occupiedBy s = Some "train_1000_k3j9x0q2a" /\
            slot_as_built sample_yard "S1b" s.
Proof.
  split; [apply reachable_reassigned_engine|].
  eexists. split; [vm_compute; reflexivity|]. split; [reflexivity|].
  apply (proj2 (proj2 (X7_resources_as_built sample_yard reassigned_engine
                         reachable_reassigned_engine)) "S1b").
  vm_compute. reflexivity.
Defined.

(** ** Entry to inspection *)

Lemma find_first {A} (p : A -> bool) (before after : list A) (x : A) :
  Forall (fun y => p y = false) before -> p x = true ->
  List.find p (before ++ x :: after) = Some x.
Proof.
  induction 1 as [|y l Hy _ IH]; intros Hx; simpl.
  - rewrite Hx. reflexivity.
  - rewrite Hy. apply IH, Hx.
Qed.

Lemma find_none {A} (p : A -> bool) (l : list A) :
  Forall (fun y => p y = false) l -> List.find p l = None.
Proof.
  induction 1 as [|y l Hy _ IH]; simpl; [reflexivity|].
  rewrite Hy. exact IH.
Qed.

Lemma bay_unavailable_test (st : YardState) (k : string) :
  bay_unavailable st k ->
  match oget k (inspectionBays st) with
  | Some bay => bool_decide (bay_status bay = bay_free)
  | None => false
  end = false.
Proof.
  intros H. destruct (oget k (inspectionBays st)) as [b|] eqn:E;
    [|reflexivity].
  apply bool_decide_eq_false_2, (H b E).
Qed.

(** X8: an arriving train handed to [autoAssignToInspection] takes the first
    free bay in the order the topology lists them: the train is moved there
    with status inspection, that bay alone changes (it is claimed by the
    train), and one completion timer is scheduled after the bay's inspection
    duration times the speed.  When no listed bay is free the train is set to
    queued where it is, no bay and no timer changes, and one warning event is
    logged. *)
Theorem X8_first_free_bay (definition : YardDefinition) (now : Z)
    (trainId : string) (e : Engine) (train : Train) :
  oget trainId (trains (state e)) = Some train ->
  t_status train = arriving ->
  (forall before bayId after bay,
     def_inspectionBays definition = before ++ bayId :: after ->
     Forall (bay_unavailable (state e)) before ->
     oget bayId (inspectionBays (state e)) = Some bay ->
     bay_status bay = bay_free ->
     bayId <> "" ->
     let e' := autoAssignToInspection definition now trainId e in
     oget trainId (trains (state e'))
     = Some (train_moved_to inspection bayId now train) /\
     inspectionBays (state e')
     = oset bayId (bay_claimed trainId now bay) (inspectionBays (state e)) /\
     timers e'
     = timers e ++ [mkTimer (CbCompleteInspection trainId bayId)
                      (inspectionDuration bay * simulationSpeed (state e))]) /\
  (Forall (bay_unavailable (state e)) (def_inspectionBays definition) ->
   let e' := autoAssignToInspection definition now trainId e in
   oget trainId (trains (state e')) = Some (train_with_status queued train) /\
   inspectionBays (state e') = inspectionBays (state e) /\
   timers e' = timers e /\
   exists ev, eventLog (state e') = eventLog (state e) ++ [ev] /\
              ev_type ev = train_updated /\ ev_severity ev = sev_warning).
Proof.
  intros Ht Ha. split.
  - intros before bayId after bay Hlist Hbefore Hbay Hfree Hne e'.
    subst e'. unfold autoAssignToInspection. rewrite Ht, Ha. simpl.
    rewrite Hlist.
    rewrite (find_first _ before after bayId).
    + rewrite (nonempty_truthy _ Hne). simpl.
      unfold assignTrainToInspection. rewrite Ht, Hbay.
      rewrite bool_decide_eq_true_2 by exact Hfree. simpl.
      split; [apply oget_oset_eq|]. split; reflexivity.
    + eapply Forall_impl; [exact Hbefore|].
      intros k Hk. apply bay_unavailable_test, Hk.
    + rewrite Hbay. apply bool_decide_eq_true_2, Hfree.
  - intros Hall e'. subst e'. unfold autoAssignToInspection.
    rewrite Ht, Ha. simpl. rewrite find_none.
    + simpl. split; [apply oget_oset_eq|]. split; [reflexivity|].
      split; [reflexivity|]. eexists. split; [reflexivity|]. split; reflexivity.
    + eapply Forall_impl; [exact Hall|].
      intros k Hk. apply bay_unavailable_test, Hk.
Qed.

Lemma X8_first_free_bay_witness :
  exists train bay,
    oget "train_1001_p7m2c4v8b" (trains (state second_arrival_engine))
    = Some train /\
    t_status train = arriving /\
    def_inspectionBays two_bay_yard = ["IL1"] ++ "IL2" :: [] /\
    Forall (bay_unavailable (state second_arrival_engine)) ["IL1"] /\
    oget "IL2" (inspectionBays (state second_arrival_engine)) = Some bay /\
    bay_status bay = bay_free /\
    oget "train_1001_p7m2c4v8b"
      (trains (state (autoAssignToInspection two_bay_yard 3001
                        "train_1001_p7m2c4v8b" second_arrival_engine)))
    = Some (train_moved_to inspection "IL2" 3001 train).
Proof.
  eexists. eexists.
  assert (Ht : oget "train_1001_p7m2c4v8b"
                 (trains (state second_arrival_engine))
               = Some (mkTrain "train_1001_p7m2c4v8b" "T2" arriving "E1" east
                         50 25000 [] [] false false 1001 1001))
    by (vm_compute; reflexivity).
  assert (Hb : oget "IL2" (inspectionBays (state second_arrival_engine))
               = Some (mkInspectionBay "IL2" "IL-2" "IL2" None None
                         (5 * 60 * 1000) bay_free))
    by (vm_compute; reflexivity).
  assert (Hbefore : Forall (bay_unavailable (state second_arrival_engine))
                      ["IL1"]).
  { constructor; [|constructor]. intros b Hk. vm_compute in Hk.
    injection Hk as <-. discriminate. }
  split; [exact Ht|]. split; [reflexivity|]. split; [reflexivity|].
  split; [exact Hbefore|]. split; [exact Hb|]. split; [reflexivity|].
  refine (proj1 (proj1 (X8_first_free_bay two_bay_yard 3001
                          "train_1001_p7m2c4v8b" second_arrival_engine _
                          Ht eq_refl)
                   ["IL1"] "IL2" [] _ eq_refl Hbefore Hb eq_refl _)).
  discriminate.
Defined.

(** X9: a bay that is not free is never taken over: whatever train
    [autoAssignToInspection] or [assignTrainToInspection] is called for, the
    record of such a bay stays as it is; and [assignTrainToInspection] leaves
    the whole engine as it is when the train or the bay is missing or the bay
    is not free. *)
Theorem X9_inspection_exclusive (definition : YardDefinition) (now : Z)
    (trainId bayId : string) (e : Engine) :
  (oget trainId (trains (state e)) = None \/ bay_unavailable (state e) bayId ->
   assignTrainToInspection now trainId bayId e = e) /\
  (forall k b,
     oget k (inspectionBays (state e)) = Some b ->
     bay_status b <> bay_free ->
     oget k (inspectionBays (state (assignTrainToInspection now trainId bayId e)))
     = Some b /\
     oget k (inspectionBays
               (state (autoAssignToInspection definition now trainId e)))
     = Some b).
Proof.
  assert (forall target k b,
     oget k (inspectionBays (state e)) = Some b ->
     bay_status b <> bay_free ->
     oget k (inspectionBays
               (state (assignTrainToInspection now trainId target e)))
     = Some b) as Hassign.
  { intros target k b Hk Hb. unfold assignTrainToInspection.
    destruct (oget trainId _); [|exact Hk].
    destruct (oget target (inspectionBays (state e))) as [bay|] eqn:Et;
      [|exact Hk].
    destruct (decide (bay_status bay = bay_free)) as [Hf|Hf].
    - rewrite bool_decide_eq_true_2 by exact Hf. simpl.
      rewrite oget_oset_ne; [exact Hk|]. intros <-. congruence.
    - rewrite bool_decide_eq_false_2 by exact Hf. exact Hk. }
  split.
  - intros [Hn|Hu]; unfold assignTrainToInspection.
    + rewrite Hn. reflexivity.
    + destruct (oget trainId _); [|reflexivity].
      destruct (oget bayId _) as [bay|] eqn:Eb; [|reflexivity].
      rewrite bool_decide_eq_false_2 by (apply Hu, Eb). reflexivity.
  - intros k b Hk Hb. split; [apply Hassign; assumption|].
    unfold autoAssignToInspection.
    destruct (oget trainId _); [|exact Hk].
    destruct (negb _); [exact Hk|].
    destruct (truthy _); [apply Hassign; assumption|exact Hk].
Qed.

Lemma X9_inspection_exclusive_witness :
  exists b,
    oget "IL1" (inspectionBays (state second_arrival_engine)) = Some b /\
    bay_status b <> bay_free /\
    assignTrainToInspection 3001 "train_1001_p7m2c4v8b" "IL1"
      second_arrival_engine = second_arrival_engine /\
    oget "IL1"
      (inspectionBays
         (state (autoAssignToInspection two_bay_yard 3001
                   "train_1001_p7m2c4v8b" second_arrival_engine)))
    = Some b.
Proof.
  assert (Hk : oget "IL1" (inspectionBays (state second_arrival_engine))
               = Some (mkInspectionBay "IL1" "IL-1" "IL1"
                         (Some "train_1000_k3j9x0q2a") (Some 3000)
                         (5 * 60 * 1000) bay_occupied))
    by (vm_compute; reflexivity).
  assert (Hb : bay_status (mkInspectionBay "IL1" "IL-1" "IL1"
                             (Some "train_1000_k3j9x0q2a") (Some 3000)
                             (5 * 60 * 1000) bay_occupied) <> bay_free)
    by discriminate.
  eexists. split; [exact Hk|]. split; [exact Hb|].
  destruct (X9_inspection_exclusive two_bay_yard 3001 "train_1001_p7m2c4v8b"
              "IL1" second_arrival_engine) as [Hrefuse Hkeep].
  split.
  - apply Hrefuse. right. intros b0 Hb0. rewrite Hk in Hb0.
    injection Hb0 as <-. exact Hb.
  - apply (Hkeep _ _ Hk Hb).
Defined.

(** ** Ranking of recommendations *)

Lemma score_gtb_spec (y x : AssignmentRecommendation) (p q : Q) :
  score y = Some p -> score x = Some q ->
  (score_gtb y x = true <-> (q < p)%Q).
Proof.
  intros Hy Hx. unfold score_gtb. rewrite Hy, Hx.
  rewrite negb_true_iff. split.
  - intros H. apply Qnot_le_lt. intros Hle. apply Qle_bool_iff in Hle.
    congruence.
  - intros Hlt. destruct (Qle_bool p q) eqn:E; [|reflexivity].
    apply Qle_bool_iff in E. exfalso. apply (Qlt_not_le _ _ Hlt E).
Qed.

Lemma ranks_before_trans a b c :
  ranks_before a b -> ranks_before b c -> ranks_before a c.
Proof.
  unfold ranks_before, num_le.
  destruct (score a), (score b), (score c); try tauto.
  intros H1 H2. eapply Qle_trans; eassumption.
Qed.

Lemma sort_insert_sorted x l :
  is_Some (score x) -> Forall (fun r => is_Some (score r)) l ->
  StronglySorted ranks_before l ->
  StronglySorted ranks_before (sort_insert x l).
Proof.
  intros [q Hx] Hall Hsorted.
  induction Hsorted as [|y l Hl IH Hy]; simpl.
  - constructor; constructor.
  - apply Forall_cons in Hall as [[p Hp] Hall].
    destruct (score_gtb y x) eqn:E.
    + apply (score_gtb_spec y x p q Hp Hx) in E.
      constructor; [apply IH, Hall|].
      rewrite sort_insert_perm. constructor; [|exact Hy].
      unfold ranks_before. rewrite Hx, Hp. simpl. apply Qlt_le_weak, E.
    + assert (ranks_before x y) as Hxy.
      { unfold ranks_before. rewrite Hx, Hp. simpl.
        apply Qnot_lt_le. intros Hlt.
        apply (score_gtb_spec y x p q Hp Hx) in Hlt. congruence. }
      constructor; [constructor; assumption|].
      constructor; [exact Hxy|].
      eapply Forall_impl; [exact Hy|].
      intros z Hz. eapply ranks_before_trans; eassumption.
Qed.

Lemma sort_by_score_sorted l :
  Forall (fun r => is_Some (score r)) l ->
  StronglySorted ranks_before (sort_by_score l).
Proof.
  unfold sort_by_score. induction 1 as [|x l Hx Hl IH]; simpl.
  - constructor.
  - apply sort_insert_sorted; [exact Hx| |exact IH].
    fold (sort_by_score l). rewrite sort_by_score_perm. exact Hl.
Qed.

(** The sort is stable: recommendations of equal score keep their order. *)
Lemma sort_insert_stable (c : Q) x l :
  filter (fun r => same_score c r = true) (sort_insert x l)
  = filter (fun r => same_score c r = true) (x :: l).
Proof.
  induction l as [|y l IH]; simpl; [reflexivity|].
  destruct (score_gtb y x) eqn:E; [|reflexivity].
  rewrite (filter_cons _ y), IH, !filter_cons.
  destruct (decide (same_score c y = true)) as [Hy|Hy];
    destruct (decide (same_score c x = true)) as [Hx|Hx]; try reflexivity.
  exfalso. unfold same_score, score_gtb in *.
  destruct (score y) as [p|]; [|discriminate].
  destruct (score x) as [q|]; [|discriminate].
  apply Qeq_bool_eq in Hy, Hx. apply negb_true_iff in E.
  assert (Qle_bool p q = true) as Hle
    by (apply Qle_bool_iff; rewrite Hy, Hx; apply Qle_refl).
  congruence.
Qed.

Lemma sort_by_score_stable (c : Q) l :
  filter (fun r => same_score c r = true) (sort_by_score l)
  = filter (fun r => same_score c r = true) l.
Proof.
  unfold sort_by_score. induction l as [|x l IH]; simpl; [reflexivity|].
  rewrite sort_insert_stable, !filter_cons. fold (sort_by_score l).
  unfold sort_by_score. rewrite IH. reflexivity.
Qed.

Lemma flat_map_filter {A B} (p : A -> bool) (g : A -> B) (l : list A) :
  flat_map (fun a => if p a then [g a] else []) l
  = g <$> filter (fun a => p a = true) l.
Proof.
  induction l as [|a l IH]; simpl; [reflexivity|].
  rewrite filter_cons. destruct (decide (p a = true)) as [E|E].
  - rewrite E. simpl. rewrite IH. reflexivity.
  - apply not_true_is_false in E. rewrite E. exact IH.
Qed.

Lemma generateSidingRecommendations_take trainId st train :
  oget trainId (trains st) = Some train ->
  generateSidingRecommendations trainId st
  = take 5 (sort_by_score (siding_candidates train st)).
Proof.
  intros Ht. unfold generateSidingRecommendations, siding_candidates.
  rewrite Ht. rewrite <- flat_map_filter. reflexivity.
Qed.

Lemma generateWorkshopRecommendations_sort trainId st train :
  oget trainId (trains st) = Some train ->
  generateWorkshopRecommendations trainId st
  = sort_by_score (workshop_candidates_of train st).
Proof.
  intros Ht. unfold generateWorkshopRecommendations, workshop_candidates_of.
  rewrite Ht. rewrite <- flat_map_filter. f_equal.
  apply flat_map_ext. intros ws. unfold eligible_line.
  destruct (negb (truthy _)); [|reflexivity].
  destruct (_ && _); reflexivity.
Qed.

Lemma calculateSidingScore_is_Some train s :
  (priority train = true -> is_Some (parseInt (substring1 (sidingId s)))) ->
  is_Some (calculateSidingScore train s).
Proof.
  intros Hn.
  assert (exists n, priority train = true ->
                    parseInt (substring1 (sidingId s)) = Some n) as [n Hn'].
  { destruct (priority train); [|exists 0; intros H; discriminate H].
    destruct (Hn eq_refl) as [n ->]. exists n. reflexivity. }
  destruct (calculateSidingScore_sum train s n Hn') as (q & -> & _). eauto.
Qed.

(** X10: for a plain id that is no train, [generateSidingRecommendations]
    returns nothing.  For a registered train it returns the first five of an
    arrangement of the recommendations of the unoccupied slots, each slot
    once: every returned recommendation is the one of an unoccupied slot.
    When every score is a number (the train is not priority, or every
    sidingId carries a number) the list is in descending order of score, the
    arrangement leaves slots of equal score in registry order, and every
    unoccupied slot left out scores no higher than each returned one. *)
Theorem X10_siding_recommendations (trainId : string) (st : YardState) :
  (plain trainId = true -> oget trainId (trains st) = None ->
   generateSidingRecommendations trainId st = []) /\
  (forall train, oget trainId (trains st) = Some train ->
     let recs := generateSidingRecommendations trainId st in
     (length recs <= 5)%nat /\
     (forall r, r ∈ recs ->
        exists s, s ∈ Object_values (sidingSlots st) /\
                  truthy (sl_occupiedBy s) = false /\
                  r = siding_recommendation train s) /\
     (exists ranked,
        recs = take 5 ranked /\ ranked ≡ₚ siding_candidates train st) /\
     ((priority train = true ->
       forall s, s ∈ Object_values (sidingSlots st) ->
                 is_Some (parseInt (substring1 (sidingId s)))) ->
      StronglySorted ranks_before recs /\
      (exists ranked,
         recs = take 5 ranked /\
         ranked ≡ₚ siding_candidates train st /\
         forall c, filter (fun r => same_score c r = true) ranked
                   = filter (fun r => same_score c r = true)
                       (siding_candidates train st)) /\
      forall s, s ∈ Object_values (sidingSlots st) ->
        truthy (sl_occupiedBy s) = false ->
        siding_recommendation train s ∈ recs \/
        forall r, r ∈ recs -> ranks_before r (siding_recommendation train s))).
Proof.
  split.
  - intros _ Hn. unfold generateSidingRecommendations. rewrite Hn. reflexivity.
  - intros train Ht recs. subst recs.
    rewrite (generateSidingRecommendations_take _ _ _ Ht).
    set (ranked := sort_by_score (siding_candidates train st)).
    assert (ranked ≡ₚ siding_candidates train st) as Hperm
      by apply sort_by_score_perm.
    assert (forall r, r ∈ siding_candidates train st <->
              exists s, s ∈ Object_values (sidingSlots st) /\
                        truthy (sl_occupiedBy s) = false /\
                        r = siding_recommendation train s) as Hcand.
    { intros r. unfold siding_candidates. rewrite list_elem_of_fmap.
      split.
      - intros (s & -> & Hs). apply list_elem_of_filter in Hs as [Hf Hs].
        exists s. split; [exact Hs|]. split; [|reflexivity].
        unfold free_slot in Hf. apply negb_true_iff in Hf. exact Hf.
      - intros (s & Hs & Hf & ->). exists s. split; [reflexivity|].
        apply list_elem_of_filter. split; [|exact Hs].
        unfold free_slot. rewrite Hf. reflexivity. }
    split; [rewrite length_take; lia|]. split; [|split].
    + intros r Hr. apply Hcand. rewrite <- Hperm.
      apply (subseteq_take 5 ranked), Hr.
    + exists ranked. split; [reflexivity|exact Hperm].
    + intros Hnum.
      assert (StronglySorted ranks_before ranked) as Hsorted.
      { apply sort_by_score_sorted. apply Forall_forall. intros r Hr.
        apply Hcand in Hr as (s & Hs & _ & ->). simpl.
        apply calculateSidingScore_is_Some. intros Hp. apply (Hnum Hp s Hs). }
      rewrite <- (take_drop 5 ranked) in Hsorted. split; [|split].
      * apply (StronglySorted_app_1_l _ _ _ Hsorted).
      * exists ranked. split; [reflexivity|]. split; [exact Hperm|].
        intros c. apply sort_by_score_stable.
      * intros s Hs Hf.
        assert (siding_recommendation train s ∈ take 5 ranked ++ drop 5 ranked)
          as Hin.
        { rewrite take_drop, Hperm. apply Hcand. eauto. }
        apply elem_of_app in Hin as [Hin|Hin]; [left; exact Hin|right].
        intros r Hr.
        apply (StronglySorted_app_1_elem_of _ _ _ _ _ Hsorted Hr Hin).
Qed.

Lemma X10_siding_recommendations_witness :
  oget "train_0_y" (trains ranking_state) = Some priority_train /\
  (priority priority_train = true ->
   forall s, s ∈ Object_values (sidingSlots ranking_state) ->
             is_Some (parseInt (substring1 (sidingId s)))) /\
  map targetId (generateSidingRecommendations "train_0_y" ranking_state)
  = ["S1a"; "S1b"; "S9b"] /\
  StronglySorted ranks_before
    (generateSidingRecommendations "train_0_y" ranking_state).
Proof.
  assert (Ht : oget "train_0_y" (trains ranking_state) = Some priority_train)
    by reflexivity.
  assert (Hnum : priority priority_train = true ->
            forall s, s ∈ Object_values (sidingSlots ranking_state) ->
                      is_Some (parseInt (substring1 (sidingId s)))).
  { intros _ s Hs. apply list_elem_of_In in Hs. simpl in Hs.
    destruct Hs as [<-|[<-|[<-|[<-|[]]]]]; vm_compute; eauto. }
  split; [exact Ht|]. split; [exact Hnum|]. split; [vm_compute; reflexivity|].
  exact (proj1 (proj2 (proj2 (proj2
           (proj2 (X10_siding_recommendations "train_0_y" ranking_state)
              priority_train Ht))) Hnum)).
Defined.

Lemma calculateWorkshopScore_values train ws :
  exists q, calculateWorkshopScore train ws = Some q /\
            (q == 100 \/ q == 110 \/ q == 150 \/ q == 160)%Q.
Proof.
  unfold calculateWorkshopScore. eexists. split; [reflexivity|].
  destruct (_ && _), (_ && _);
    first [ left; reflexivity
          | right; left; reflexivity
          | right; right; left; reflexivity
          | right; right; right; reflexivity ].
Qed.

(** X11: for a plain id that is no train, [generateWorkshopRecommendations]
    returns nothing.  For a registered train it returns one recommendation
    for each unoccupied line that the train may use (any line, or only a line
    specialised in wheel alignment when the train has that failure) and no
    other; the list is in descending order of score, lines of equal score
    stay in registry order, and every score is 100, 110, 150 or 160. *)
Theorem X11_workshop_recommendations (trainId : string) (st : YardState) :
  (plain trainId = true -> oget trainId (trains st) = None ->
   generateWorkshopRecommendations trainId st = []) /\
  (forall train, oget trainId (trains st) = Some train ->
     let recs := generateWorkshopRecommendations trainId st in
     recs ≡ₚ workshop_candidates_of train st /\
     (forall r, r ∈ recs <->
        exists ws, ws ∈ Object_values (workshopLines st) /\
                   truthy (ws_occupiedBy ws) = false /\
                   ("wheel-alignment" ∈ failures train ->
                    specialization ws = Some "wheel-alignment") /\
                   r = workshop_recommendation train ws) /\
     StronglySorted ranks_before recs /\
     (forall c, filter (fun r => same_score c r = true) recs
                = filter (fun r => same_score c r = true)
                    (workshop_candidates_of train st)) /\
     (forall r, r ∈ recs ->
        exists q, score r = Some q /\
                  (q == 100 \/ q == 110 \/ q == 150 \/ q == 160)%Q)).
Proof.
  split.
  - intros _ Hn. unfold generateWorkshopRecommendations. rewrite Hn.
    reflexivity.
  - intros train Ht recs. subst recs.
    rewrite (generateWorkshopRecommendations_sort _ _ _ Ht).
    assert (forall r, r ∈ workshop_candidates_of train st <->
        exists ws, ws ∈ Object_values (workshopLines st) /\
                   truthy (ws_occupiedBy ws) = false /\
                   ("wheel-alignment" ∈ failures train ->
                    specialization ws = Some "wheel-alignment") /\
                   r = workshop_recommendation train ws) as Hcand.
    { intros r. unfold workshop_candidates_of. rewrite list_elem_of_fmap.
      assert (forall ws, eligible_line train ws = true <->
                truthy (ws_occupiedBy ws) = false /\
                ("wheel-alignment" ∈ failures train ->
                 specialization ws = Some "wheel-alignment")) as Hel.
      { intros ws. unfold eligible_line, includes.
        rewrite andb_true_iff, !negb_true_iff, andb_false_iff,
          negb_false_iff, bool_decide_eq_false, bool_decide_eq_true.
        split; intros [H1 H2]; (split; [exact H1|]).
        - intros Hw. destruct H2 as [H2|H2]; [contradiction|exact H2].
        - destruct (decide ("wheel-alignment" ∈ failures train));
            [right; auto|left; assumption]. }
      split.
      - intros (ws & -> & Hws). apply list_elem_of_filter in Hws as [Hf Hws].
        apply Hel in Hf as [H1 H2]. exists ws. auto.
      - intros (ws & Hws & H1 & H2 & ->). exists ws. split; [reflexivity|].
        apply list_elem_of_filter. split; [|exact Hws]. apply Hel. auto. }
    split; [apply sort_by_score_perm|]. split; [|split; [|split]].
    + intros r. rewrite sort_by_score_perm. apply Hcand.
    + apply sort_by_score_sorted. apply Forall_forall. intros r Hr.
      apply Hcand in Hr as (ws & _ & _ & _ & ->). simpl. eauto.
    + intros c. apply sort_by_score_stable.
    + intros r Hr. rewrite sort_by_score_perm in Hr.
      apply Hcand in Hr as (ws & _ & _ & _ & ->).
      apply calculateWorkshopScore_values.
Qed.

Lemma X11_workshop_recommendations_witness :
  exists train,
    oget "train_1000_k3j9x0q2a" (trains (state one_train_engine)) = Some train /\
    map targetId (generateWorkshopRecommendations "train_1000_k3j9x0q2a"
                    (state one_train_engine)) = ["WL1"; "WL4"] /\
    StronglySorted ranks_before
      (generateWorkshopRecommendations "train_1000_k3j9x0q2a"
         (state one_train_engine)).
Proof.
  eexists.
  assert (Ht : oget "train_1000_k3j9x0q2a" (trains (state one_train_engine))
               = Some (mkTrain "train_1000_k3j9x0q2a" "T1" arriving "E1" east
                         50 25000 [] [] false false 1000 1000))
    by (vm_compute; reflexivity).
  split; [exact Ht|]. split; [vm_compute; reflexivity|].
  exact (proj1 (proj2 (proj2
           (proj2 (X11_workshop_recommendations "train_1000_k3j9x0q2a"
                     (state one_train_engine)) _ Ht)))).
Defined.

Lemma oget_Object_values {V} (k : string) (v : V) (m : object V) :
  oget k m = Some v -> v ∈ Object_values m.
Proof.
  unfold Object_values. induction m as [|[k' v'] m IH]; simpl; [discriminate|].
  destruct (decide (k = k')).
  - intros [= ->]. apply list_elem_of_here.
  - intros H. apply list_elem_of_further, IH, H.
Qed.

(** X12: in a reachable state, for a train with a wheel-alignment failure
    while line WL4 is unoccupied, [generateWorkshopRecommendations] returns
    exactly one recommendation: line WL4 with score 150. *)
Theorem X12_wheel_alignment_line (definition : YardDefinition) (e : Engine)
    (trainId : string) (train : Train) (ws : WorkshopLine) :
  reachable definition e ->
  oget trainId (trains (state e)) = Some train ->
  "wheel-alignment" ∈ failures train ->
  oget "WL4" (workshopLines (state e)) = Some ws ->
  ws_occupiedBy ws = None ->
  generateWorkshopRecommendations trainId (state e)
  = [workshop_recommendation train ws] /\
  targetId (workshop_recommendation train ws) = "WL4" /\
  score (workshop_recommendation train ws) = Some 150%Q.
Proof.
  intros He Ht Hfail Hws Hfree.
  destruct (reachable_invariant definition e He) as (_ & [Hnd Hw] & _ & _).
  destruct (reachable_built definition e He) as (_ & _ & Hl & _).
  destruct (Hl _ _ Hws) as [(Hid & _ & _ & Hsp) _]. simpl in Hsp.
  assert (workshop_recommendation train ws
          ∈ generateWorkshopRecommendations trainId (state e)) as Hin.
  { rewrite (generateWorkshopRecommendations_sort _ _ _ Ht),
      sort_by_score_perm.
    unfold workshop_candidates_of. apply list_elem_of_fmap. exists ws.
    split; [reflexivity|]. apply list_elem_of_filter.
    split; [|eapply oget_Object_values; exact Hws].
    unfold eligible_line. rewrite Hfree, Hsp.
    rewrite bool_decide_eq_true_2 by reflexivity.
    simpl. rewrite andb_false_r. reflexivity. }
  assert (length (generateWorkshopRecommendations trainId (state e)) <= 1)%nat
    as Hlen.
  { unfold generateWorkshopRecommendations. rewrite Ht.
    rewrite sort_by_score_perm.
    assert (includes "wheel-alignment" (failures train) = true) as Hinc
      by (apply bool_decide_eq_true_2, Hfail).
    rewrite Hinc.
    apply (flat_map_single_key "WL4"); [exact Hnd| |].
    - intros k w Hkw Hne.
      apply (Hw k w (oget_NoDup _ _ _ Hnd Hkw)).
      destruct (truthy _); [contradiction|].
      destruct (decide (specialization w = Some "wheel-alignment"));
        [assumption|].
      rewrite bool_decide_eq_false_2 in Hne by assumption. contradiction.
    - intros w. destruct (truthy _); simpl; [lia|].
      destruct (negb _); simpl; lia. }
  split; [|split].
  - destruct (generateWorkshopRecommendations trainId (state e))
      as [|r [|r' rest]]; simpl in Hlen.
    + apply elem_of_nil in Hin as [].
    + apply list_elem_of_singleton in Hin as <-. reflexivity.
    + lia.
  - exact Hid.
  - unfold workshop_recommendation, calculateWorkshopScore. simpl.
    rewrite Hsp, Hid.
    assert (includes "wheel-alignment" (failures train) = true) as ->
      by (apply bool_decide_eq_true_2, Hfail).
    simpl. rewrite andb_false_r. reflexivity.
Qed.

Lemma X12_wheel_alignment_line_witness :
  exists train ws,
    reachable sample_yard wheel_engine /\
    oget "train_1000_k3j9x0q2a" (trains (state wheel_engine)) = Some train /\
    "wheel-alignment" ∈ failures train /\
    oget "WL4" (workshopLines (state wheel_engine)) = Some ws /\
    ws_occupiedBy ws = None /\
    generateWorkshopRecommendations "train_1000_k3j9x0q2a" (state wheel_engine)
    = [workshop_recommendation train ws].
Proof.
  eexists. eexists.
  assert (Ht : oget "train_1000_k3j9x0q2a" (trains (state wheel_engine))
               = Some (mkTrain "train_1000_k3j9x0q2a" "KM-12" arriving "E1"
                         east 85 25000
                         [mkJobTask "1" "Brake system check" false]
                         ["wheel-alignment"] true true 1000 1000))
    by (vm_compute; reflexivity).
  assert (Hw : oget "WL4" (workshopLines (state wheel_engine))
               = Some (mkWorkshopLine "WL4" "WL-4" "WL4" None
                         (Some "wheel-alignment") 1 line_free))
    by (vm_compute; reflexivity).
  assert (Hf : "wheel-alignment" ∈ ["wheel-alignment"])
    by apply list_elem_of_here.
  split; [apply reachable_wheel_engine|]. split; [exact Ht|].
  split; [exact Hf|]. split; [exact Hw|]. split; [reflexivity|].
  exact (proj1 (X12_wheel_alignment_line sample_yard wheel_engine
                  "train_1000_k3j9x0q2a" _ _ reachable_wheel_engine Ht Hf Hw
                  eq_refl)).
Defined.

(** ** Claiming and releasing *)

Lemma oset_oset {V} (k : string) (v v' : V) (m : object V) :
  oset k v' (oset k v m) = oset k v' m.
Proof.
  induction m as [|[k0 v0] m IH]; simpl.
  - destruct (decide (k = k)); [reflexivity|contradiction].
  - destruct (decide (k = k0)) as [->|Hne]; simpl.
    + destruct (decide (k0 = k0)); [reflexivity|contradiction].
    + destruct (decide (k = k0)); [contradiction|]. f_equal. exact IH.
Qed.

Lemma oset_same {V} (k : string) (v : V) (m : object V) :
  oget k m = Some v -> oset k v m = m.
Proof.
  induction m as [|[k0 v0] m IH]; simpl; [discriminate|].
  destruct (decide (k = k0)) as [->|Hne].
  - intros [= ->]. reflexivity.
  - intros H. f_equal. apply IH, H.
Qed.

Lemma bay_released_claimed trainId now b :
  bay_status b = bay_free -> bay_occupiedBy b = None ->
  inspectionStartTime b = None ->
  bay_released (bay_claimed trainId now b) = b.
Proof. destruct b. simpl. intros -> -> ->. reflexivity. Qed.

Lemma line_released_claimed trainId w :
  ws_status w = line_free -> ws_occupiedBy w = None ->
  line_released (line_claimed trainId w) = w.
Proof. destruct w. simpl. intros -> ->. reflexivity. Qed.

Lemma completeInspection_bays definition now random trainId bayId e train bay :
  trains_wf (trains (state e)) ->
  oget trainId (trains (state e)) = Some train ->
  oget bayId (inspectionBays (state e)) = Some bay ->
  bay_occupiedBy bay = Some trainId ->
  inspectionBays
    (state (completeInspection definition now random trainId bayId e))
  = oset bayId (bay_released bay) (inspectionBays (state e)).
Proof.
  intros Hwf Ht Hb Ho. unfold completeInspection. rewrite Ht, Hb.
  rewrite bool_decide_eq_true_2 by exact Ho. simpl.
  rewrite processQueuedTrains_idle.
  - destruct (negb (Qle_bool _ random)).
    + destruct (negb (priority _) && negb (departSoon _));
        [destruct (generateSidingRecommendations _ _)|]; reflexivity.
    + destruct (generateWorkshopRecommendations _ _); reflexivity.
  - assert (trains_wf
              (oset trainId
                 (train_moved_to moving (locationNodeId train) now train)
                 (trains (state e)))) as Hwf'
      by (eapply trains_wf_update; [exact Hwf|exact Ht|reflexivity]).
    destruct (negb (Qle_bool _ random)).
    + destruct (negb (priority _) && negb (departSoon _));
        [destruct (generateSidingRecommendations _ _)|]; exact Hwf'.
    + destruct (generateWorkshopRecommendations _ _); exact Hwf'.
Qed.

(** X13: claiming a free resource for a train and then completing gives the
    resource back as it was.  In a reachable state, [assignTrainToInspection]
    on a free bay followed by [completeInspection] for the same train and bay
    leaves the registry of bays as before the assignment, and
    [assignTrainToWorkshop] on an unoccupied line followed by
    [completeWorkshop] leaves the registry of lines as before. *)
Theorem X13_claim_then_release (definition : YardDefinition) (e : Engine)
    (now now' : Z) (random : Q) (trainId target : string) (train : Train) :
  reachable definition e ->
  oget trainId (trains (state e)) = Some train ->
  (forall bay,
     oget target (inspectionBays (state e)) = Some bay ->
     bay_status bay = bay_free ->
     inspectionBays
       (state (completeInspection definition now' random trainId target
                 (assignTrainToInspection now trainId target e)))
     = inspectionBays (state e)) /\
  (forall ws,
     oget target (workshopLines (state e)) = Some ws ->
     ws_occupiedBy ws = None ->
     workshopLines
       (state (completeWorkshop now' trainId target
                 (assignTrainToWorkshop now trainId target e)))
     = workshopLines (state e)).
Proof.
  intros He Ht.
  destruct (reachable_invariant definition e He) as (Hwf & _).
  destruct (reachable_built definition e He) as (_ & Hb & Hl & _).
  split.
  - intros bay Hbay Hfree.
    destruct (Hb _ _ Hbay) as [_ [(_ & Ho & Hs)|(Hocc & _)]];
      [|congruence].
    assert (assignTrainToInspection now trainId target e
            = setTimeout (CbCompleteInspection trainId target)
                (inspectionDuration bay * simulationSpeed (state e))
                (emitEvent now train_moved (Some trainId)
                   ("Train " +:+ t_number train +:+ " moved to "
                      +:+ bay_name bay +:+ " for inspection")
                   sev_info (Some (DataMove "E1" target))
                   (with_inspectionBays
                      (oset target (bay_claimed trainId now bay))
                      (with_trains
                         (oset trainId
                            (train_moved_to inspection target now train))
                         e)))) as ->.
    { unfold assignTrainToInspection. rewrite Ht, Hbay.
      rewrite bool_decide_eq_true_2 by exact Hfree. reflexivity. }
    erewrite completeInspection_bays.
    + simpl. rewrite oset_oset.
      rewrite (bay_released_claimed trainId now bay Hfree Ho Hs).
      apply oset_same, Hbay.
    + simpl. eapply trains_wf_update; [exact Hwf|exact Ht|reflexivity].
    + simpl. apply oget_oset_eq.
    + simpl. apply oget_oset_eq.
    + reflexivity.
  - intros ws Hws Hfree.
    destruct (Hl _ _ Hws) as [_ [(Hst & _)|(_ & [x Hx])]]; [|congruence].
    unfold assignTrainToWorkshop. rewrite Ht, Hws, Hfree. simpl.
    unfold completeWorkshop. simpl. rewrite !oget_oset_eq.
    rewrite bool_decide_eq_true_2 by reflexivity. simpl.
    assert (oset target (line_released (line_claimed trainId ws))
              (oset target (line_claimed trainId ws)
                 (workshopLines (state e)))
            = workshopLines (state e)) as Hback.
    { rewrite oset_oset, (line_released_claimed trainId ws Hst Hfree).
      apply oset_same, Hws. }
    destruct (generateSidingRecommendations _ _); simpl; exact Hback.
Qed.

Lemma reachable_one_train_engine : reachable sample_yard one_train_engine.
Proof. apply reachable_run; [apply reachable_sample_engine|reflexivity]. Qed.

Lemma X13_claim_then_release_witness :
  exists train bay ws,
    reachable sample_yard one_train_engine /\
    oget "train_1000_k3j9x0q2a" (trains (state one_train_engine)) = Some train /\
    oget "IL1" (inspectionBays (state one_train_engine)) = Some bay /\
    bay_status bay = bay_free /\
    oget "WL1" (workshopLines (state one_train_engine)) = Some ws /\
    ws_occupiedBy ws = None /\
    inspectionBays
      (state (completeInspection sample_yard 303000 0.5
                "train_1000_k3j9x0q2a" "IL1"
                (assignTrainToInspection 3000 "train_1000_k3j9x0q2a" "IL1"
                   one_train_engine)))
    = inspectionBays (state one_train_engine) /\
    workshopLines
      (state (completeWorkshop 11500 "train_1000_k3j9x0q2a" "WL1"
                (assignTrainToWorkshop 1500 "train_1000_k3j9x0q2a" "WL1"
                   one_train_engine)))
    = workshopLines (state one_train_engine).
Proof.
  eexists. eexists. eexists.
  assert (Ht : oget "train_1000_k3j9x0q2a" (trains (state one_train_engine))
               = Some (mkTrain "train_1000_k3j9x0q2a" "T1" arriving "E1" east
                         50 25000 [] [] false false 1000 1000))
    by (vm_compute; reflexivity).
  assert (Hb : oget "IL1" (inspectionBays (state one_train_engine))
               = Some (mkInspectionBay "IL1" "IL-1" "IL1" None None
                         (5 * 60 * 1000) bay_free))
    by (vm_compute; reflexivity).
  assert (Hw : oget "WL1" (workshopLines (state one_train_engine))
               = Some (mkWorkshopLine "WL1" "WL-1" "WL1" None None 1 line_free))
    by (vm_compute; reflexivity).
  split; [apply reachable_one_train_engine|]. split; [exact Ht|].
  split; [exact Hb|]. split; [reflexivity|]. split; [exact Hw|].
  split; [reflexivity|].
  split.
  - exact (proj1 (X13_claim_then_release sample_yard one_train_engine 3000
                    303000 0.5 "train_1000_k3j9x0q2a" "IL1" _
                    reachable_one_train_engine Ht) _ Hb eq_refl).
  - exact (proj2 (X13_claim_then_release sample_yard one_train_engine 1500
                    11500 0.5 "train_1000_k3j9x0q2a" "WL1" _
                    reachable_one_train_engine Ht) _ Hw eq_refl).
Defined.

(** ** After a completion *)

Lemma siding_recommendation_flags t t' s :
  priority t' = priority t -> departSoon t' = departSoon t ->
  siding_recommendation t' s = siding_recommendation t s.
Proof.
  intros Hp Hd.
  unfold siding_recommendation, calculateSidingScore, generateSidingReasoning,
    generateSidingWarnings.
  rewrite Hp, Hd. reflexivity.
Qed.

Lemma workshop_recommendation_flags t t' ws :
  priority t' = priority t -> failures t' = failures t ->
  workshop_recommendation t' ws = workshop_recommendation t ws.
Proof.
  intros Hp Hf.
  unfold workshop_recommendation, calculateWorkshopScore,
    generateWorkshopReasoning.
  rewrite Hp, Hf. reflexivity.
Qed.

(** The recommendations read the flags of the train and the registry of the
    targets, nothing else. *)
Lemma generateSidingRecommendations_same trainId st st' t t' :
  oget trainId (trains st) = Some t ->
  oget trainId (trains st') = Some t' ->
  priority t' = priority t -> departSoon t' = departSoon t ->
  sidingSlots st' = sidingSlots st ->
  generateSidingRecommendations trainId st'
  = generateSidingRecommendations trainId st.
Proof.
  intros Ht Ht' Hp Hd Hs. unfold generateSidingRecommendations.
  rewrite Ht, Ht', Hs. do 2 f_equal. apply flat_map_ext. intros s.
  rewrite (siding_recommendation_flags t t' s Hp Hd). reflexivity.
Qed.

Lemma generateWorkshopRecommendations_same trainId st st' t t' :
  oget trainId (trains st) = Some t ->
  oget trainId (trains st') = Some t' ->
  priority t' = priority t -> failures t' = failures t ->
  workshopLines st' = workshopLines st ->
  generateWorkshopRecommendations trainId st'
  = generateWorkshopRecommendations trainId st.
Proof.
  intros Ht Ht' Hp Hf Hs. unfold generateWorkshopRecommendations.
  rewrite Ht, Ht', Hs, Hf. f_equal. apply flat_map_ext. intros ws.
  rewrite (workshop_recommendation_flags t t' ws Hp Hf). reflexivity.
Qed.

Lemma init_sidingSlots_NoDup definition ids acc m :
  init_sidingSlots definition ids acc = Some m ->
  NoDup (Object_keys acc) -> NoDup (Object_keys m).
Proof.
  revert acc. induction ids as [|nodeId ids IH]; intros acc; simpl.
  - intros [= <-] H. exact H.
  - destruct (oget nodeId (nodes definition)) as [node|]; [|discriminate].
    simpl. destruct (n_metadata node).
    + intros Hm Hnd. apply (IH _ Hm). apply NoDup_keys_oset, Hnd.
    + apply IH.
Qed.

Lemma reachable_slot_keys definition e :
  reachable definition e -> NoDup (Object_keys (sidingSlots (state e))).
Proof.
  induction 1 as [e Hnew|a e Hreach IH Hok].
  - revert Hnew. unfold newYardSimulator, initializeState.
    destruct (init_inspectionBays definition _ 0 []); [|discriminate].
    destruct (init_workshopLines definition _ 0 []); [|discriminate].
    destruct (init_sidingSlots definition _ []) as [slots|] eqn:Es;
      [|discriminate].
    simpl. intros [= <-]. simpl.
    apply (init_sidingSlots_NoDup _ _ _ _ Es). apply NoDup_nil_2.
  - rewrite (entries_keys _ _ _ (ev_slots _ _ (evolves_perform definition a e))).
    exact IH.
Qed.

(** In a reachable state a recommended slot is registered under the target
    of its recommendation and is unoccupied. *)
Lemma recommended_slot definition e trainId train r :
  reachable definition e ->
  oget trainId (trains (state e)) = Some train ->
  r ∈ generateSidingRecommendations trainId (state e) ->
  exists s, oget (targetId r) (sidingSlots (state e)) = Some s /\
            truthy (sl_occupiedBy s) = false.
Proof.
  intros He Ht Hr.
  rewrite (generateSidingRecommendations_take _ _ _ Ht) in Hr.
  apply (subseteq_take 5) in Hr. rewrite sort_by_score_perm in Hr.
  unfold siding_candidates in Hr.
  apply list_elem_of_fmap in Hr as (s & -> & Hs).
  apply list_elem_of_filter in Hs as [Hf Hs].
  apply Object_values_oget in Hs as (k & _ & Hks).
  pose proof (oget_NoDup _ _ _ (reachable_slot_keys definition e He) Hks) as Hk.
  destruct (reachable_built definition e He) as (_ & _ & _ & Hbuilt).
  destruct (Hbuilt k s Hk) as (Hid & _).
  exists s. simpl. rewrite Hid. split; [exact Hk|].
  unfold free_slot in Hf. apply negb_true_iff in Hf. exact Hf.
Qed.




(** X15: an inspection completion that passes its guard sets the train
    moving where it is and frees the bay.  The train passes when the random
    draw is below 0.8 (no recorded failure) or 0.3 (some failure).  A train
    that passes and is neither priority nor departSoon gets one timer for the
    top siding recommendation (none if no slot is unoccupied); a priority or
    departSoon train that passes gets no timer; a train that fails gets one
    timer for the top workshop recommendation whatever its flags (none if no
    line is eligible).  The recommendations are those of the state before the
    call. *)
Theorem X15_inspection_outcome (definition : YardDefinition) (e : Engine)
    (now : Z) (random : Q) (trainId bayId : string) (train : Train)
    (bay : InspectionBay) :
  reachable definition e ->
  oget trainId (trains (state e)) = Some train ->
  oget bayId (inspectionBays (state e)) = Some bay ->
  bay_occupiedBy bay = Some trainId ->
  let e' := completeInspection definition now random trainId bayId e in
  oget trainId (trains (state e'))
  = Some (train_moved_to moving (locationNodeId train) now train) /\
  oget bayId (inspectionBays (state e')) = Some (bay_released bay) /\
  ((random < pass_rate train)%Q ->
   (priority train = false -> departSoon train = false ->
    timers e'
    = timers e
      ++ siding_timer trainId
           (generateSidingRecommendations trainId (state e))) /\
   (priority train = true \/ departSoon train = true ->
    timers e' = timers e)) /\
  ((pass_rate train <= random)%Q ->
   timers e'
   = timers e
     ++ workshop_timer trainId
          (generateWorkshopRecommendations trainId (state e))).
Proof.
  intros He Ht Hb Ho e'.
  destruct (reachable_invariant definition e He) as (Hwf & _).
  assert (trains_wf
            (oset trainId
               (train_moved_to moving (locationNodeId train) now train)
               (trains (state e)))) as Hwf'
    by (eapply trains_wf_update; [exact Hwf|exact Ht|reflexivity]).
  assert (forall st',
            oget trainId (trains st')
            = Some (train_moved_to moving (locationNodeId train) now train) ->
            sidingSlots st' = sidingSlots (state e) ->
            generateSidingRecommendations trainId st'
            = generateSidingRecommendations trainId (state e)) as Hsiding.
  { intros st' Ht' Hs.
    eapply generateSidingRecommendations_same;
      [exact Ht|exact Ht'|reflexivity|reflexivity|exact Hs]. }
  assert (forall st',
            oget trainId (trains st')
            = Some (train_moved_to moving (locationNodeId train) now train) ->
            workshopLines st' = workshopLines (state e) ->
            generateWorkshopRecommendations trainId st'
            = generateWorkshopRecommendations trainId (state e)) as Hshop.
  { intros st' Ht' Hs.
    eapply generateWorkshopRecommendations_same;
      [exact Ht|exact Ht'|reflexivity|reflexivity|exact Hs]. }
  assert ((if 0 <? Z.of_nat (length (failures train)) then 0.3%Q else 0.8%Q)
          = pass_rate train) as Hrate.
  { unfold pass_rate. destruct (failures train); reflexivity. }
  subst e'. unfold completeInspection. rewrite Ht, Hb.
  rewrite bool_decide_eq_true_2 by exact Ho. cbv zeta. rewrite Hrate.
  rewrite Hsiding; [|simpl; apply oget_oset_eq|reflexivity].
  rewrite Hshop; [|simpl; apply oget_oset_eq|reflexivity].
  destruct (Qle_bool (pass_rate train) random) eqn:Epass; simpl negb; cbv iota.
  - apply Qle_bool_iff in Epass.
    rewrite processQueuedTrains_idle
      by (destruct (generateWorkshopRecommendations trainId (state e));
          exact Hwf').
    destruct (generateWorkshopRecommendations trainId (state e)); simpl;
      (split; [apply oget_oset_eq|]); (split; [apply oget_oset_eq|]);
      (split; [intros Hlt; exfalso; apply (Qlt_not_le _ _ Hlt Epass)|]);
      intros _; rewrite ?app_nil_r; reflexivity.
  - assert (~ (pass_rate train <= random)%Q) as Hnot.
    { intros Hle. apply Qle_bool_iff in Hle. congruence. }
    rewrite processQueuedTrains_idle
      by (simpl; destruct (negb (priority train) && negb (departSoon train));
          [destruct (generateSidingRecommendations trainId (state e))|];
          exact Hwf').
    simpl.
    destruct (priority train) eqn:Ep, (departSoon train) eqn:Ed; simpl;
      try destruct (generateSidingRecommendations trainId (state e)); simpl;
      (split; [apply oget_oset_eq|]); (split; [apply oget_oset_eq|]);
      (split; [|intros Hle; contradiction]);
      intros _;
      (split; [intros Hp Hd; try discriminate Hp; try discriminate Hd;
               rewrite ?app_nil_r; reflexivity
              |intros [Hp|Hd]; try discriminate Hp; try discriminate Hd;
               reflexivity]).
Qed.

Lemma X15_inspection_outcome_witness :
  exists train bay,
    reachable sample_yard in_inspection_engine /\
    oget "train_1000_k3j9x0q2a" (trains (state in_inspection_engine))
    = Some train /\
    oget "IL1" (inspectionBays (state in_inspection_engine)) = Some bay /\
    bay_occupiedBy bay = Some "train_1000_k3j9x0q2a" /\
    (pass_rate train <= 0.9)%Q /\
    timers (completeInspection sample_yard 303000 0.9 "train_1000_k3j9x0q2a"
              "IL1" in_inspection_engine)
    = timers in_inspection_engine
      ++ [mkTimer (CbAssignTrainToWorkshop "train_1000_k3j9x0q2a" "WL1") 1000].
Proof.
  eexists. eexists.
  assert (Ht : oget "train_1000_k3j9x0q2a" (trains (state in_inspection_engine))
               = Some (mkTrain "train_1000_k3j9x0q2a" "T1" inspection "IL1"
                         east 50 25000 [] [] false false 1000 3000))
    by (vm_compute; reflexivity).
  assert (Hb : oget "IL1" (inspectionBays (state in_inspection_engine))
               = Some (mkInspectionBay "IL1" "IL-1" "IL1"
                         (Some "train_1000_k3j9x0q2a") (Some 3000)
                         (5 * 60 * 1000) bay_occupied))
    by (vm_compute; reflexivity).
  assert (Hr : (pass_rate (mkTrain "train_1000_k3j9x0q2a" "T1" inspection "IL1"
                             east 50 25000 [] [] false false 1000 3000)
                <= 0.9)%Q)
    by (intros H; discriminate H).
  split; [apply reachable_in_inspection_engine|]. split; [exact Ht|].
  split; [exact Hb|]. split; [reflexivity|]. split; [exact Hr|].
  exact (proj2 (proj2 (proj2 (X15_inspection_outcome sample_yard
           in_inspection_engine 303000 0.9 "train_1000_k3j9x0q2a" "IL1" _ _
           reachable_in_inspection_engine Ht Hb eq_refl))) Hr).
Defined.

(** ** Commands *)

(** X16: what [processCommand] ignores and how it clamps.  A command of a
    type other than create_train, assign_train and speed_change leaves the
    engine as it is; so does assign_train without a train id, with the empty
    train id, without data, or with a target type other than siding and
    workshop; so does speed_change without a speed or with speed 0.  A
    non-zero speed is stored clamped to the interval from 0.1 to 10 (a speed
    inside the interval is stored as given) and nothing else changes.
    create_train without data creates a train from the empty record. *)
Theorem X16_command_edges (rnd : Entropy) (e : Engine) :
  (forall ty trainId data,
     ty <> create_train -> ty <> assign_train -> ty <> speed_change ->
     processCommand rnd (mkCommand ty trainId data) e = e) /\
  (forall trainId data,
     trainId = None \/ trainId = Some "" \/ data = None ->
     processCommand rnd (mkCommand assign_train trainId data) e = e) /\
  (forall trainId target letter,
     processCommand rnd
       (mkCommand assign_train trainId
          (Some (AssignData target target_test letter))) e = e) /\
  (forall trainId,
     processCommand rnd (mkCommand speed_change trainId None) e = e /\
     processCommand rnd (mkCommand speed_change trainId (Some (SpeedData 0))) e
     = e) /\
  (forall trainId speed,
     ~ (speed == 0)%Q ->
     let e' := processCommand rnd
                 (mkCommand speed_change trainId (Some (SpeedData speed))) e in
     e' = with_simulationSpeed (simulationSpeed (state e')) e /\
     speed_in_range (simulationSpeed (state e')) /\
     (speed_in_range speed -> (simulationSpeed (state e') == speed)%Q) /\
     ((speed < 0.1)%Q -> (simulationSpeed (state e') == 0.1)%Q) /\
     ((10 < speed)%Q -> (simulationSpeed (state e') == 10)%Q)) /\
  (forall trainId,
     processCommand rnd (mkCommand create_train trainId None) e
     = snd (enqueueTrain rnd empty_trainData e)).
Proof.
  split; [|split; [|split; [|split; [|split]]]].
  - intros ty trainId data H1 H2 H3. destruct ty; try reflexivity; contradiction.
  - intros trainId data [->|[->| ->]]; unfold processCommand; simpl.
    + destruct data; reflexivity.
    + destruct data; reflexivity.
    + reflexivity.
  - intros trainId target letter. unfold processCommand. simpl.
    destruct (truthy trainId); reflexivity.
  - intros trainId. split; reflexivity.
  - intros trainId speed Hne e'. subst e'. unfold processCommand. simpl.
    destruct (Qeq_bool speed 0) eqn:E;
      [apply Qeq_bool_eq in E; contradiction|].
    simpl. split; [reflexivity|]. split; [apply speed_clamped|].
    split; [|split].
    + intros [Hlo Hhi]. rewrite (Q.min_r 10 speed) by exact Hhi.
      apply Q.max_r, Hlo.
    + intros Hlt. apply Q.max_l.
      apply (Qle_trans _ speed); [apply Q.le_min_r|apply Qlt_le_weak, Hlt].
    + intros Hgt. rewrite (Q.min_l 10 speed) by (apply Qlt_le_weak, Hgt).
      apply Q.max_r. intros H. discriminate H.
  - intros trainId. reflexivity.
Qed.

Lemma X16_command_edges_witness :
  (~ (250 == 0)%Q /\ (10 < 250)%Q) /\
  (simulationSpeed
     (state (processCommand (entropy_at 9000 "z") (speed_command 250)
               sample_engine)) == 10)%Q /\
  processCommand (entropy_at 9000 "z")
    (mkCommand remove_train (Some "train_1000_k3j9x0q2a") None)
    one_train_engine = one_train_engine.
Proof.
  assert (H0 : ~ (250 == 0)%Q) by (intros H; discriminate H).
  assert (H1 : (10 < 250)%Q) by reflexivity.
  destruct (X16_command_edges (entropy_at 9000 "z") sample_engine)
    as (_ & _ & _ & _ & Hspeed & _).
  destruct (X16_command_edges (entropy_at 9000 "z") one_train_engine)
    as (Hother & _).
  split; [split; assumption|]. split.
  - exact (proj2 (proj2 (proj2 (proj2 (Hspeed None 250%Q H0)))) H1).
  - apply Hother; discriminate.
Defined.

(** ** What an operation leaves alone *)

(** X17: an operation touches only its own train and its own target.
    [enqueueTrain] changes no resource and no train other than the one filed
    under the generated id, and adds one pending timer, the arrival timer of
    2000 ms.  The assignments to a siding slot, a workshop line and an
    inspection bay change no train other than [trainId], no resource of their
    kind other than [target], and no resource of the other two kinds. *)
Theorem X17_operations_are_local (rnd : Entropy) (trainData : PartialTrain)
    (now : Z) (trainId target : string) (e : Engine) :
  (let e' := snd (enqueueTrain rnd trainData e) in
   inspectionBays (state e') = inspectionBays (state e) /\
   workshopLines (state e') = workshopLines (state e) /\
   sidingSlots (state e') = sidingSlots (state e) /\
   (forall k, k <> generated_id rnd ->
              oget k (trains (state e')) = oget k (trains (state e))) /\
   timers e'
   = timers e ++ [mkTimer (CbAutoAssignToInspection (generated_id rnd)) 2000]) /\
  (let e' := assignTrainToSiding now trainId target e in
   inspectionBays (state e') = inspectionBays (state e) /\
   workshopLines (state e') = workshopLines (state e) /\
   timers e' = timers e /\
   (forall k, k <> trainId ->
              oget k (trains (state e')) = oget k (trains (state e))) /\
   (forall k, k <> target ->
              oget k (sidingSlots (state e'))
              = oget k (sidingSlots (state e)))) /\
  (let e' := assignTrainToWorkshop now trainId target e in
   inspectionBays (state e') = inspectionBays (state e) /\
   sidingSlots (state e') = sidingSlots (state e) /\
   (forall k, k <> trainId ->
              oget k (trains (state e')) = oget k (trains (state e))) /\
   (forall k, k <> target ->
              oget k (workshopLines (state e'))
              = oget k (workshopLines (state e)))) /\
  (let e' := assignTrainToInspection now trainId target e in
   workshopLines (state e') = workshopLines (state e) /\
   sidingSlots (state e') = sidingSlots (state e) /\
   (forall k, k <> trainId ->
              oget k (trains (state e')) = oget k (trains (state e))) /\
   (forall k, k <> target ->
              oget k (inspectionBays (state e'))
              = oget k (inspectionBays (state e)))).
Proof.
  split; [|split; [|split]]; cbv zeta.
  - simpl. do 3 (split; [reflexivity|]). split; [|reflexivity].
    intros k Hk. apply oget_oset_ne. intros H. apply Hk. symmetry. exact H.
  - unfold assignTrainToSiding.
    destruct (oget trainId _); [|repeat split].
    destruct (oget target _); [|repeat split].
    destruct (truthy _); [repeat split|]. simpl.
    do 3 (split; [reflexivity|]).
    split; intros k Hk; apply oget_oset_ne; congruence.
  - unfold assignTrainToWorkshop.
    destruct (oget trainId _); [|repeat split].
    destruct (oget target _); [|repeat split].
    destruct (truthy _); [repeat split|]. simpl.
    do 2 (split; [reflexivity|]).
    split; intros k Hk; apply oget_oset_ne; congruence.
  - unfold assignTrainToInspection.
    destruct (oget trainId _); [|repeat split].
    destruct (oget target _); [|repeat split].
    destruct (negb _); [repeat split|]. simpl.
    do 2 (split; [reflexivity|]).
    split; intros k Hk; apply oget_oset_ne; congruence.
Qed.

(** ** What a train keeps *)

Lemma train_static_refl t : train_static t t.
Proof. repeat split. Qed.

Lemma train_static_trans a b c :
  train_static a b -> train_static b c -> train_static a c.
Proof.
  intros (H1 & H2 & H3 & H4 & H5 & H6 & H7 & H8)
         (G1 & G2 & G3 & G4 & G5 & G6 & G7 & G8).
  repeat split; congruence.
Qed.

Lemma trains_kept_refl K m : trains_kept K m m.
Proof. intros k t _ H. exists t. split; [exact H|apply train_static_refl]. Qed.

Lemma trains_kept_trans K m1 m2 m3 :
  trains_kept K m1 m2 -> trains_kept K m2 m3 -> trains_kept K m1 m3.
Proof.
  intros H12 H23 k t HK Hk. destruct (H12 k t HK Hk) as (t2 & Hk2 & Hs2).
  destruct (H23 k t2 HK Hk2) as (t3 & Hk3 & Hs3).
  exists t3. split; [exact Hk3|eapply train_static_trans; eassumption].
Qed.

Lemma trains_kept_weaken (K K' : string -> Prop) m m' :
  (forall k, K k -> K' k) -> trains_kept K m m' -> trains_kept K' m m'.
Proof. intros HK H k t Hk. apply H. intros Hn. apply Hk, HK, Hn. Qed.

Lemma trains_kept_update K k t t' m :
  oget k m = Some t -> train_static t t' -> trains_kept K m (oset k t' m).
Proof.
  intros Hk Hs k0 t0 _ Hk0. rewrite oget_oset.
  destruct (decide (k = k0)) as [<-|_].
  - exists t'. split; [reflexivity|]. congruence.
  - exists t0. split; [exact Hk0|apply train_static_refl].
Qed.

Section kept.
Variable definition : YardDefinition.

Lemma kept_assignTrainToInspection K now trainId bayId e :
  trains_kept K (trains (state e))
    (trains (state (assignTrainToInspection now trainId bayId e))).
Proof.
  unfold assignTrainToInspection.
  destruct (oget trainId (trains (state e))) as [t|] eqn:Et;
    [|apply trains_kept_refl].
  destruct (oget bayId _); [|apply trains_kept_refl].
  destruct (negb _); [apply trains_kept_refl|]. simpl.
  eapply trains_kept_update; [exact Et|repeat split].
Qed.

Lemma kept_autoAssignToInspection K now trainId e :
  trains_kept K (trains (state e))
    (trains (state (autoAssignToInspection definition now trainId e))).
Proof.
  unfold autoAssignToInspection.
  destruct (oget trainId (trains (state e))) as [t|] eqn:Et;
    [|apply trains_kept_refl].
  destruct (negb _); [apply trains_kept_refl|]. cbv zeta.
  destruct (truthy _); [apply kept_assignTrainToInspection|]. simpl.
  eapply trains_kept_update; [exact Et|repeat split].
Qed.

Lemma kept_processQueuedTrains K now e :
  trains_kept K (trains (state e))
    (trains (state (processQueuedTrains definition now e))).
Proof.
  unfold processQueuedTrains.
  generalize (filter (fun train => t_status train = queued)
                (Object_values (trains (state e)))).
  intros l. revert e. induction l as [|t l IH]; intros e; simpl.
  - apply trains_kept_refl.
  - eapply trains_kept_trans; [apply kept_autoAssignToInspection|apply IH].
Qed.

Lemma kept_completeInspection K now random trainId bayId e :
  trains_kept K (trains (state e))
    (trains (state (completeInspection definition now random trainId bayId e))).
Proof.
  unfold completeInspection.
  destruct (oget trainId (trains (state e))) as [t|] eqn:Et;
    [|apply trains_kept_refl].
  destruct (oget bayId _); [|apply trains_kept_refl].
  destruct (negb (bool_decide _)); [apply trains_kept_refl|]. cbv zeta.
  eapply trains_kept_trans; [|apply kept_processQueuedTrains].
  assert (trains_kept K (trains (state e))
            (oset trainId (train_moved_to moving (locationNodeId t) now t)
               (trains (state e)))) as H
    by (eapply trains_kept_update; [exact Et|repeat split]).
  destruct (negb (Qle_bool _ random)).
  - destruct (negb (priority _) && negb (departSoon _));
      [destruct (generateSidingRecommendations _ _)|]; exact H.
  - destruct (generateWorkshopRecommendations _ _); exact H.
Qed.

Lemma kept_assignTrainToSiding K now trainId slotId e :
  trains_kept K (trains (state e))
    (trains (state (assignTrainToSiding now trainId slotId e))).
Proof.
  unfold assignTrainToSiding.
  destruct (oget trainId (trains (state e))) as [t|] eqn:Et;
    [|apply trains_kept_refl].
  destruct (oget slotId _); [|apply trains_kept_refl].
  destruct (truthy _); [apply trains_kept_refl|]. simpl.
  eapply trains_kept_update; [exact Et|repeat split].
Qed.

Lemma kept_assignTrainToWorkshop K now trainId workshopId e :
  trains_kept K (trains (state e))
    (trains (state (assignTrainToWorkshop now trainId workshopId e))).
Proof.
  unfold assignTrainToWorkshop.
  destruct (oget trainId (trains (state e))) as [t|] eqn:Et;
    [|apply trains_kept_refl].
  destruct (oget workshopId _); [|apply trains_kept_refl].
  destruct (truthy _); [apply trains_kept_refl|]. simpl.
  eapply trains_kept_update; [exact Et|repeat split].
Qed.

Lemma kept_completeWorkshop K now trainId workshopId e :
  trains_kept K (trains (state e))
    (trains (state (completeWorkshop now trainId workshopId e))).
Proof.
  unfold completeWorkshop.
  destruct (oget trainId (trains (state e))) as [t|] eqn:Et;
    [|apply trains_kept_refl].
  destruct (oget workshopId _); [|apply trains_kept_refl].
  destruct (negb (bool_decide _)); [apply trains_kept_refl|]. cbv zeta.
  assert (trains_kept K (trains (state e))
            (oset trainId (train_repaired now t) (trains (state e)))) as H
    by (eapply trains_kept_update; [exact Et|repeat split]).
  destruct (generateSidingRecommendations _ _); exact H.
Qed.

Lemma kept_enqueueTrain rnd trainData e :
  trains_kept (fun k => k = generated_id rnd) (trains (state e))
    (trains (state (snd (enqueueTrain rnd trainData e)))).
Proof.
  intros k t Hk Ht. simpl. exists t. split; [|apply train_static_refl].
  rewrite oget_oset_ne; [exact Ht|]. intros H. apply Hk. symmetry. exact H.
Qed.

Lemma kept_perform a e :
  trains_kept (creates a) (trains (state e))
    (trains (state (perform definition a e))).
Proof.
  destruct a as [rnd d|now t s|now t w|rnd c|now random i]; simpl.
  - apply kept_enqueueTrain.
  - apply kept_assignTrainToSiding.
  - apply kept_assignTrainToWorkshop.
  - unfold processCommand. destruct (cmd_type c) eqn:Ec;
      try apply trains_kept_refl.
    + eapply trains_kept_weaken; [|apply kept_enqueueTrain].
      intros k ->. split; [first [exact Ec|reflexivity]|reflexivity].
    + destruct (cmd_data c) as [data|]; [|apply trains_kept_refl].
      destruct (truthy _); [|apply trains_kept_refl].
      destruct data as [|target [| |] letter|]; try apply trains_kept_refl.
      * apply kept_assignTrainToSiding.
      * apply kept_assignTrainToWorkshop.
    + destruct (cmd_data c) as [[| |speed]|]; try apply trains_kept_refl.
      destruct (Qeq_bool speed 0); apply trains_kept_refl.
  - destruct (timers e !! i) as [timer|]; [|apply trains_kept_refl].
    change (trains (state e))
      with (trains (state (mkEngine (state e) (delete i (timers e))))).
    generalize (mkEngine (state e) (delete i (timers e))). intros e0.
    destruct (callback timer); simpl.
    + apply kept_autoAssignToInspection.
    + apply kept_completeInspection.
    + apply kept_assignTrainToSiding.
    + apply kept_assignTrainToWorkshop.
    + apply kept_completeWorkshop.
Qed.

Lemma kept_run actions e :
  trains_kept (fun k => exists a, a ∈ actions /\ creates a k)
    (trains (state e)) (trains (state (run definition actions e))).
Proof.
  revert e. induction actions as [|a actions IH]; intros e; simpl.
  - apply trains_kept_refl.
  - eapply trains_kept_trans.
    + eapply trains_kept_weaken; [|apply kept_perform].
      intros k Hk. exists a. split; [apply list_elem_of_here|exact Hk].
    + eapply trains_kept_weaken; [|apply IH].
      intros k (a' & Ha' & Hk). exists a'.
      split; [apply list_elem_of_further, Ha'|exact Hk].
Qed.
End kept.

(** X18: a registered train keeps its id, number, orientation, mileage, job
    card, priority flag, departSoon flag and arrival time through any sequence
    of calls and timer firings, as long as no train is created under its id
    again.  (Status, location, fitness, failures and the time of the last
    update are what the engine changes.) *)
Theorem X18_train_attributes_kept (definition : YardDefinition)
    (actions : list Action) (e : Engine) (k : string) (t : Train) :
  oget k (trains (state e)) = Some t ->
  (forall a, a ∈ actions -> ~ creates a k) ->
  exists t', oget k (trains (state (run definition actions e))) = Some t' /\
             train_static t t'.
Proof.
  intros Hk Hfresh. apply (kept_run definition actions e k t); [|exact Hk].
  intros (a & Ha & Hc). exact (Hfresh a Ha Hc).
Qed.

Lemma X18_train_attributes_kept_witness :
  exists t t',
    oget "train_1000_k3j9x0q2a" (trains (state wheel_engine)) = Some t /\
    (forall a, a ∈ [FireTimer 3000 0 0%nat; FireTimer 303000 0.9 0%nat;
                    FireTimer 304000 0 0%nat] ->
               ~ creates a "train_1000_k3j9x0q2a") /\
    oget "train_1000_k3j9x0q2a"
      (trains (state (run sample_yard
                        [FireTimer 3000 0 0%nat; FireTimer 303000 0.9 0%nat;
                         FireTimer 304000 0 0%nat] wheel_engine))) = Some t' /\
    t_status t' = workshop /\ locationNodeId t' = "WL4" /\
    train_static t t'.
Proof.
  eexists. eexists.
  assert (Ht : oget "train_1000_k3j9x0q2a" (trains (state wheel_engine))
               = Some (mkTrain "train_1000_k3j9x0q2a" "KM-12" arriving "E1"
                         east 85 25000
                         [mkJobTask "1" "Brake system check" false]
                         ["wheel-alignment"] true true 1000 1000))
    by (vm_compute; reflexivity).
  assert (Hf : forall a,
             a ∈ [FireTimer 3000 0 0%nat; FireTimer 303000 0.9 0%nat;
                  FireTimer 304000 0 0%nat] ->
             ~ creates a "train_1000_k3j9x0q2a").
  { intros a Ha. apply list_elem_of_In in Ha. simpl in Ha.
    destruct Ha as [<-|[<-|[<-|[]]]]; simpl; tauto. }
  split; [exact Ht|]. split; [exact Hf|].
  destruct (X18_train_attributes_kept sample_yard _ wheel_engine _ _ Ht Hf)
    as (t' & Ht' & Hs).
  vm_compute in Ht'. injection Ht' as <-.
  split; [vm_compute; reflexivity|]. split; [reflexivity|].
  split; [reflexivity|]. repeat split.
Defined.

(** ** Taking a recommendation *)

Lemma recommended_line definition e trainId train r :
  reachable definition e ->
  oget trainId (trains (state e)) = Some train ->
  r ∈ generateWorkshopRecommendations trainId (state e) ->
  exists ws, oget (targetId r) (workshopLines (state e)) = Some ws /\
             truthy (ws_occupiedBy ws) = false.
Proof.
  intros He Ht Hr.
  rewrite (generateWorkshopRecommendations_sort _ _ _ Ht) in Hr.
  rewrite sort_by_score_perm in Hr. unfold workshop_candidates_of in Hr.
  apply list_elem_of_fmap in Hr as (ws & -> & Hws).
  apply list_elem_of_filter in Hws as [Hf Hws].
  apply Object_values_oget in Hws as (k & _ & Hkw).
  destruct (reachable_invariant definition e He) as (_ & [Hnd Hwf] & _).
  pose proof (oget_NoDup _ _ _ Hnd Hkw) as Hk.
  destruct (Hwf k ws Hk) as [Hid _].
  exists ws. simpl. rewrite Hid. split; [exact Hk|].
  unfold eligible_line in Hf. apply andb_true_iff in Hf as [Hf _].
  apply negb_true_iff in Hf. exact Hf.
Qed.

(** X19: in a reachable state every recommendation can be taken.  Assigning
    the train to the target of any of its siding recommendations parks it
    there: the train is parked at the target, the slot records it as occupant
    and one event is logged.  Assigning it to the target of any of its
    workshop recommendations sends it there: the train is in repair at the
    target, the line is occupied by it and one event is logged. *)
Theorem X19_recommendations_can_be_taken (definition : YardDefinition)
    (e : Engine) (now : Z) (trainId : string) (train : Train)
    (r : AssignmentRecommendation) :
  reachable definition e ->
  oget trainId (trains (state e)) = Some train ->
  (r ∈ generateSidingRecommendations trainId (state e) ->
   let e' := assignTrainToSiding now trainId (targetId r) e in
   oget trainId (trains (state e'))
   = Some (train_moved_to parked (targetId r) now train) /\
   (exists s, oget (targetId r) (sidingSlots (state e)) = Some s /\
              oget (targetId r) (sidingSlots (state e'))
              = Some (slot_claimed trainId s)) /\
   length (eventLog (state e')) = S (length (eventLog (state e)))) /\
  (r ∈ generateWorkshopRecommendations trainId (state e) ->
   let e' := assignTrainToWorkshop now trainId (targetId r) e in
   oget trainId (trains (state e'))
   = Some (train_moved_to workshop (targetId r) now train) /\
   (exists ws, oget (targetId r) (workshopLines (state e)) = Some ws /\
               oget (targetId r) (workshopLines (state e'))
               = Some (line_claimed trainId ws)) /\
   length (eventLog (state e')) = S (length (eventLog (state e)))).
Proof.
  intros He Ht. split; intros Hr e'; subst e'.
  - destruct (recommended_slot definition e trainId train r He Ht Hr)
      as (s & Hs & Hfree).
    unfold assignTrainToSiding. rewrite Ht, Hs, Hfree. simpl.
    split; [apply oget_oset_eq|].
    split; [exists s; split; [reflexivity|apply oget_oset_eq]|].
    rewrite length_app. simpl. lia.
  - destruct (recommended_line definition e trainId train r He Ht Hr)
      as (ws & Hw & Hfree).
    unfold assignTrainToWorkshop. rewrite Ht, Hw, Hfree. simpl.
    split; [apply oget_oset_eq|].
    split; [exists ws; split; [reflexivity|apply oget_oset_eq]|].
    rewrite length_app. simpl. lia.
Qed.

Lemma X19_recommendations_can_be_taken_witness :
  exists train r,
    reachable sample_yard one_train_engine /\
    oget "train_1000_k3j9x0q2a" (trains (state one_train_engine)) = Some train /\
    r ∈ generateSidingRecommendations "train_1000_k3j9x0q2a"
          (state one_train_engine) /\
    targetId r = "S1b" /\
    oget "train_1000_k3j9x0q2a"
      (trains (state (assignTrainToSiding 1500 "train_1000_k3j9x0q2a"
                        (targetId r) one_train_engine)))
    = Some (train_moved_to parked (targetId r) 1500 train).
Proof.
  eexists. exists (siding_recommendation
                     (mkTrain "train_1000_k3j9x0q2a" "T1" arriving "E1" east
                        50 25000 [] [] false false 1000 1000)
                     (mkSidingSlot "S1b" "S1" slot_b None (Some 2%Q)
                        (Some high))).
  assert (Ht : oget "train_1000_k3j9x0q2a" (trains (state one_train_engine))
               = Some (mkTrain "train_1000_k3j9x0q2a" "T1" arriving "E1" east
                         50 25000 [] [] false false 1000 1000))
    by (vm_compute; reflexivity).
  assert (Hr : siding_recommendation
                 (mkTrain "train_1000_k3j9x0q2a" "T1" arriving "E1" east
                    50 25000 [] [] false false 1000 1000)
                 (mkSidingSlot "S1b" "S1" slot_b None (Some 2%Q) (Some high))
               ∈ generateSidingRecommendations "train_1000_k3j9x0q2a"
                   (state one_train_engine)).
  { apply list_elem_of_In. vm_compute. tauto. }
  split; [apply reachable_one_train_engine|]. split; [exact Ht|].
  split; [exact Hr|]. split; [reflexivity|].
  exact (proj1 (proj1 (X19_recommendations_can_be_taken sample_yard
                         one_train_engine 1500 "train_1000_k3j9x0q2a" _ _
                         reachable_one_train_engine Ht) Hr)).
Defined.

(** ** What the engine never does *)

Lemma slot_step_refl s : slot_step s s.
Proof. left. reflexivity. Qed.

Lemma slot_step_trans a b c : slot_step a b -> slot_step b c -> slot_step a c.
Proof.
  intros [->|[Hf Hs]] Hbc; [exact Hbc|].
  destruct Hbc as [->|[_ Hs']]; right; split; try assumption.
  eapply slot_static_trans; eassumption.
Qed.

Lemma slots_unchanged (m m' : object SidingSlot) :
  m' = m -> entries slot_step m m'.
Proof. intros ->. apply entries_refl, slot_step_refl. Qed.

Lemma entries_slot_step_trans (m1 m2 m3 : object SidingSlot) :
  entries slot_step m1 m2 -> entries slot_step m2 m3 ->
  entries slot_step m1 m3.
Proof. apply entries_trans, slot_step_trans. Qed.

Section released.
Variable definition : YardDefinition.

Lemma slots_assignTrainToInspection now trainId bayId e :
  sidingSlots (state (assignTrainToInspection now trainId bayId e))
  = sidingSlots (state e).
Proof.
  unfold assignTrainToInspection.
  destruct (oget trainId _); [|reflexivity].
  destruct (oget bayId _); [|reflexivity].
  destruct (negb _); reflexivity.
Qed.

Lemma slots_autoAssignToInspection now trainId e :
  sidingSlots (state (autoAssignToInspection definition now trainId e))
  = sidingSlots (state e).
Proof.
  unfold autoAssignToInspection.
  destruct (oget trainId _); [|reflexivity].
  destruct (negb _); [reflexivity|]. cbv zeta.
  destruct (truthy _); [apply slots_assignTrainToInspection|reflexivity].
Qed.

Lemma slots_processQueuedTrains now e :
  sidingSlots (state (processQueuedTrains definition now e))
  = sidingSlots (state e).
Proof.
  unfold processQueuedTrains.
  generalize (filter (fun train => t_status train = queued)
                (Object_values (trains (state e)))).
  intros l. revert e. induction l as [|t l IH]; intros e; simpl.
  - reflexivity.
  - rewrite IH. apply slots_autoAssignToInspection.
Qed.

Lemma slots_completeInspection now random trainId bayId e :
  sidingSlots (state (completeInspection definition now random trainId bayId e))
  = sidingSlots (state e).
Proof.
  unfold completeInspection.
  destruct (oget trainId _); [|reflexivity].
  destruct (oget bayId _); [|reflexivity].
  destruct (negb (bool_decide _)); [reflexivity|]. cbv zeta.
  rewrite slots_processQueuedTrains.
  destruct (negb (Qle_bool _ random)).
  - destruct (negb (priority _) && negb (departSoon _));
      [destruct (generateSidingRecommendations _ _)|]; reflexivity.
  - destruct (generateWorkshopRecommendations _ _); reflexivity.
Qed.

Lemma slots_assignTrainToWorkshop now trainId workshopId e :
  sidingSlots (state (assignTrainToWorkshop now trainId workshopId e))
  = sidingSlots (state e).
Proof.
  unfold assignTrainToWorkshop.
  destruct (oget trainId _); [|reflexivity].
  destruct (oget workshopId _); [|reflexivity].
  destruct (truthy _); reflexivity.
Qed.

Lemma slots_completeWorkshop now trainId workshopId e :
  sidingSlots (state (completeWorkshop now trainId workshopId e))
  = sidingSlots (state e).
Proof.
  unfold completeWorkshop.
  destruct (oget trainId _); [|reflexivity].
  destruct (oget workshopId _); [|reflexivity].
  destruct (negb (bool_decide _)); [reflexivity|]. cbv zeta.
  destruct (generateSidingRecommendations _ _); reflexivity.
Qed.

Lemma slots_assignTrainToSiding now trainId slotId e :
  entries slot_step (sidingSlots (state e))
    (sidingSlots (state (assignTrainToSiding now trainId slotId e))).
Proof.
  unfold assignTrainToSiding.
  destruct (oget trainId _); [|apply slots_unchanged; reflexivity].
  destruct (oget slotId (sidingSlots (state e))) as [s|] eqn:Es;
    [|apply slots_unchanged; reflexivity].
  destruct (truthy (sl_occupiedBy s)) eqn:Ef;
    [apply slots_unchanged; reflexivity|]. simpl.
  eapply entries_oset; [apply slot_step_refl|exact Es|].
  right. split; [exact Ef|repeat split].
Qed.

Lemma slots_perform a e :
  entries slot_step (sidingSlots (state e))
    (sidingSlots (state (perform definition a e))).
Proof.
  destruct a as [rnd d|now t s|now t w|rnd c|now random i]; simpl.
  - apply slots_unchanged. reflexivity.
  - apply slots_assignTrainToSiding.
  - apply slots_unchanged, slots_assignTrainToWorkshop.
  - unfold processCommand. destruct (cmd_type c);
      try (apply slots_unchanged; reflexivity).
    + destruct (cmd_data c) as [data|]; [|apply slots_unchanged; reflexivity].
      destruct (truthy _); [|apply slots_unchanged; reflexivity].
      destruct data as [|target [| |] letter|];
        try (apply slots_unchanged; reflexivity).
      * apply slots_assignTrainToSiding.
      * apply slots_unchanged, slots_assignTrainToWorkshop.
    + destruct (cmd_data c) as [[| |speed]|];
        try (apply slots_unchanged; reflexivity).
      destruct (Qeq_bool speed 0); apply slots_unchanged; reflexivity.
  - destruct (timers e !! i) as [timer|]; [|apply slots_unchanged; reflexivity].
    change (sidingSlots (state e))
      with (sidingSlots (state (mkEngine (state e) (delete i (timers e))))).
    generalize (mkEngine (state e) (delete i (timers e))). intros e0.
    destruct (callback timer); simpl.
    + apply slots_unchanged, slots_autoAssignToInspection.
    + apply slots_unchanged, slots_completeInspection.
    + apply slots_assignTrainToSiding.
    + apply slots_unchanged, slots_assignTrainToWorkshop.
    + apply slots_unchanged, slots_completeWorkshop.
Qed.

Lemma slots_run actions e :
  entries slot_step (sidingSlots (state e))
    (sidingSlots (state (run definition actions e))).
Proof.
  revert e. induction actions as [|a actions IH]; intros e; simpl.
  - apply slots_unchanged. reflexivity.
  - eapply entries_slot_step_trans; [apply slots_perform|apply IH].
Qed.
End released.

Lemma occupied_slots_step (m m' : object SidingSlot) :
  entries slot_step m m' -> (occupied_slots m <= occupied_slots m')%nat.
Proof.
  unfold occupied_slots, Object_values.
  induction 1 as [|[k s] [k' s'] l l' [_ Hs] _ IH]; [simpl; lia|].
  simpl in Hs. rewrite !fmap_cons, !filter_cons. cbn [snd].
  destruct Hs as [->|[Hf _]].
  - destruct (decide (truthy (sl_occupiedBy s) = true)); cbn [length]; lia.
  - rewrite Hf.
    destruct (decide (false = true)) as [Hd|_]; [discriminate Hd|].
    destruct (decide (truthy (sl_occupiedBy s') = true)); cbn [length]; lia.
Qed.

(** X20: a siding slot is never released.  Through any sequence of calls and
    timer firings a slot that has an occupant stays exactly as it is, with the
    same occupant, and the number of occupied slots never goes down. *)
Theorem X20_slots_never_released (definition : YardDefinition)
    (actions : list Action) (e : Engine) :
  let e' := run definition actions e in
  (forall k s, oget k (sidingSlots (state e)) = Some s ->
     truthy (sl_occupiedBy s) = true ->
     oget k (sidingSlots (state e')) = Some s) /\
  (occupied_slots (sidingSlots (state e))
   <= occupied_slots (sidingSlots (state e')))%nat.
Proof.
  intros e'. pose proof (slots_run definition actions e) as H. fold e' in H.
  split.
  - intros k s Hk Ho.
    destruct (entries_oget_fwd _ _ _ _ _ H Hk) as (s' & Hk' & [->|[Hf _]]).
    + exact Hk'.
    + rewrite Hf in Ho. discriminate Ho.
  - apply occupied_slots_step, H.
Qed.

(** *** Statuses and event types *)

Lemma tidy_with_trains k t e :
  engine_status (t_status t) = true ->
  tidy (state e) -> tidy (state (with_trains (oset k t) e)).
Proof.
  intros Ht [Hs Hl]. split; [|exact Hl]. simpl. intros k0 t0.
  rewrite oget_oset. destruct (decide (k = k0)).
  - intros [= <-]. exact Ht.
  - apply Hs.
Qed.

Lemma tidy_emitEvent now ty trainId message severity data e :
  engine_event ty = true ->
  tidy (state e) ->
  tidy (state (emitEvent now ty trainId message severity data e)).
Proof.
  intros Hty [Hs Hl]. split; [exact Hs|]. simpl.
  apply Forall_app. split; [exact Hl|]. constructor; [exact Hty|constructor].
Qed.

Lemma tidy_setTimeout cb ms e :
  tidy (state e) -> tidy (state (setTimeout cb ms e)).
Proof. intros H. exact H. Qed.

Lemma tidy_with_inspectionBays f e :
  tidy (state e) -> tidy (state (with_inspectionBays f e)).
Proof. intros H. exact H. Qed.

Lemma tidy_with_workshopLines f e :
  tidy (state e) -> tidy (state (with_workshopLines f e)).
Proof. intros H. exact H. Qed.

Lemma tidy_with_sidingSlots f e :
  tidy (state e) -> tidy (state (with_sidingSlots f e)).
Proof. intros H. exact H. Qed.

Lemma tidy_with_simulationSpeed v e :
  tidy (state e) -> tidy (state (with_simulationSpeed v e)).
Proof. intros H. exact H. Qed.

(** One step back through a chain of updates. *)
Ltac tidy_engine :=
  first
    [ assumption
    | apply tidy_setTimeout
    | apply tidy_emitEvent; [reflexivity|]
    | apply tidy_with_trains; [reflexivity|]
    | apply tidy_with_inspectionBays
    | apply tidy_with_workshopLines
    | apply tidy_with_sidingSlots
    | apply tidy_with_simulationSpeed ].

Section tidiness.
Variable definition : YardDefinition.

Lemma tidy_enqueueTrain rnd trainData e :
  tidy (state e) -> tidy (state (snd (enqueueTrain rnd trainData e))).
Proof. intros H. unfold enqueueTrain. cbv zeta. simpl snd. repeat tidy_engine. Qed.

Lemma tidy_assignTrainToInspection now trainId bayId e :
  tidy (state e) -> tidy (state (assignTrainToInspection now trainId bayId e)).
Proof.
  intros H. unfold assignTrainToInspection.
  destruct (oget trainId _); [|exact H].
  destruct (oget bayId _); [|exact H].
  destruct (negb _); [exact H|]. cbv zeta. repeat tidy_engine.
Qed.

Lemma tidy_autoAssignToInspection now trainId e :
  tidy (state e) ->
  tidy (state (autoAssignToInspection definition now trainId e)).
Proof.
  intros H. unfold autoAssignToInspection.
  destruct (oget trainId _); [|exact H].
  destruct (negb _); [exact H|]. cbv zeta.
  destruct (truthy _); [apply tidy_assignTrainToInspection, H|].
  repeat tidy_engine.
Qed.

Lemma tidy_processQueuedTrains now e :
  tidy (state e) -> tidy (state (processQueuedTrains definition now e)).
Proof.
  unfold processQueuedTrains.
  generalize (filter (fun train => t_status train = queued)
                (Object_values (trains (state e)))).
  intros l. revert e. induction l as [|t l IH]; intros e H; simpl.
  - exact H.
  - apply IH, tidy_autoAssignToInspection, H.
Qed.

Lemma tidy_completeInspection now random trainId bayId e :
  tidy (state e) ->
  tidy (state (completeInspection definition now random trainId bayId e)).
Proof.
  intros H. unfold completeInspection.
  destruct (oget trainId _); [|exact H].
  destruct (oget bayId _); [|exact H].
  destruct (negb (bool_decide _)); [exact H|]. cbv zeta.
  apply tidy_processQueuedTrains.
  destruct (negb (Qle_bool _ random)).
  - destruct (negb (priority _) && negb (departSoon _));
      [destruct (generateSidingRecommendations _ _)|]; repeat tidy_engine.
  - destruct (generateWorkshopRecommendations _ _); repeat tidy_engine.
Qed.

Lemma tidy_assignTrainToSiding now trainId slotId e :
  tidy (state e) -> tidy (state (assignTrainToSiding now trainId slotId e)).
Proof.
  intros H. unfold assignTrainToSiding.
  destruct (oget trainId _); [|exact H].
  destruct (oget slotId _); [|exact H].
  destruct (truthy _); [exact H|]. cbv zeta. repeat tidy_engine.
Qed.

Lemma tidy_assignTrainToWorkshop now trainId workshopId e :
  tidy (state e) ->
  tidy (state (assignTrainToWorkshop now trainId workshopId e)).
Proof.
  intros H. unfold assignTrainToWorkshop.
  destruct (oget trainId _); [|exact H].
  destruct (oget workshopId _); [|exact H].
  destruct (truthy _); [exact H|]. cbv zeta. repeat tidy_engine.
Qed.

Lemma tidy_completeWorkshop now trainId workshopId e :
  tidy (state e) -> tidy (state (completeWorkshop now trainId workshopId e)).
Proof.
  intros H. unfold completeWorkshop.
  destruct (oget trainId _); [|exact H].
  destruct (oget workshopId _); [|exact H].
  destruct (negb (bool_decide _)); [exact H|]. cbv zeta.
  destruct (generateSidingRecommendations _ _); repeat tidy_engine.
Qed.

Lemma tidy_perform a e :
  tidy (state e) -> tidy (state (perform definition a e)).
Proof.
  intros H. destruct a as [rnd d|now t s|now t w|rnd c|now random i]; simpl.
  - apply tidy_enqueueTrain, H.
  - apply tidy_assignTrainToSiding, H.
  - apply tidy_assignTrainToWorkshop, H.
  - unfold processCommand. destruct (cmd_type c); try exact H.
    + apply tidy_enqueueTrain, H.
    + destruct (cmd_data c) as [data|]; [|exact H].
      destruct (truthy _); [|exact H].
      destruct data as [|target [| |] letter|]; try exact H.
      * apply tidy_assignTrainToSiding, H.
      * apply tidy_assignTrainToWorkshop, H.
    + destruct (cmd_data c) as [[| |speed]|]; try exact H.
      destruct (Qeq_bool speed 0); exact H.
  - destruct (timers e !! i) as [timer|]; [|exact H].
    assert (tidy (state (mkEngine (state e) (delete i (timers e))))) as H0
      by exact H.
    revert H0. generalize (mkEngine (state e) (delete i (timers e))).
    intros e0 H0. destruct (callback timer); simpl.
    + apply tidy_autoAssignToInspection, H0.
    + apply tidy_completeInspection, H0.
    + apply tidy_assignTrainToSiding, H0.
    + apply tidy_assignTrainToWorkshop, H0.
    + apply tidy_completeWorkshop, H0.
Qed.

Lemma reachable_tidy e : reachable definition e -> tidy (state e).
Proof.
  induction 1 as [e Hnew|a e Hreach IH Hok].
  - revert Hnew. unfold newYardSimulator, initializeState.
    destruct (init_inspectionBays definition _ 0 []); [|discriminate].
    destruct (init_workshopLines definition _ 0 []); [|discriminate].
    destruct (init_sidingSlots definition _ []); [|discriminate].
    simpl. intros [= <-]. split; [intros k t Hk; discriminate Hk|constructor].
  - apply tidy_perform, IH.
Qed.
End tidiness.

(** * Properties of the control panel *)

Lemma lines_assignTrainToSiding now trainId slotId e :
  workshopLines (state (assignTrainToSiding now trainId slotId e))
  = workshopLines (state e).
Proof.
  unfold assignTrainToSiding.
  destruct (oget trainId _); [|reflexivity].
  destruct (oget slotId _); [|reflexivity].
  destruct (truthy _); reflexivity.
Qed.

Lemma nonempty_id_truthy (s : string) : s <> "" -> truthy (Some s) = true.
Proof. destruct s; [congruence|reflexivity]. Qed.

(** X21: the Assign buttons choose the operation by the first letters of the
    target id.  For a non-empty train id, a target whose id starts with "S" is
    handed to [assignTrainToSiding], another one whose id starts with "WL" to
    [assignTrainToWorkshop], and any other target (such as the "auto" of the
    Auto Assign button) changes nothing.  So no slot whose id does not start
    with "S" and no line whose id starts with "S" is ever taken through
    [handleAssignTrain].  The workshop dashboard hands any target to
    [assignTrainToWorkshop], and the Remove buttons change nothing at all. *)
Theorem X21_assign_by_prefix (rnd : Entropy) (trainId targetId : string)
    (letter : option SlotLetter) (e : Engine) :
  let e' := YardControlSystem.handleAssignTrain rnd trainId targetId letter e in
  (trainId <> "" -> startsWith targetId "S" = true ->
   e' = assignTrainToSiding (clock rnd) trainId targetId e) /\
  (trainId <> "" -> startsWith targetId "S" = false ->
   startsWith targetId "WL" = true ->
   e' = assignTrainToWorkshop (clock rnd) trainId targetId e) /\
  (startsWith targetId "S" = false -> startsWith targetId "WL" = false ->
   e' = e) /\
  (startsWith targetId "S" = false ->
   sidingSlots (state e') = sidingSlots (state e)) /\
  (startsWith targetId "S" = true ->
   workshopLines (state e') = workshopLines (state e)) /\
  YardControlSystem.handleAssignTrain rnd trainId "auto" None e = e /\
  (trainId <> "" ->
   YardControlSystem.handleAssignToWorkshop rnd trainId targetId e
   = assignTrainToWorkshop (clock rnd) trainId targetId e) /\
  YardControlSystem.handleRemoveTrain rnd trainId e = e.
Proof.
  intros e'. subst e'.
  unfold YardControlSystem.handleAssignTrain,
    YardControlSystem.handleAssignToWorkshop,
    YardControlSystem.handleRemoveTrain, processCommand.
  cbn [cmd_type cmd_data cmd_trainId default].
  split; [|split; [|split; [|split; [|split; [|split; [|split]]]]]];
    [| | | | | | |reflexivity].
  - intros Hid HS. rewrite HS, (nonempty_id_truthy _ Hid). reflexivity.
  - intros Hid HS HW. rewrite HS, HW, (nonempty_id_truthy _ Hid). reflexivity.
  - intros HS HW. rewrite HS, HW. destruct (truthy _); reflexivity.
  - intros HS. rewrite HS. destruct (truthy _); [|reflexivity].
    destruct (startsWith targetId "WL"); [|reflexivity].
    apply slots_assignTrainToWorkshop.
  - intros HS. rewrite HS. destruct (truthy _); [|reflexivity].
    apply lines_assignTrainToSiding.
  - destruct (truthy _); reflexivity.
  - intros Hid. rewrite (nonempty_id_truthy _ Hid). reflexivity.
Qed.

(** ** The inspection panel *)

Lemma find_is_Some {A} (f : A -> bool) (l : list A) (x : A) :
  x ∈ l -> f x = true -> is_Some (List.find f l).
Proof.
  induction 1 as [x l|x y l _ IH]; simpl; intros Hx.
  - rewrite Hx. eauto.
  - destruct (f y); [eauto|apply IH, Hx].
Qed.

Lemma registered_value definition e (t : Train) :
  reachable definition e ->
  t ∈ Object_values (trains (state e)) ->
  oget (t_id t) (trains (state e)) = Some t.
Proof.
  intros He Ht. destruct (reachable_invariant definition e He) as ([Hnd Hwf] & _).
  apply Object_values_oget in Ht as (k & _ & Hkt).
  pose proof (oget_NoDup _ _ _ Hnd Hkt) as Hk.
  destruct (Hwf k t Hk) as [-> _]. exact Hk.
Qed.

(** X22: in a reachable state the panel "Trains Awaiting Assignment" lists no
    train.  It shows the trains whose status is inspection and which no bay
    records as occupant; but a train in inspection always occupies its bay,
    and a completed inspection sets the train moving. *)
Theorem X22_nothing_awaits_assignment (definition : YardDefinition)
    (e : Engine) :
  reachable definition e ->
  InspectionDashboard.awaitingAssignment (state e) = [].
Proof.
  intros He. unfold InspectionDashboard.awaitingAssignment.
  apply elem_of_nil_inv. intros t Ht.
  apply list_elem_of_filter in Ht as [Hc Ht].
  unfold InspectionDashboard.trainsInInspection in Ht.
  apply list_elem_of_filter in Ht as [Hs Ht].
  pose proof (registered_value definition e t He Ht) as Hk.
  destruct (reachable_invariant definition e He) as (_ & _ & _ & Hocc).
  pose proof (occ_trains _ Hocc _ _ Hk) as Hp. unfold placed in Hp.
  rewrite Hs in Hp. destruct Hp as (b & Hb & Ho).
  unfold InspectionDashboard.inspectionComplete in Hc.
  apply negb_true_iff, bool_decide_eq_false in Hc. apply Hc.
  apply (find_is_Some _ _ b); [eapply oget_Object_values, Hb|].
  apply bool_decide_eq_true. exact Ho.
Qed.

Lemma X22_nothing_awaits_assignment_witness :
  reachable sample_yard in_inspection_engine /\
  t_id <$> InspectionDashboard.trainsInInspection (state in_inspection_engine)
  = ["train_1000_k3j9x0q2a"] /\
  InspectionDashboard.awaitingAssignment (state in_inspection_engine) = [].
Proof.
  split; [apply reachable_in_inspection_engine|].
  split; [vm_compute; reflexivity|].
  apply (X22_nothing_awaits_assignment sample_yard in_inspection_engine).
  apply reachable_in_inspection_engine.
Defined.

(** ** Trains by status *)

Lemma status_partition (l : list Train) :
  Forall (fun t => engine_status (t_status t) = true) l ->
  length l
  = (length (filter (fun t => t_status t = arriving) l)
     + length (filter (fun t => t_status t = queued) l)
     + length (filter (fun t => t_status t = inspection) l)
     + length (filter (fun t => t_status t = parked) l)
     + length (filter (fun t => t_status t = workshop) l)
     + length (filter (fun t => t_status t = moving) l))%nat.
Proof.
  induction 1 as [|t l Ht _ IH]; [reflexivity|].
  rewrite !filter_cons.
  destruct (t_status t); try discriminate Ht;
    repeat match goal with
           | |- context [decide ?P] =>
               destruct (decide P) as [?|?]; try congruence
           end;
    cbn [length]; lia.
Qed.

Lemma oget_key {V} (k : string) (v : V) (m : object V) :
  oget k m = Some v -> k ∈ Object_keys m.
Proof.
  intros H. destruct (decide (k ∈ Object_keys m)) as [Hin|Hn]; [exact Hin|].
  apply oget_None_keys in Hn. congruence.
Qed.

Lemma reachable_trains_NoDup definition e :
  reachable definition e -> NoDup (Object_values (trains (state e))).
Proof.
  intros He. destruct (reachable_invariant definition e He) as ([Hnd Hwf] & _).
  unfold Object_values. apply NoDup_fmap_2_strong.
  - intros [k1 v1] [k2 v2] H1 H2 Hv. simpl in Hv. subst v2.
    apply (oget_NoDup _ _ _ Hnd) in H1. apply (oget_NoDup _ _ _ Hnd) in H2.
    destruct (Hwf _ _ H1) as [E1 _]. destruct (Hwf _ _ H2) as [E2 _].
    congruence.
  - eapply NoDup_fmap_1. exact Hnd.
Qed.

(** Trains that each occupy the resource they are at are no more than the
    resources. *)
Lemma no_more_than_resources {R} definition e (res : object R)
    (occupiedBy : R -> option string) (l : list Train) :
  reachable definition e ->
  NoDup l ->
  (forall t, t ∈ l -> t ∈ Object_values (trains (state e))) ->
  (forall t, t ∈ l ->
     exists r, oget (locationNodeId t) res = Some r /\
               occupiedBy r = Some (t_id t)) ->
  (length l <= length (Object_keys res))%nat.
Proof.
  intros He Hnd Hreg Hocc.
  rewrite <- (length_fmap locationNodeId l).
  apply submseteq_length, NoDup_submseteq.
  - apply NoDup_fmap_2_strong; [|exact Hnd].
    intros t1 t2 H1 H2 Hloc.
    destruct (Hocc t1 H1) as (r1 & Hr1 & Ho1).
    destruct (Hocc t2 H2) as (r2 & Hr2 & Ho2).
    rewrite Hloc in Hr1. rewrite Hr1 in Hr2. injection Hr2 as <-.
    rewrite Ho1 in Ho2. injection Ho2 as Hid.
    pose proof (registered_value definition e t1 He (Hreg t1 H1)) as G1.
    pose proof (registered_value definition e t2 He (Hreg t2 H2)) as G2.
    rewrite Hid in G1. congruence.
  - intros k Hk. apply list_elem_of_fmap in Hk as (t & -> & Ht).
    destruct (Hocc t Ht) as (r & Hr & _). eapply oget_key, Hr.
Qed.

(** X23: in every reachable state each train is arriving, queued, in
    inspection, parked, in repair or moving: the engine never gives a train
    the status test or departed.  In a state reached by calls with plain ids
    the trains in inspection, in repair and parked are never more than the
    bays, the lines and the slots of the yard. *)
Theorem X23_trains_by_status (definition : YardDefinition) (e : Engine) :
  (reachable definition e ->
   length (Object_values (trains (state e)))
   = (count_status arriving (state e) + count_status queued (state e)
      + count_status inspection (state e) + count_status parked (state e)
      + count_status workshop (state e) + count_status moving (state e))%nat) /\
  (reachable_plain definition e ->
   (count_status inspection (state e)
    <= length (Object_keys (inspectionBays (state e))))%nat /\
   (count_status workshop (state e)
    <= length (Object_keys (workshopLines (state e))))%nat /\
   (count_status parked (state e)
    <= length (Object_keys (sidingSlots (state e))))%nat).
Proof.
  split.
  - intros He. unfold count_status. apply status_partition.
    apply Forall_forall. intros t Ht.
    destruct (reachable_tidy definition e He) as [Hs _].
    apply (Hs (t_id t)). apply (registered_value definition e t He Ht).
  - intros He. apply reachable_plain_reachable in He. unfold count_status.
    pose proof (reachable_trains_NoDup definition e He) as Hnd.
    destruct (reachable_invariant definition e He) as (_ & _ & _ & Hocc).
    assert (Hplaced : forall t, t ∈ Object_values (trains (state e)) ->
                        placed (state e) (t_id t) t).
    { intros t Ht. apply (occ_trains _ Hocc).
      apply (registered_value definition e t He Ht). }
    split; [|split].
    + apply (no_more_than_resources definition e _ bay_occupiedBy);
        [exact He| | |].
      * apply NoDup_filter, Hnd.
      * intros t Ht. apply list_elem_of_filter in Ht as [_ Ht]. exact Ht.
      * intros t Ht. apply list_elem_of_filter in Ht as [Hs Ht].
        pose proof (Hplaced t Ht) as Hp. unfold placed in Hp.
        rewrite Hs in Hp. exact Hp.
    + apply (no_more_than_resources definition e _ ws_occupiedBy);
        [exact He| | |].
      * apply NoDup_filter, Hnd.
      * intros t Ht. apply list_elem_of_filter in Ht as [_ Ht]. exact Ht.
      * intros t Ht. apply list_elem_of_filter in Ht as [Hs Ht].
        pose proof (Hplaced t Ht) as Hp. unfold placed in Hp.
        rewrite Hs in Hp. exact Hp.
    + apply (no_more_than_resources definition e _ sl_occupiedBy);
        [exact He| | |].
      * apply NoDup_filter, Hnd.
      * intros t Ht. apply list_elem_of_filter in Ht as [_ Ht]. exact Ht.
      * intros t Ht. apply list_elem_of_filter in Ht as [Hs Ht].
        pose proof (Hplaced t Ht) as Hp. unfold placed in Hp.
        rewrite Hs in Hp. exact Hp.
Qed.

Lemma X23_trains_by_status_witness :
  reachable_plain sample_yard reassigned_engine /\
  count_status parked (state reassigned_engine) = 1%nat /\
  length (Object_keys (sidingSlots (state reassigned_engine))) = 3%nat /\
  (count_status parked (state reassigned_engine)
   <= length (Object_keys (sidingSlots (state reassigned_engine))))%nat.
Proof.
  split; [apply reachable_plain_reassigned_engine|].
  split; [vm_compute; reflexivity|]. split; [vm_compute; reflexivity|].
  apply (proj2 (X23_trains_by_status sample_yard reassigned_engine)
           reachable_plain_reassigned_engine).
Defined.

(** ** The event log *)

Lemma insert_by_time_perm x l : EventLog.insert_by_time x l ≡ₚ x :: l.
Proof.
  induction l as [|y l IH]; simpl; [reflexivity|].
  destruct (ev_timestamp x <? ev_timestamp y); [|reflexivity].
  rewrite IH. apply Permutation_swap.
Qed.

Lemma sort_by_time_perm l : EventLog.sort_by_time l ≡ₚ l.
Proof.
  unfold EventLog.sort_by_time. induction l as [|x l IH]; simpl; [reflexivity|].
  rewrite insert_by_time_perm, IH. reflexivity.
Qed.

Lemma insert_by_time_sorted x l :
  StronglySorted not_older l ->
  StronglySorted not_older (EventLog.insert_by_time x l).
Proof.
  induction 1 as [|y l Hl IH Hy]; simpl.
  - constructor; constructor.
  - destruct (ev_timestamp x <? ev_timestamp y) eqn:E.
    + apply Z.ltb_lt in E. constructor; [exact IH|].
      rewrite insert_by_time_perm. constructor; [|exact Hy].
      unfold not_older. lia.
    + apply Z.ltb_ge in E.
      constructor; [constructor; assumption|].
      constructor; [exact E|].
      eapply Forall_impl; [exact Hy|].
      unfold not_older. intros z Hz. lia.
Qed.

Lemma sort_by_time_sorted l : StronglySorted not_older (EventLog.sort_by_time l).
Proof.
  unfold EventLog.sort_by_time. induction l as [|x l IH]; simpl.
  - constructor.
  - apply insert_by_time_sorted, IH.
Qed.

Lemma insert_by_time_stable (c : Z) x l :
  filter (fun ev => ev_timestamp ev = c) (EventLog.insert_by_time x l)
  = filter (fun ev => ev_timestamp ev = c) (x :: l).
Proof.
  induction l as [|y l IH]; simpl; [reflexivity|].
  destruct (ev_timestamp x <? ev_timestamp y) eqn:E; [|reflexivity].
  apply Z.ltb_lt in E.
  rewrite (filter_cons _ y), IH, !filter_cons.
  destruct (decide (ev_timestamp y = c)) as [Hy|Hy];
    destruct (decide (ev_timestamp x = c)) as [Hx|Hx];
    try reflexivity.
  lia.
Qed.

Lemma sort_by_time_stable (c : Z) l :
  filter (fun ev => ev_timestamp ev = c) (EventLog.sort_by_time l)
  = filter (fun ev => ev_timestamp ev = c) l.
Proof.
  unfold EventLog.sort_by_time. induction l as [|x l IH]; simpl; [reflexivity|].
  rewrite insert_by_time_stable, !filter_cons.
  destruct (decide (ev_timestamp x = c)); rewrite IH; reflexivity.
Qed.

Lemma filteredEvents_take severityFilter typeFilter events :
  EventLog.filteredEvents severityFilter typeFilter events
  = take 100
      (EventLog.sort_by_time (passes_filters severityFilter typeFilter events)).
Proof. reflexivity. Qed.

(** X24: the event log shows at most 100 events; each one is an event of the
    log that passes both filters; they are the first 100 of a ranking of all
    events that pass, newest first, in which events of one timestamp keep the
    order of the log; so every passing event that is cut is no newer than each
    event shown. *)
Theorem X24_filtered_events (severityFilter typeFilter : string)
    (events : list YardEvent) :
  let shown := EventLog.filteredEvents severityFilter typeFilter events in
  (length shown <= 100)%nat /\
  (forall ev, ev ∈ shown ->
     ev ∈ events /\
     EventLog.passes_severity severityFilter ev = true /\
     EventLog.passes_type typeFilter ev = true) /\
  StronglySorted not_older shown /\
  (exists ranked,
     shown = take 100 ranked /\
     ranked ≡ₚ passes_filters severityFilter typeFilter events /\
     forall c, filter (fun ev => ev_timestamp ev = c) ranked
               = filter (fun ev => ev_timestamp ev = c)
                   (passes_filters severityFilter typeFilter events)) /\
  (forall ev, ev ∈ passes_filters severityFilter typeFilter events ->
     ev ∈ shown \/ forall s, s ∈ shown -> not_older s ev).
Proof.
  intros shown. subst shown. rewrite filteredEvents_take.
  set (passing := passes_filters severityFilter typeFilter events).
  set (ranked := EventLog.sort_by_time passing).
  assert (Hperm : ranked ≡ₚ passing) by apply sort_by_time_perm.
  assert (Hsorted : StronglySorted not_older ranked)
    by apply sort_by_time_sorted.
  split; [rewrite length_take; lia|].
  split; [|split; [|split]].
  - intros ev Hev. apply (subseteq_take 100) in Hev. rewrite Hperm in Hev.
    unfold passing, passes_filters in Hev.
    apply list_elem_of_filter in Hev as [Ht Hev].
    apply list_elem_of_filter in Hev as [Hs Hev]. auto.
  - rewrite <- (take_drop 100 ranked) in Hsorted.
    apply StronglySorted_app_1_l in Hsorted. exact Hsorted.
  - exists ranked. split; [reflexivity|]. split; [exact Hperm|].
    intros c. apply sort_by_time_stable.
  - intros ev Hev. rewrite <- Hperm in Hev.
    rewrite <- (take_drop 100 ranked) in Hev, Hsorted.
    apply elem_of_app in Hev as [Hev|Hev]; [left; exact Hev|right].
    intros s Hs.
    apply (StronglySorted_app_1_elem_of _ _ _ _ _ Hsorted Hs Hev).
Qed.

Lemma X24_filtered_events_example :
  ev_message <$> EventLog.filteredEvents "all" "train" sample_events
  = ["moved"; "queued"; "created"] /\
  ev_message <$> EventLog.filteredEvents "info" "all" sample_events
  = ["moved"; "created"].
Proof. split; vm_compute; reflexivity. Qed.

(** *** The type filter *)

Lemma category_prefix (ty : EventType) :
  EventLog.getEventTypeCategory (event_type_string ty) <> "system" ->
  startsWith (event_type_string ty)
    (EventLog.getEventTypeCategory (event_type_string ty)) = true.
Proof. destruct ty; vm_compute; congruence. Qed.

Lemma no_system_prefix (ty : EventType) :
  startsWith (event_type_string ty) "system" = false.
Proof. destruct ty; reflexivity. Qed.

Lemma engine_event_category (ty : EventType) :
  engine_event ty = true ->
  EventLog.getEventTypeCategory (event_type_string ty) <> "system".
Proof. destruct ty; vm_compute; congruence. Qed.

Lemma distinct_elem_of (l : list string) (x : string) :
  x ∈ EventLog.distinct l <-> x ∈ l.
Proof.
  unfold EventLog.distinct.
  assert (forall seen,
            x ∈ foldl (fun seen x => if includes x seen then seen
                                     else seen ++ [x]) seen l
            <-> x ∈ seen \/ x ∈ l) as H.
  { induction l as [|y l IH]; intros seen; simpl.
    - rewrite elem_of_nil. tauto.
    - rewrite IH, elem_of_cons. unfold includes.
      destruct (bool_decide (y ∈ seen)) eqn:E.
      + apply bool_decide_eq_true in E.
        split; [tauto|]. intros [H|[->|H]]; auto.
      + rewrite elem_of_app, list_elem_of_singleton. tauto. }
  rewrite H, elem_of_nil. tauto.
Qed.

(** X25: the type filter offers the categories of the events of the log and
    selects by prefix.  Choosing "system" shows no event at all, whatever the
    log; choosing any other offered category shows at least one event; and
    the log of a reachable engine never makes the filter offer "system". *)
Theorem X25_type_filter (definition : YardDefinition) (e : Engine)
    (severityFilter : string) (events : list YardEvent) :
  EventLog.filteredEvents severityFilter "system" events = [] /\
  (forall c, c ∈ EventLog.uniqueTypes events -> c <> "system" ->
     EventLog.filteredEvents "all" c events <> []) /\
  (reachable definition e ->
   "system" ∉ EventLog.uniqueTypes (eventLog (state e))).
Proof.
  split; [|split].
  - rewrite filteredEvents_take.
    replace (passes_filters severityFilter "system" events) with
      (@nil YardEvent); [reflexivity|].
    symmetry. apply elem_of_nil_inv. intros ev Hev.
    apply list_elem_of_filter in Hev as [Ht _].
    unfold EventLog.passes_type in Ht. rewrite no_system_prefix in Ht.
    discriminate Ht.
  - intros c Hc Hsys. unfold EventLog.uniqueTypes in Hc.
    apply (proj1 (distinct_elem_of _ _)) in Hc.
    apply list_elem_of_fmap in Hc as (ev & -> & Hev).
    rewrite filteredEvents_take.
    assert (ev ∈ EventLog.sort_by_time
                   (passes_filters "all"
                      (EventLog.getEventTypeCategory
                         (event_type_string (ev_type ev))) events)) as Hin.
    { rewrite sort_by_time_perm. unfold passes_filters.
      apply list_elem_of_filter. split.
      - unfold EventLog.passes_type. rewrite (category_prefix _ Hsys).
        apply orb_true_r.
      - apply list_elem_of_filter. split; [reflexivity|exact Hev]. }
    destruct (EventLog.sort_by_time _) as [|x l].
    + apply elem_of_nil in Hin. contradiction.
    + discriminate.
  - intros He Hin. unfold EventLog.uniqueTypes in Hin.
    apply (proj1 (distinct_elem_of _ _)) in Hin.
    apply list_elem_of_fmap in Hin as (ev & Hc & Hev).
    destruct (reachable_tidy definition e He) as [_ Hlog].
    rewrite Forall_forall in Hlog.
    apply (engine_event_category _ (Hlog ev Hev)). symmetry. exact Hc.
Qed.

Lemma X25_type_filter_example :
  EventLog.uniqueTypes sample_events = ["train"; "system"] /\
  EventLog.filteredEvents "all" "system" sample_events = [].
Proof. split; vm_compute; reflexivity. Qed.

(** ** The creation form *)

Lemma form_failures_ok (actions : list FormAction) :
  NoDup (form_failures (form_run actions)) /\
  "" ∉ form_failures (form_run actions).
Proof.
  unfold form_run.
  assert (forall form,
            NoDup (form_failures form) /\ "" ∉ form_failures form ->
            NoDup (form_failures (foldl form_step form actions)) /\
            "" ∉ form_failures (foldl form_step form actions)) as H.
  { induction actions as [|a actions IH]; intros form Hform; [exact Hform|].
    simpl. apply IH. destruct Hform as [Hnd Hne].
    destruct a as [text| |failure|]; simpl.
    - split; assumption.
    - unfold EntryDashboard.addFailure.
      destruct (bool_decide (trim (EntryDashboard.failureInput form) = ""))
        eqn:E1; simpl; [split; assumption|].
      unfold includes.
      destruct (bool_decide (trim (EntryDashboard.failureInput form) ∈ _))
        eqn:E2; simpl; [split; assumption|].
      apply bool_decide_eq_false in E1, E2.
      unfold form_failures. simpl. split.
      + apply NoDup_app. split; [exact Hnd|]. split; [|apply NoDup_singleton].
        intros x Hx Hx'. apply list_elem_of_singleton in Hx'. subst x.
        apply E2, Hx.
      + rewrite elem_of_app, list_elem_of_singleton.
        intros [H|H]; [apply Hne, H|apply E1; symmetry; exact H].
    - unfold form_failures. simpl. split.
      + apply NoDup_filter, Hnd.
      + intros H. apply list_elem_of_filter in H as [_ H]. apply Hne, H.
    - split; [apply NoDup_nil_2|apply not_elem_of_nil]. }
  apply H. split; [apply NoDup_nil_2|apply not_elem_of_nil].
Qed.

Lemma filter_absent (x : string) (l : list string) :
  x ∉ l -> filter (fun f => f <> x) l = l.
Proof.
  induction l as [|y l IH]; [reflexivity|].
  rewrite not_elem_of_cons. intros [Hne Hl]. rewrite filter_cons.
  destruct (decide (y <> x)) as [_|Hn]; [rewrite (IH Hl); reflexivity|].
  exfalso. apply Hn. congruence.
Qed.

(** X26: whatever the operator types, adds and removes, the failures listed in
    the form are pairwise distinct and none is empty.  Removing a failure
    takes it out of the list and keeps the others; adding the trimmed input,
    when it is not empty and not yet listed, puts it at the end and clears
    the field, and removing it again gives the list back; a blank or already
    listed input changes nothing. *)
Theorem X26_failure_list (actions : list FormAction) (failure : string) :
  let form := form_run actions in
  let entry := trim (EntryDashboard.failureInput form) in
  NoDup (form_failures form) /\
  ("" ∉ form_failures form) /\
  (failure ∉ form_failures (EntryDashboard.removeFailure failure form)) /\
  (forall f, f <> failure -> f ∈ form_failures form ->
     f ∈ form_failures (EntryDashboard.removeFailure failure form)) /\
  (entry <> "" -> entry ∉ form_failures form ->
   form_failures (EntryDashboard.addFailure form)
   = form_failures form ++ [entry] /\
   EntryDashboard.failureInput (EntryDashboard.addFailure form) = "" /\
   form_failures
     (EntryDashboard.removeFailure entry (EntryDashboard.addFailure form))
   = form_failures form) /\
  (entry = "" \/ entry ∈ form_failures form ->
   EntryDashboard.addFailure form = form).
Proof.
  intros form entry. destruct (form_failures_ok actions) as [Hnd Hne].
  fold form in Hnd, Hne.
  split; [exact Hnd|]. split; [exact Hne|]. split; [|split; [|split]].
  - unfold form_failures. simpl. intros H.
    apply list_elem_of_filter in H as [H _]. apply H. reflexivity.
  - intros f Hf Hin. unfold form_failures. simpl.
    apply list_elem_of_filter. split; assumption.
  - intros Hentry Hnew. unfold EntryDashboard.addFailure. fold entry.
    rewrite (bool_decide_eq_false_2 _ Hentry). unfold includes.
    rewrite (bool_decide_eq_false_2 _ Hnew). simpl.
    split; [reflexivity|]. split; [reflexivity|].
    unfold form_failures. simpl. rewrite filter_app, filter_cons, filter_nil.
    destruct (decide (entry <> entry)) as [Hn|_]; [congruence|].
    rewrite app_nil_r. apply filter_absent, Hnew.
  - intros H. unfold EntryDashboard.addFailure. fold entry. unfold includes.
    destruct H as [H|H].
    + rewrite (bool_decide_eq_true_2 _ H). reflexivity.
    + fold (form_failures form). rewrite (bool_decide_eq_true_2 _ H).
      rewrite andb_false_r. reflexivity.
Qed.

Lemma X26_failure_list_example :
  form_failures
    (form_run [TypeFailure "  brake "; PressAdd; TypeFailure "wheel-alignment";
               PressAdd; TypeFailure "brake"; PressAdd; TypeFailure "   ";
               PressAdd])
  = ["brake"; "wheel-alignment"] /\
  form_failures
    (form_run [TypeFailure "brake"; PressAdd; TypeFailure "door"; PressAdd;
               PressRemove "brake"])
  = ["door"].
Proof. split; vm_compute; reflexivity. Qed.

(** X27: pressing Create hands the engine a train with the three tasks of the
    form's job card, none of them done, and with the failures and flags of the
    form, and resets the form.  The train is registered under the generated
    id as arriving at the entry node; it keeps the number of the form unless
    that is empty (a number of blanks only is kept as typed), in which case it
    gets the sequential number; its job progress is 0; one event is logged
    and one timer is set. *)
Theorem X27_create_from_form (rnd : Entropy) (form : EntryDashboard.Form)
    (e : Engine) :
  let e' := create_from_form rnd form e in
  let t := EntryDashboard.newTrain form in
  snd (EntryDashboard.handleCreateTrain form) = initial_form /\
  (exists train,
     oget (generated_id rnd) (trains (state e')) = Some train /\
     t_status train = arriving /\ locationNodeId train = "E1" /\
     jobCard train = EntryDashboard.form_jobCard /\
     failures train = EntryDashboard.nt_failures t /\
     priority train = EntryDashboard.nt_priority t /\
     departSoon train = EntryDashboard.nt_departSoon t /\
     (EntryDashboard.nt_number t <> "" ->
      t_number train = EntryDashboard.nt_number t) /\
     (EntryDashboard.nt_number t = "" ->
      t_number train = sequential_number e)) /\
  (WorkshopDashboard.getJobProgress (generated_id rnd) (state e') == 0)%Q /\
  length (eventLog (state e')) = S (length (eventLog (state e))) /\
  length (timers e') = S (length (timers e)).
Proof.
  intros e' t. subst e' t. split; [reflexivity|].
  unfold create_from_form, YardControlSystem.handleCreateTrain, processCommand.
  cbn [cmd_type cmd_data fst EntryDashboard.handleCreateTrain].
  split; [|split; [|split]].
  - eexists. split; [simpl; apply oget_oset_eq|]. simpl.
    repeat split; try (rewrite orb_false_r; reflexivity).
    + intros H. destruct (EntryDashboard.nt_number _); [contradiction|reflexivity].
    + intros ->. reflexivity.
  - unfold WorkshopDashboard.getJobProgress. simpl. rewrite oget_oset_eq.
    simpl. reflexivity.
  - simpl. rewrite length_app. simpl. lia.
  - simpl. rewrite length_app. simpl. lia.
Qed.

Lemma X27_create_from_form_example :
  t_number
  <$> Object_values
        (trains (state (create_from_form (entropy_at 1000 "k3j9x0q2a")
                          (EntryDashboard.mkForm
                             (EntryDashboard.mkNewTrain "  " 85 25000 false
                                false ["brake"]) "")
                          sample_engine)))
  = ["  "].
Proof. vm_compute. reflexivity. Qed.

(** ** Job progress and siding utilization *)

Lemma filter_all_length {A} (P : A -> Prop) `{!forall x, Decision (P x)}
    (l : list A) :
  length (filter P l) = length l <-> Forall P l.
Proof.
  induction l as [|x l IH]; [split; [constructor|reflexivity]|].
  rewrite filter_cons. pose proof (length_filter P l) as Hle.
  destruct (decide (P x)) as [Hx|Hx]; cbn [length].
  - rewrite Forall_cons. split.
    + intros Hlen. split; [exact Hx|]. apply IH. lia.
    + intros [_ Hall]. apply IH in Hall. lia.
  - split; [lia|]. intros Hall. apply Forall_cons in Hall as [Hall _].
    contradiction.
Qed.

Lemma filter_none_length {A} (P : A -> Prop) `{!forall x, Decision (P x)}
    (l : list A) :
  length (filter P l) = 0%nat <-> Forall (fun x => ~ P x) l.
Proof.
  induction l as [|x l IH]; [split; [constructor|reflexivity]|].
  rewrite filter_cons.
  destruct (decide (P x)) as [Hx|Hx]; cbn [length].
  - split; [lia|]. intros Hall. apply Forall_cons in Hall as [Hall _].
    contradiction.
  - rewrite Forall_cons, IH. tauto.
Qed.

(** The share [c / n * 100] of [c] among [n > 0]. *)
Lemma share_bounds (c n : Z) :
  0 <= c <= n -> 0 < n ->
  (0 <= inject_Z c / inject_Z n * 100 /\ inject_Z c / inject_Z n * 100 <= 100)%Q.
Proof.
  intros [Hc Hcn] Hn.
  assert (0 < inject_Z n)%Q as Hnq by (rewrite Zlt_Qlt in Hn; exact Hn).
  assert (0 <= inject_Z c / inject_Z n)%Q as H0.
  { apply Qle_shift_div_l; [exact Hnq|]. rewrite Qmult_0_l.
    rewrite Zle_Qle in Hc. exact Hc. }
  assert (inject_Z c / inject_Z n <= 1)%Q as H1.
  { apply Qle_shift_div_r; [exact Hnq|]. rewrite Qmult_1_l.
    rewrite Zle_Qle in Hcn. exact Hcn. }
  split; lra.
Qed.

Lemma share_full (c n : Z) :
  0 < n -> (inject_Z c / inject_Z n * 100 == 100)%Q <-> c = n.
Proof.
  intros Hn.
  assert (~ inject_Z n == 0)%Q as Hnq.
  { intros H. change 0%Q with (inject_Z 0) in H.
    apply (proj1 (inject_Z_injective _ _)) in H. lia. }
  split.
  - intros H. apply (proj1 (inject_Z_injective _ _)).
    assert (inject_Z c == inject_Z c / inject_Z n * 100 / 100 * inject_Z n)%Q
      as -> by (field; exact Hnq).
    rewrite H. field.
  - intros ->. field. exact Hnq.
Qed.

Lemma share_none (c n : Z) :
  0 < n -> (inject_Z c / inject_Z n * 100 == 0)%Q <-> c = 0.
Proof.
  intros Hn.
  assert (~ inject_Z n == 0)%Q as Hnq.
  { intros H. change 0%Q with (inject_Z 0) in H.
    apply (proj1 (inject_Z_injective _ _)) in H. lia. }
  split.
  - intros H. apply (proj1 (inject_Z_injective _ _)).
    assert (inject_Z c == inject_Z c / inject_Z n * 100 / 100 * inject_Z n)%Q
      as -> by (field; exact Hnq).
    rewrite H. change (inject_Z 0) with 0%Q. field.
  - intros ->. change (inject_Z 0) with 0%Q. field. exact Hnq.
Qed.

Lemma share_mono (c c' n : Z) :
  c <= c' -> 0 < n ->
  (inject_Z c / inject_Z n * 100 <= inject_Z c' / inject_Z n * 100)%Q.
Proof.
  intros Hc Hn.
  assert (0 < inject_Z n)%Q as Hnq by (rewrite Zlt_Qlt in Hn; exact Hn).
  apply Qmult_le_compat_r; [|discriminate].
  apply Qmult_le_compat_r; [rewrite Zle_Qle in Hc; exact Hc|].
  apply Qlt_le_weak, Qinv_lt_0_compat, Hnq.
Qed.

(** X28: the job progress shown for a train is a percentage between 0 and
    100, 0 for an unknown train; for a registered train it is 100 exactly
    when the job card has tasks and all are done, and 0 exactly when no task
    is done.  No call and no timer changes it, as long as no train is created
    under the same id again: the engine never marks a task done. *)
Theorem X28_job_progress (definition : YardDefinition) (actions : list Action)
    (e : Engine) (trainId : string) :
  let p := WorkshopDashboard.getJobProgress trainId (state e) in
  (0 <= p /\ p <= 100)%Q /\
  (oget trainId (trains (state e)) = None -> p = 0%Q) /\
  (forall train, oget trainId (trains (state e)) = Some train ->
     ((p == 100)%Q <->
      jobCard train <> [] /\
      Forall (fun task => task_done task = true) (jobCard train)) /\
     ((p == 0)%Q <->
      Forall (fun task => task_done task <> true) (jobCard train)) /\
     ((forall a, a ∈ actions -> ~ creates a trainId) ->
      WorkshopDashboard.getJobProgress trainId
        (state (run definition actions e)) = p)).
Proof.
  intros p. subst p. unfold WorkshopDashboard.getJobProgress.
  destruct (oget trainId (trains (state e))) as [train|] eqn:Et.
  - set (done := filter (fun task => task_done task = true) (jobCard train)).
    pose proof (length_filter (fun task => task_done task = true)
                  (jobCard train)) as Hle. fold done in Hle.
    split; [|split; [discriminate|]].
    + destruct (0 <? Z.of_nat (length (jobCard train))) eqn:E.
      * apply Z.ltb_lt in E. apply share_bounds; lia.
      * split; discriminate.
    + intros train' [= <-]. fold done. split; [|split].
      * destruct (0 <? Z.of_nat (length (jobCard train))) eqn:E.
        -- apply Z.ltb_lt in E. rewrite (share_full _ _ E).
           rewrite <- (filter_all_length
                         (fun task => task_done task = true) (jobCard train)).
           fold done. split.
           ++ intros H. split; [|lia].
              intros Hnil. rewrite Hnil in E. simpl in E. lia.
           ++ intros [_ H]. lia.
        -- apply Z.ltb_ge in E. split; [discriminate|].
           intros [Hne _]. destruct (jobCard train); [congruence|].
           simpl in E. lia.
      * destruct (0 <? Z.of_nat (length (jobCard train))) eqn:E.
        -- apply Z.ltb_lt in E. rewrite (share_none _ _ E).
           rewrite <- (filter_none_length
                         (fun task => task_done task = true) (jobCard train)).
           fold done. lia.
        -- apply Z.ltb_ge in E. split; [|reflexivity].
           intros _. destruct (jobCard train); [constructor|].
           simpl in E. lia.
      * intros Hfresh.
        destruct (kept_run definition actions e trainId train) as (t' & -> & Hs);
          [|exact Et|].
        -- intros (a & Ha & Hc). exact (Hfresh a Ha Hc).
        -- destruct Hs as (_ & _ & _ & _ & -> & _). reflexivity.
  - split; [split; discriminate|]. split; [reflexivity|discriminate].
Qed.

Lemma X28_job_progress_example :
  (WorkshopDashboard.getJobProgress "t"
     (mkYardState
        [("t", mkTrain "t" "T1" workshop "WL1" east 50 25000
                 [mkJobTask "1" "Brake system check" true;
                  mkJobTask "2" "Door operation test" false] [] false false 0 0)]
        [] [] [] [] 1)
   == 50)%Q.
Proof. vm_compute. reflexivity. Qed.

Lemma Math_round_bounds (q : Q) :
  (0 <= q)%Q -> (q <= 100)%Q -> 0 <= Math_round q <= 100.
Proof.
  intros H0 H100. unfold Math_round. split.
  - change 0 with (Qfloor 0). apply Qfloor_resp_le. lra.
  - change 100 with (Qfloor (100 + (1 # 2))). apply Qfloor_resp_le. lra.
Qed.

Lemma Math_round_mono (p q : Q) : (p <= q)%Q -> Math_round p <= Math_round q.
Proof. intros H. unfold Math_round. apply Qfloor_resp_le. lra. Qed.

Lemma occupied_slots_le (m : object SidingSlot) :
  (occupied_slots m <= length (Object_keys m))%nat.
Proof.
  unfold occupied_slots, Object_keys, Object_values.
  etrans; [apply length_filter|]. rewrite !length_fmap. lia.
Qed.

(** X29: the siding utilization is not a number for a yard without slots;
    otherwise it is a whole percentage between 0 and 100 that never goes down,
    whatever is called and whichever timer fires, since no slot is ever
    released.  In a state reached by calls with plain ids every occupied slot
    shows a train. *)
Theorem X29_siding_utilization (definition : YardDefinition)
    (actions : list Action) (e : Engine) :
  let st := state e in
  let st' := state (run definition actions e) in
  (sidingSlots st = [] -> SidingManager.getSidingUtilization st = NaN) /\
  (sidingSlots st <> [] ->
   exists u u',
     SidingManager.getSidingUtilization st = Some (inject_Z u) /\
     SidingManager.getSidingUtilization st' = Some (inject_Z u') /\
     0 <= u /\ u <= u' /\ u' <= 100) /\
  (reachable_plain definition e ->
   forall k s, oget k (sidingSlots st) = Some s ->
     truthy (sl_occupiedBy s) = true ->
     is_Some (SidingManager.getTrainAtSlot k st)).
Proof.
  intros st st'. subst st st'. split; [|split].
  - intros H. unfold SidingManager.getSidingUtilization. rewrite H. reflexivity.
  - intros Hne. unfold SidingManager.getSidingUtilization.
    pose proof (slots_run definition actions e) as Hrun.
    rewrite (entries_keys _ _ _ Hrun).
    pose proof (occupied_slots_step _ _ Hrun) as Hstep.
    pose proof (occupied_slots_le
                  (sidingSlots (state (run definition actions e)))) as Hle.
    rewrite (entries_keys _ _ _ Hrun) in Hle.
    set (total := length (Object_keys (sidingSlots (state e)))) in *.
    assert (0 < Z.of_nat total) as Htotal.
    { subst total. unfold Object_keys. rewrite length_fmap.
      destruct (sidingSlots (state e)); [congruence|simpl; lia]. }
    destruct (Z.of_nat total =? 0) eqn:E; [apply Z.eqb_eq in E; lia|].
    eexists. eexists. split; [reflexivity|]. split; [reflexivity|].
    split; [|split].
    + apply Math_round_bounds; apply share_bounds; lia.
    + apply Math_round_mono, share_mono; lia.
    + apply Math_round_bounds; apply share_bounds; lia.
  - intros He k s Hk Ho. apply reachable_plain_reachable in He.
    unfold SidingManager.getTrainAtSlot. rewrite Hk, Ho.
    destruct (sl_occupiedBy s) as [o|] eqn:Eo; [|discriminate Ho]. simpl.
    destruct (reachable_invariant definition e He) as (_ & _ & _ & Hocc).
    apply (occ_slots _ Hocc k s o Hk Eo).
Qed.

Lemma X29_siding_utilization_example :
  SidingManager.getSidingUtilization (state sample_engine) = Some 0%Q /\
  SidingManager.getSidingUtilization (state parked_engine) = Some (inject_Z 33) /\
  SidingManager.getSidingUtilization (state reassigned_engine)
  = Some (inject_Z 67) /\
  t_number <$> SidingManager.getTrainAtSlot "S1a" (state reassigned_engine)
  = Some "T1".
Proof. repeat split; vm_compute; reflexivity. Qed.

(** ** Timer delays *)

(** X30: the completion timers are set for a delay proportional to the speed
    multiplier: in a reachable state a successful inspection assignment adds
    one completion timer after 300000 ms times the speed, between 30000 and
    3000000 ms, and a successful workshop assignment one after 10000 ms times
    the speed, between 1000 and 100000 ms; so a higher speed gives a longer
    wait.  A speed change leaves the pending timers as they are. *)
Theorem X30_timer_delays (definition : YardDefinition) (e : Engine) (now : Z)
    (trainId target : string) (train : Train) :
  reachable definition e ->
  oget trainId (trains (state e)) = Some train ->
  let speed := simulationSpeed (state e) in
  (forall bay, oget target (inspectionBays (state e)) = Some bay ->
     bay_status bay = bay_free ->
     exists ms,
       timers (assignTrainToInspection now trainId target e)
       = timers e ++ [mkTimer (CbCompleteInspection trainId target) ms] /\
       (ms == 300000 * speed /\ 30000 <= ms /\ ms <= 3000000)%Q) /\
  (forall ws, oget target (workshopLines (state e)) = Some ws ->
     truthy (ws_occupiedBy ws) = false ->
     exists ms,
       timers (assignTrainToWorkshop now trainId target e)
       = timers e ++ [mkTimer (CbCompleteWorkshop trainId target) ms] /\
       (ms == 10000 * speed /\ 1000 <= ms /\ ms <= 100000)%Q) /\
  (forall rnd v, timers (processCommand rnd (speed_command v) e) = timers e).
Proof.
  intros He Ht speed. subst speed.
  destruct (reachable_built definition e He) as ([Hlo Hhi] & Hbays & _).
  split; [|split].
  - intros bay Hb Hfree. destruct (Hbays target bay Hb) as [(_ & _ & Hd) _].
    unfold assignTrainToInspection. rewrite Ht, Hb.
    rewrite (bool_decide_eq_true_2 _ Hfree). simpl.
    eexists. split; [reflexivity|]. rewrite Hd. split; [reflexivity|]. lra.
  - intros ws Hw Hfree. unfold assignTrainToWorkshop. rewrite Ht, Hw, Hfree.
    simpl. eexists. split; [reflexivity|]. split; [reflexivity|]. lra.
  - intros rnd v. unfold processCommand. simpl.
    destruct (Qeq_bool v 0); reflexivity.
Qed.

Lemma X30_timer_delays_witness :
  exists train bay,
    reachable sample_yard one_train_engine /\
    oget "train_1000_k3j9x0q2a" (trains (state one_train_engine)) = Some train /\
    oget "IL1" (inspectionBays (state one_train_engine)) = Some bay /\
    bay_status bay = bay_free /\
    exists ms,
      timers (assignTrainToInspection 3000 "train_1000_k3j9x0q2a" "IL1"
                one_train_engine)
      = timers one_train_engine
        ++ [mkTimer (CbCompleteInspection "train_1000_k3j9x0q2a" "IL1") ms] /\
      (ms == 300000 * simulationSpeed (state one_train_engine) /\
       30000 <= ms /\ ms <= 3000000)%Q.
Proof.
  eexists. eexists.
  assert (Ht : oget "train_1000_k3j9x0q2a" (trains (state one_train_engine))
               = Some (mkTrain "train_1000_k3j9x0q2a" "T1" arriving "E1" east
                         50 25000 [] [] false false 1000 1000))
    by (vm_compute; reflexivity).
  assert (Hb : oget "IL1" (inspectionBays (state one_train_engine))
               = Some (mkInspectionBay "IL1" "IL-1" "IL1" None None 300000
                         bay_free))
    by (vm_compute; reflexivity).
  split; [apply reachable_one_train_engine|]. split; [exact Ht|].
  split; [exact Hb|]. split; [reflexivity|].
  exact (proj1 (X30_timer_delays sample_yard one_train_engine 3000
                  "train_1000_k3j9x0q2a" "IL1" _
                  reachable_one_train_engine Ht) _ Hb eq_refl).
Defined.
